(** * BGmi: the support layer [bgmi/utils/__init__.py]

    A shallow embedding of the remote-artifact synchronisation code of
    BGmi (path normalisation, cover download, frontend installation,
    update check, episode filter) and the properties its specification
    states about it.

    Conventions of the embedding.
    - A Python [str] is a [string]: the sequence of its UTF-8 bytes.  Every
      pattern the code searches for or deletes is ASCII, and an ASCII byte
      never occurs inside a multi-byte sequence, so replacing and deleting on
      bytes agrees with Python's code-point operations; comparing byte
      sequences lexicographically agrees with comparing code points.  Where
      Python looks at characters ([str.strip], [int]) the code points are
      decoded; the case tables behind [str.lower] are taken from the
      environment for a text that is not ASCII.
    - Paths are POSIX paths ([os.path] is [posixpath]).
    - Effectful code is a state-and-exception computation over a [World]
      holding the file system, the process environment and the trace of the
      calls made to the outside (requests, console, disk, pool).
    - The disk maps path strings to files and directories; a path names an
      entry as it is spelled (no links, no [.] or [..] resolution).  What is
      stated about the files that a run of [download_cover] leaves is stated
      for plain paths, which have one spelling.
    - Left out: the log file ([logger] and the [log_utils_function]
      decorator), the indicator and colour that the [print_*] helpers put
      around a message, the decoding of files other than the marker, the
      length limit of [int] in recent interpreters, and the interleaving of
      the pool's workers (their calls are made in the order of the list,
      every call being made whatever the others give).
    - The [print_*] helpers with their decorators, and [test_connection],
      are modelled on their own ([Console], [test_connection]), each with
      the record of what it writes or requests.  *)

From Stdlib Require Import ZArith QArith Qround Lia Bool Ascii DecimalString DecimalZ DecimalPos.
From stdpp Require Import gmap strings list.

Local Open Scope Z_scope.

(** ** UTF-8

    A text is held as its UTF-8 bytes; the operations of Python that look at
    characters ([str.strip], [int]) go through the code points. *)

Module Utf8.

Definition byte (c : ascii) : Z := Z.of_N (N_of_ascii c).

Definition char (n : Z) : ascii := ascii_of_N (Z.to_N n).

(** The payload of a continuation byte. *)
Definition continuation (c : ascii) : option Z :=
  let n := byte c in
  if (128 <=? n) && (n <? 192) then Some (n - 128) else None.

(** The payloads of the first [k] bytes of [s], which must be continuation
    bytes, added to [acc], and what follows them. *)
Fixpoint payload (k : nat) (acc : Z) (s : string) : option (Z * string) :=
  match k with
  | O => Some (acc, s)
  | S k' =>
      match s with
      | EmptyString => None
      | String c r =>
          match continuation c with
          | Some x => payload k' (64 * acc + x) r
          | None => None
          end
      end
  end.

(** The first character of a text: its code point and what follows it.
    [None] where the bytes are no UTF-8 (a stray continuation byte, a
    sequence cut short, an overlong form, a surrogate, a code point beyond
    U+10FFFF). *)
Definition next (s : string) : option (Z * string) :=
  match s with
  | EmptyString => None
  | String c r =>
      let n := byte c in
      if n <? 128 then Some (n, r)
      else if n <? 192 then None
      else if n <? 224 then
        match payload 1 (n - 192) r with
        | Some (cp, r') => if cp <? 128 then None else Some (cp, r')
        | None => None
        end
      else if n <? 240 then
        match payload 2 (n - 224) r with
        | Some (cp, r') =>
            if (cp <? 2048) || ((55296 <=? cp) && (cp <=? 57343)) then None
            else Some (cp, r')
        | None => None
        end
      else if n <? 248 then
        match payload 3 (n - 240) r with
        | Some (cp, r') =>
            if (cp <? 65536) || (1114111 <? cp) then None else Some (cp, r')
        | None => None
        end
      else None
  end.

(** The code points of a text; a character takes at least one byte, so the
    length of the text is fuel enough. *)
Fixpoint decode_from (fuel : nat) (s : string) : option (list Z) :=
  match s with
  | EmptyString => Some []
  | String _ _ =>
      match fuel with
      | O => None
      | S fuel' =>
          match next s with
          | Some (cp, r) =>
              match decode_from fuel' r with
              | Some cps => Some (cp :: cps)
              | None => None
              end
          | None => None
          end
      end
  end.

Definition decode (s : string) : option (list Z) := decode_from (String.length s) s.

Definition encode_char (cp : Z) : string :=
  if cp <? 128 then String (char cp) ""
  else if cp <? 2048 then
    String (char (192 + cp / 64)) (String (char (128 + cp mod 64)) "")
  else if cp <? 65536 then
    String (char (224 + cp / 4096))
      (String (char (128 + (cp / 64) mod 64)) (String (char (128 + cp mod 64)) ""))
  else
    String (char (240 + cp / 262144))
      (String (char (128 + (cp / 4096) mod 64))
         (String (char (128 + (cp / 64) mod 64)) (String (char (128 + cp mod 64)) ""))).

Fixpoint encode (cps : list Z) : string :=
  match cps with
  | [] => ""
  | cp :: rest => encode_char cp +:+ encode rest
  end.

End Utf8.

(** ** Python strings *)

Module PyStr.

Definition illegal_quote : ascii := "034"%char.

(** [s[1:]] *)
Definition tail (s : string) : string :=
  match s with
  | EmptyString => EmptyString
  | String _ r => r
  end.

(** [s[n:]] *)
Fixpoint drop (n : nat) (s : string) : string :=
  match n, s with
  | S k, String _ r => drop k r
  | _, _ => s
  end.

(** [s.startswith(p)] *)
Definition startswith (s p : string) : bool := String.prefix p s.

(** [c in s] for a one-character [c]. *)
Fixpoint mem (c : ascii) (s : string) : bool :=
  match s with
  | EmptyString => false
  | String d r => if Ascii.eqb c d then true else mem c r
  end.

(** [sub in s] *)
Fixpoint contains (sub s : string) : bool :=
  match s with
  | EmptyString => String.prefix sub s
  | String _ r => if String.prefix sub s then true else contains sub r
  end.

(** [s.replace(old, new)] for a non-empty [old]: the occurrences of [old]
    are found from the left and do not overlap.  [skip] counts the
    characters of a matched occurrence still to be dropped. *)
Fixpoint replace_from (old new : string) (skip : nat) (s : string) : string :=
  match s with
  | EmptyString => EmptyString
  | String c r =>
      match skip with
      | S k => replace_from old new k r
      | O =>
          if String.prefix old s
          then new +:+ replace_from old new (Nat.pred (String.length old)) r
          else String c (replace_from old new O r)
      end
  end.

(** With an empty [old], Python puts [new] before every character and at
    the end. *)
Fixpoint intersperse (new s : string) : string :=
  match s with
  | EmptyString => new
  | String c r => new +:+ String c (intersperse new r)
  end.

Definition replace (old new s : string) : string :=
  match old with
  | EmptyString => intersperse new s
  | String _ _ => replace_from old new O s
  end.

(** Deleting the characters that satisfy [p]. *)
Fixpoint remove_if (p : ascii -> bool) (s : string) : string :=
  match s with
  | EmptyString => EmptyString
  | String c r => if p c then remove_if p r else String c (remove_if p r)
  end.

(** [s.lstrip(chars)] and [s.rstrip(chars)], the characters given by a test. *)
Fixpoint lstrip_if (p : ascii -> bool) (s : string) : string :=
  match s with
  | EmptyString => EmptyString
  | String c r => if p c then lstrip_if p r else s
  end.

Fixpoint rstrip_if (p : ascii -> bool) (s : string) : string :=
  match s with
  | EmptyString => EmptyString
  | String c r =>
      match rstrip_if p r with
      | EmptyString => if p c then EmptyString else String c EmptyString
      | r' => String c r'
      end
  end.

(** Every character of [s] passes the test [q]. *)
Fixpoint all_chars (q : ascii -> bool) (s : string) : bool :=
  match s with
  | EmptyString => true
  | String c r => q c && all_chars q r
  end.

(** White space, as [str.isspace] has it, by code point. *)
Definition is_space (cp : Z) : bool :=
  ((9 <=? cp) && (cp <=? 13)) || ((28 <=? cp) && (cp <=? 32))
  || (cp =? 133) || (cp =? 160) || (cp =? 5760)
  || ((8192 <=? cp) && (cp <=? 8202)) || (cp =? 8232) || (cp =? 8233)
  || (cp =? 8239) || (cp =? 8287) || (cp =? 12288).

Fixpoint lstrip_list {A} (p : A -> bool) (l : list A) : list A :=
  match l with
  | [] => []
  | x :: r => if p x then lstrip_list p r else l
  end.

Definition rstrip_list {A} (p : A -> bool) (l : list A) : list A :=
  rev (lstrip_list p (rev l)).

(** [s.strip()]: the white-space characters at both ends are dropped.  (A
    [str] is always UTF-8; other bytes are returned as they are.) *)
Definition strip (s : string) : string :=
  match Utf8.decode s with
  | Some cps => Utf8.encode (rstrip_list is_space (lstrip_list is_space cps))
  | None => s
  end.

(** [s.lower()] and [s.upper()] on ASCII letters; other bytes are kept. *)
Definition lower_char (c : ascii) : ascii :=
  let n := nat_of_ascii c in
  if (65 <=? n)%nat && (n <=? 90)%nat then ascii_of_nat (n + 32) else c.

Definition upper_char (c : ascii) : ascii :=
  let n := nat_of_ascii c in
  if (97 <=? n)%nat && (n <=? 122)%nat then ascii_of_nat (n - 32) else c.

Fixpoint map_chars (f : ascii -> ascii) (s : string) : string :=
  match s with
  | EmptyString => EmptyString
  | String c r => String (f c) (map_chars f r)
  end.

Definition lower : string -> string := map_chars lower_char.
Definition upper : string -> string := map_chars upper_char.

(** [s.split(sep)] for a one-character [sep]: never the empty list. *)
Fixpoint split (sep : ascii) (s : string) : list string :=
  match s with
  | EmptyString => [EmptyString]
  | String c r =>
      if Ascii.eqb c sep then EmptyString :: split sep r
      else match split sep r with
           | [] => [String c EmptyString]
           | w :: ws => String c w :: ws
           end
  end.

(** [a > b] on strings: lexicographic on the characters, a proper prefix
    being the smaller. *)
Fixpoint gtb (a b : string) : bool :=
  match a, b with
  | EmptyString, _ => false
  | String _ _, EmptyString => true
  | String x a', String y b' =>
      if (nat_of_ascii y <? nat_of_ascii x)%nat then true
      else if (nat_of_ascii x <? nat_of_ascii y)%nat then false
      else gtb a' b'
  end.

(** The value of a decimal digit. *)
Definition digit (c : ascii) : option Z :=
  let n := Z.of_nat (nat_of_ascii c) in
  if (48 <=? n) && (n <=? 57) then Some (n - 48) else None.

(** The digits of an [int(...)] argument: at least one digit, single
    underscores allowed between digits. *)
Fixpoint parse_digits (acc : Z) (after_digit : bool) (s : string) : option Z :=
  match s with
  | EmptyString => if after_digit then Some acc else None
  | String c r =>
      match digit c with
      | Some d => parse_digits (10 * acc + d) true r
      | None =>
          if Ascii.eqb c "_" && after_digit then parse_digits acc false r
          else None
      end
  end.

(** The first code points of the runs of ten decimal digits of Unicode
    14.0 (the [decimal] property of the interpreter's database). *)
Definition decimal_runs : list Z :=
  [48; 1632; 1776; 1984; 2406; 2534; 2662; 2790; 2918; 3046; 3174; 3302; 3430; 3558;
   3664; 3792; 3872; 4160; 4240; 6112; 6160; 6470; 6608; 6784; 6800; 6992; 7088; 7232;
   7248; 42528; 43216; 43264; 43472; 43504; 43600; 44016; 65296; 66720; 68912; 69734;
   69872; 69942; 70096; 70384; 70736; 70864; 71248; 71360; 71472; 71904; 72016; 72784;
   73040; 73120; 92768; 92864; 93008; 120782; 120792; 120802; 120812; 120822; 123200;
   123632; 125264; 130032].

(** The value of a decimal digit of any script. *)
Definition decimal (cp : Z) : option Z :=
  match List.find (fun start => (start <=? cp) && (cp <? start + 10)) decimal_runs with
  | Some start => Some (cp - start)
  | None => None
  end.

(** What [int] makes of a character before it reads the text: ASCII is
    kept, other white space becomes a space, other decimal digits become
    ASCII digits, and anything else a character that no number holds. *)
Definition to_ascii (cp : Z) : ascii :=
  if cp <? 128 then Utf8.char cp
  else if is_space cp then " "%char
  else match decimal cp with
       | Some d => Utf8.char (48 + d)
       | None => "?"%char
       end.

Fixpoint ascii_text (cps : list Z) : string :=
  match cps with
  | [] => ""
  | cp :: rest => String (to_ascii cp) (ascii_text rest)
  end.

(** The white space that the reader of numbers skips: [isspace] of C. *)
Definition c_isspace (c : ascii) : bool :=
  let n := Utf8.byte c in ((9 <=? n) && (n <=? 13)) || (n =? 32).

(** [int(s)] in base ten: surrounding white space, an optional sign, then the
    digits.  [None] stands for [ValueError] (which the error of decoding a
    file that is no UTF-8 is, too).  (The length limit of recent
    interpreters is left out.) *)
Definition int (s : string) : option Z :=
  match Utf8.decode s with
  | None => None
  | Some cps =>
      match rstrip_if c_isspace (lstrip_if c_isspace (ascii_text cps)) with
      | String "-" r => Z.opp <$> parse_digits 0 false r
      | String "+" r => parse_digits 0 false r
      | r => parse_digits 0 false r
      end
  end.

(** [str(n)] for an integer [n]. *)
Definition of_Z (n : Z) : string :=
  DecimalString.NilEmpty.string_of_int (Z.to_int n).

End PyStr.

(** [a > b] on lists of integers: the first differing position decides, and
    a proper prefix is the smaller. *)
Fixpoint list_gtb (a b : list Z) : bool :=
  match a, b with
  | [], _ => false
  | _ :: _, [] => true
  | x :: a', y :: b' =>
      if y <? x then true else if x <? y then false else list_gtb a' b'
  end.

(** ** [normalize_path] *)


Definition illegal_char : list string :=
  [":"; "*"; "?"; String PyStr.illegal_quote ""; "<"; ">"; "|"; "'"].

Definition normalize_path (url : string) : string :=
  let url := PyStr.replace "https://" "https/" (PyStr.replace "http://" "http/" url) in
  let url := fold_left (fun u char => PyStr.replace char "" u) illegal_char url in
  if PyStr.startswith url "/" then PyStr.tail url else url.

(** The wording of the specification, to be compared with the code. *)

Definition is_illegal (c : ascii) : bool :=
  match c with
  | ":" | "*" | "?" | "034" | "<" | ">" | "|" | "'" => true
  | _ => false
  end%char.

Definition drop_leading_separator (s : string) : string :=
  match s with
  | String "/" r => r
  | _ => s
  end.

(** "All occurrences of substring old replaced by new": reading from the
    left, an occurrence of [old] is replaced where it begins, and the
    reading goes on after it. *)
Inductive Replaced (old new : string) : string -> string -> Prop :=
| Replaced_end : Replaced old new "" ""
| Replaced_here (s t : string) :
    Replaced old new s t -> Replaced old new (old +:+ s) (new +:+ t)
| Replaced_next (c : ascii) (s t : string) :
    String.prefix old (String c s) = false ->
    Replaced old new s t -> Replaced old new (String c s) (String c t).

Definition normalize_spec (s : string) : string :=
  drop_leading_separator
    (PyStr.remove_if is_illegal
       (PyStr.replace "https://" "https/" (PyStr.replace "http://" "http/" s))).


(** ** [os.path] (POSIX) *)

Module OsPath.

Definition is_sep (c : ascii) : bool := Ascii.eqb c "/".

(** [os.path.join(a, b)] *)
Definition join (a b : string) : string :=
  if PyStr.startswith b "/" then b
  else if String.eqb a "" || PyStr.startswith (String.rev a) "/" then a +:+ b
  else a +:+ "/" +:+ b.

(** [p[:i], p[i:]] for [i = p.rfind("/") + 1] *)
Fixpoint cut (p : string) : string * string :=
  match p with
  | EmptyString => (EmptyString, EmptyString)
  | String c r =>
      let '(h, t) := cut r in
      if is_sep c then (String c h, t)
      else match h with
           | EmptyString => (EmptyString, String c t)
           | _ => (String c h, t)
           end
  end.

(** [os.path.split(p)]: the head loses its trailing separators unless it
    consists of separators only. *)
Definition split (p : string) : string * string :=
  let '(head, tail) := cut p in
  match PyStr.rstrip_if is_sep head with
  | EmptyString => (head, tail)
  | head' => (head', tail)
  end.

Definition dirname (p : string) : string := fst (split p).
Definition basename (p : string) : string := snd (split p).

(** A path that names its entry by its spelling alone: it has no empty
    segment (no doubled and no trailing separator) and no segment [.] or
    [..].  Two such paths, both absolute or both relative, name the same
    entry only when they are the same text. *)
Definition plain_segment (segment : string) : bool :=
  negb (String.eqb segment "" || String.eqb segment "." || String.eqb segment "..").

Definition plain (p : string) : bool :=
  match PyStr.split "/" p with
  | first :: rest =>
      if String.eqb first ""
      then match rest with
           | [] => false
           | _ :: _ => forallb plain_segment rest
           end
      else forallb plain_segment (first :: rest)
  | [] => false
  end.

End OsPath.

(** ** Exceptions and results *)

Inductive exn : Set :=
| ConnectionError     (* requests.exceptions.ConnectionError *)
| ConnectTimeout      (* a ConnectionError and a Timeout *)
| ReadTimeout         (* a Timeout, not a ConnectionError *)
| RequestException    (* any other exception of requests *)
| JSONDecodeError     (* a ValueError *)
| ValueError
| KeyError
| IndexError
| TypeError
| AttributeError
| FileNotFoundError   (* the next five are OSError *)
| FileExistsError
| NotADirectoryError
| IsADirectoryError
| OSError
| TarError            (* tarfile.TarError *)
| ReError             (* re.error *)
| RecursionError
| SystemExit.         (* a BaseException, not an Exception *)

Global Instance exn_eq_dec : EqDecision exn.
Proof. solve_decision. Defined.

Inductive result (A : Type) : Type :=
| Ok (a : A)
| Raise (e : exn).

Arguments Ok {A} a.
Arguments Raise {A} e.

(** The classes named by the [except] clauses of the module. *)
Definition is_ConnectionError (e : exn) : bool :=
  match e with ConnectionError | ConnectTimeout => true | _ => false end.

Definition is_JSONDecodeError (e : exn) : bool :=
  match e with JSONDecodeError => true | _ => false end.

Definition is_ValueError (e : exn) : bool :=
  match e with ValueError | JSONDecodeError => true | _ => false end.

Definition is_re_error (e : exn) : bool :=
  match e with ReError => true | _ => false end.

Definition is_Exception (e : exn) : bool :=
  match e with SystemExit => false | _ => true end.

(** ** Values exchanged with the outside *)

(** A decoded JSON document. *)
#[local] Unset Elimination Schemes.
Inductive json : Type :=
| JNull
| JBool (b : bool)
| JInt (n : Z)
| JFloat (q : Q)
| JStr (s : string)
| JList (l : list json)
| JDict (d : gmap string json).
#[local] Set Elimination Schemes.

(** [requests.Response]: the fields the module reads. *)
Record Response : Type := mkResponse {
  status_code : Z;
  content : string
}.

(** [bool(r)] is [r.ok]: false exactly for the client and server error
    statuses that [raise_for_status] rejects. *)
Definition Response_ok (r : Response) : bool :=
  negb ((400 <=? status_code r) && (status_code r <? 600)).

(** The truth value of an [Optional[Response]]. *)
Definition truthy (r : option Response) : bool :=
  match r with
  | None => false
  | Some r => Response_ok r
  end.

Inductive level : Set := Plain | Info | Success | Warning | Error.

(** The calls that leave the process, in the order they are made. *)
Inductive event : Type :=
| EGet (url : string) (timeout : Z)        (* requests.get(url, timeout=timeout) *)
| EPrint (l : level) (message : string)    (* print and the print_* helpers *)
| ETraceback                               (* traceback.print_exc() *)
| ETime                                    (* time.time() *)
| EThreadPool (workers : nat)              (* ThreadPool(workers): the workers are started *)
| EPoolClose                               (* p.close() *)
| EOpen (path : string)                    (* open(path, "w"): created or truncated *)
| EWrite (path : string) (data : string)   (* f.write(data), flushed on close *)
| EMakedirs (path : string)                (* os.makedirs(path) *)
| ERmtree (path : string)                  (* shutil.rmtree(path) *)
| EExtract (path : string)                 (* TarFile.extractall(path=path) *)
| EMove (src dst : string).                (* shutil.move(src, dst) *)

Inductive node : Type :=
| File (data : string)
| Dir.

Global Instance node_eq_dec : EqDecision node.
Proof. solve_decision. Defined.

Record World : Type := mkWorld {
  fs : gmap string node;            (* the disk: path to node *)
  environ : gmap string string;     (* os.environ *)
  trace : list event                (* what has been called so far *)
}.

(** ** The monad of the effectful code *)

Definition M (A : Type) : Type := World -> World * result A.

Definition ret {A} (a : A) : M A := fun w => (w, Ok a).

Definition raise {A} (e : exn) : M A := fun w => (w, Raise e).

Definition bind {A B} (m : M A) (k : A -> M B) : M B :=
  fun w =>
    match m w with
    | (w', Ok a) => k a w'
    | (w', Raise e) => (w', Raise e)
    end.

(** [try: m except C1 as e: h1 e except C2 as e: h2 e ...]: the first clause
    whose class contains the exception handles it; what a handler raises is
    not handled again. *)
Fixpoint select_handler {A} (clauses : list ((exn -> bool) * (exn -> M A))) (e : exn) : M A :=
  match clauses with
  | [] => raise e
  | (class, handler) :: rest => if class e then handler e else select_handler rest e
  end.

Definition try_except {A} (m : M A) (clauses : list ((exn -> bool) * (exn -> M A))) : M A :=
  fun w =>
    match m w with
    | (w', Raise e) => select_handler clauses e w'
    | r => r
    end.

Definition lift {A} (r : result A) : M A := fun w => (w, r).

Declare Scope M_scope.
Delimit Scope M_scope with M.
Notation "x <- m ;; k" := (bind m (fun x => k))
  (at level 100, m at next level, k at level 200, right associativity) : M_scope.
Notation "m ;; k" := (bind m (fun _ => k))
  (at level 100, k at level 200, right associativity) : M_scope.
Local Open Scope M_scope.

(** [for x in l: body x] *)
Fixpoint for_each {A} (l : list A) (body : A -> M unit) : M unit :=
  match l with
  | [] => ret tt
  | x :: l' => body x ;; for_each l' body
  end.

(** [p.map(f, tasks)], the calls made one after the other.  Every task is
    run, also after one has raised; the results come in the order of the
    tasks, or, once all tasks are done, the first exception is raised. *)
Fixpoint pool_map {T R} (f : T -> M R) (tasks : list T) : M (list R) :=
  match tasks with
  | task :: rest =>
      fun w =>
        match f task w with
        | (w1, Ok first) => (others <- pool_map f rest ;; ret (first :: others)) w1
        | (w1, Raise e) => ((pool_map f rest w1).1, Raise e)
        end
  | [] => ret []
  end.

Definition emit (e : event) : M unit :=
  fun w => (mkWorld (fs w) (environ w) (trace w ++ [e]), Ok tt).

(** The world after the calls [t]; the world with the disk [d]. *)
Definition logged (w : World) (t : list event) : World :=
  mkWorld (fs w) (environ w) (trace w ++ t).

Definition with_fs (w : World) (d : gmap string node) : World :=
  mkWorld d (environ w) (trace w).

Definition get_fs : M (gmap string node) := fun w => (w, Ok (fs w)).

Definition put_fs (d : gmap string node) : M unit :=
  fun w => (mkWorld d (environ w) (trace w), Ok tt).

(** ** What the module takes from its environment

    The answers of the network and of the clock may depend on everything the
    process has done so far.  The libraries whose algorithms are not part of
    this module (JSON, gzip, tar, [shutil.move], [re], pattern globbing, the
    case tables of Unicode, the [Episode] model) are parameters.  An
    extraction or a move that fails leaves the disk as far as it came: both
    give the disk they leave together with their outcome. *)

Class Externals : Type := {
  http : list event -> string -> Z -> result Response;   (* requests.get *)
  clock : list event -> Q;                               (* time.time(), in seconds *)
  json_loads : string -> option json;                    (* None: JSONDecodeError *)
  json_dumps : json -> string;
  json_dumps_indent : json -> string;                    (* indent=2, ensure_ascii=False *)
  py_str : json -> string;                               (* str(v) as str.format does *)
  exn_str : exn -> string;                               (* str(e) *)
  unicode_lower : string -> string;                      (* s.lower(), s not all ASCII *)
  gzip_decompress : string -> option string;             (* None: BadGzipFile *)
  TarFile : Type;
  tar_open : string -> result TarFile;                   (* tarfile.open(fileobj=...) *)
  tar_extractall : TarFile -> string -> gmap string node -> gmap string node * result unit;
  shutil_move_fs : string -> string -> gmap string node -> gmap string node * result unit;
  glob_magic : gmap string node -> string -> list string; (* glob.glob on a pattern *)
  pattern : Type;
  re_compile : string -> option pattern;                 (* None: re.error *)
  findall : pattern -> string -> list string;
  Episode : Type;
  title : Episode -> string;
  contains_any_words : Episode -> list string -> bool;
  recursion_limit : nat                                  (* frames left for update() *)
}.

(** [bgmi.__version__], [bgmi.__admin_version__], [bgmi.config] and the
    colour codes chosen at import time. *)
Record Config : Type := mkConfig {
  __version__ : string;
  __admin_version__ : string;
  BGMI_PATH : string;
  save_path : string;
  front_static_path : string;
  enable_global_filters : bool;
  global_filters : list string;
  GREEN : string;
  COLOR_END : string
}.

(** ** The disk

    An entry is kept under the text of its path.  For plain paths
    ([OsPath.plain]) on a file system without links the text is the entry:
    two of them, both absolute or both relative, are the same entry only
    when they are the same text. *)

Module Disk.

Definition exists_ (d : gmap string node) (p : string) : bool :=
  match d !! p with Some _ => true | None => false end.

Definition isdir (d : gmap string node) (p : string) : bool :=
  match d !! p with Some Dir => true | _ => false end.

(** Whether the directory part of [p] allows an entry to be created: the
    current directory and the root always do. *)
Definition parent (d : gmap string node) (p : string) : result unit :=
  let head := OsPath.dirname p in
  match PyStr.rstrip_if OsPath.is_sep head with
  | EmptyString => Ok tt
  | _ =>
      match d !! head with
      | Some Dir => Ok tt
      | Some (File _) => Raise NotADirectoryError
      | None => Raise FileNotFoundError
      end
  end.

(** [open(p, "w")]: the file is created or truncated. *)
Definition create (p : string) (d : gmap string node) : result (gmap string node) :=
  match d !! p with
  | Some Dir => Raise IsADirectoryError
  | _ =>
      match OsPath.basename p with
      | EmptyString => Raise IsADirectoryError
      | _ =>
          match parent d p with
          | Ok _ => Ok (<[p := File ""]> d)
          | Raise e => Raise e
          end
      end
  end.

(** [open(p).read()] *)
Definition read (p : string) (d : gmap string node) : result string :=
  match d !! p with
  | Some (File data) => Ok data
  | Some Dir => Raise IsADirectoryError
  | None => Raise FileNotFoundError
  end.

(** [os.mkdir(p)] *)
Definition mkdir (p : string) (d : gmap string node) : result (gmap string node) :=
  match d !! p with
  | Some _ => Raise FileExistsError
  | None =>
      match parent d p with
      | Ok _ => Ok (<[p := Dir]> d)
      | Raise e => Raise e
      end
  end.

(** [os.makedirs(name)], with the recursion of the library on the head of
    the path; [fuel] bounds it by the length of the path. *)
Fixpoint makedirs_from (fuel : nat) (name : string) (d : gmap string node)
  : result (gmap string node) :=
  match fuel with
  | O => Raise RecursionError
  | S fuel' =>
      let '(head, tail) := OsPath.split name in
      let '(head, tail) :=
        match tail with
        | EmptyString => OsPath.split head
        | _ => (head, tail)
        end in
      if negb (String.eqb head "") && negb (String.eqb tail "") && negb (exists_ d head)
      then
        match makedirs_from fuel' head d with
        | Ok d' => if String.eqb tail "." then Ok d' else mkdir name d'
        | Raise FileExistsError => if String.eqb tail "." then Ok d else mkdir name d
        | Raise e => Raise e
        end
      else mkdir name d
  end.

Definition makedirs (name : string) (d : gmap string node) : result (gmap string node) :=
  makedirs_from (S (String.length name)) name d.

(** The path [k] is [p] or lies below it. *)
Definition under (p k : string) : bool :=
  String.eqb p k || String.prefix (p +:+ "/") k.

(** [shutil.rmtree(p)] *)
Definition rmtree (p : string) (d : gmap string node) : result (gmap string node) :=
  match d !! p with
  | Some Dir => Ok (filter (fun kv => under p kv.1 = false) d)
  | Some (File _) => Raise NotADirectoryError
  | None => Raise FileNotFoundError
  end.

(** [s] without its prefix [p]. *)
Fixpoint drop_prefix (p s : string) : option string :=
  match p, s with
  | EmptyString, _ => Some s
  | String a p', String b s' => if Ascii.eqb a b then drop_prefix p' s' else None
  | String _ _, EmptyString => None
  end.

(** The name of [k] in the directory [p], when [k] is an entry of [p]. *)
Definition entry_name (p k : string) : option string :=
  match drop_prefix (p +:+ "/") k with
  | Some n => if String.eqb n "" || PyStr.mem "/" n then None else Some n
  | None => None
  end.

(** [os.listdir(p)] *)
Definition listdir (p : string) (d : gmap string node) : result (list string) :=
  match d !! p with
  | Some Dir => Ok (omap (fun kv => entry_name p kv.1) (map_to_list d))
  | Some (File _) => Raise NotADirectoryError
  | None => Raise FileNotFoundError
  end.

Definition has_magic (p : string) : bool :=
  PyStr.mem "*" p || PyStr.mem "?" p || PyStr.mem "[" p.

End Disk.

(** ** The module *)

Section Program.

Context `{Externals}.
Variable cfg : Config.

(** *** Library calls *)

Definition requests_get (url : string) (timeout : Z) : M Response :=
  fun w => (mkWorld (fs w) (environ w) (trace w ++ [EGet url timeout]),
            http (trace w) url timeout).

(** [r.json()] *)
Definition Response_json (r : Response) : M json :=
  match json_loads (content r) with
  | Some j => ret j
  | None => raise JSONDecodeError
  end.

Definition time_time : M Q :=
  fun w => (mkWorld (fs w) (environ w) (trace w ++ [ETime]), Ok (clock (trace w))).

(** [int(x)] for a float [x]: towards zero. *)
Definition int_of_float (x : Q) : Z :=
  if Qle_bool 0 x then Qfloor x else Qceiling x.

Definition os_getenv (key : string) : M (option string) :=
  fun w => (w, Ok (environ w !! key)).

Definition on_disk (op : gmap string node -> result (gmap string node)) : M unit :=
  d <- get_fs ;;
  match op d with
  | Ok d' => put_fs d'
  | Raise e => raise e
  end.

Definition os_path_exists (p : string) : M bool :=
  d <- get_fs ;; ret (Disk.exists_ d p).

(** [glob.glob(p)]: a path without pattern characters is returned when it
    exists (as a directory when it ends with a separator). *)
Definition glob_glob (p : string) : M (list string) :=
  d <- get_fs ;;
  if Disk.has_magic p then ret (glob_magic d p)
  else match OsPath.basename p with
       | EmptyString => ret (if Disk.isdir d (OsPath.dirname p) then [p] else [])
       | _ => ret (if Disk.exists_ d p then [p] else [])
       end.

Definition open_w (p : string) : M unit :=
  emit (EOpen p) ;; on_disk (Disk.create p).

Definition file_write (p data : string) : M unit :=
  emit (EWrite p data) ;; on_disk (fun d => Ok (<[p := File data]> d)).

Definition open_read (p : string) : M string :=
  d <- get_fs ;; lift (Disk.read p d).

Definition os_makedirs (p : string) : M unit :=
  emit (EMakedirs p) ;; on_disk (Disk.makedirs p).

Definition shutil_rmtree (p : string) : M unit :=
  emit (ERmtree p) ;; on_disk (Disk.rmtree p).

Definition os_listdir (p : string) : M (list string) :=
  d <- get_fs ;; lift (Disk.listdir p d).

(** A call of a library that may have changed the disk when it fails. *)
Definition on_disk_partial (op : gmap string node -> gmap string node * result unit)
  : M unit :=
  fun w => (mkWorld (op (fs w)).1 (environ w) (trace w), (op (fs w)).2).

(** [tarfile.open(fileobj=...)]: the archive is read from memory. *)
Definition tarfile_open (archive : string) : M TarFile := lift (tar_open archive).

Definition tarfile_extractall (archive : TarFile) (p : string) : M unit :=
  emit (EExtract p) ;; on_disk_partial (tar_extractall archive p).

Definition shutil_move (src dst : string) : M unit :=
  emit (EMove src dst) ;; on_disk_partial (shutil_move_fs src dst).

(** [s.lower()]: on the letters of ASCII where the text is ASCII, by the
    case tables of the interpreter otherwise. *)
Definition str_lower (s : string) : string :=
  if PyStr.all_chars (fun c => Utf8.byte c <? 128) s then PyStr.lower s
  else unicode_lower s.

Definition gzip_read (data : string) : M string :=
  match gzip_decompress data with
  | Some b => ret b
  | None => raise OSError
  end.

(** [c[k]] on decoded JSON. *)
Definition list_index {A} (l : list A) (n : Z) : result A :=
  let i := if n <? 0 then n + Z.of_nat (length l) else n in
  if i <? 0 then Raise IndexError
  else match l !! Z.to_nat i with
       | Some x => Ok x
       | None => Raise IndexError
       end.

Definition json_getitem (c k : json) : result json :=
  match c with
  | JDict d =>
      match k with
      | JStr s => match d !! s with Some v => Ok v | None => Raise KeyError end
      | JList _ | JDict _ => Raise TypeError
      | _ => Raise KeyError
      end
  | JList l =>
      match k with
      | JInt n => list_index l n
      | JBool b => list_index l (if b then 1 else 0)
      | _ => Raise TypeError
      end
  | JStr s =>
      match k with
      | JInt n =>
          let i := if n <? 0 then n + Z.of_nat (String.length s) else n in
          if i <? 0 then Raise IndexError
          else match String.get (Z.to_nat i) s with
               | Some c => Ok (JStr (String c ""))
               | None => Raise IndexError
               end
      | _ => Raise TypeError
      end
  | _ => Raise TypeError
  end.

Definition getitem (c : json) (key : string) : M json := lift (json_getitem c (JStr key)).

(** [key in c] *)
Definition json_contains (key : string) (c : json) : result bool :=
  match c with
  | JDict d => Ok (match d !! key with Some _ => true | None => false end)
  | JList l => Ok (existsb (fun v => match v with JStr s => String.eqb s key | _ => false end) l)
  | JStr s => Ok (PyStr.contains key s)
  | _ => Raise TypeError
  end.

(** *** Console helpers: the text, without indicator and colour *)

Definition print (message : string) : M unit := emit (EPrint Plain message).
Definition print_info (message : string) : M unit := emit (EPrint Info message).
Definition print_success (message : string) : M unit := emit (EPrint Success message).
Definition print_warning (message : string) : M unit := emit (EPrint Warning message).

(** [exit_] is left at its default: the helper ends in [sys.exit(1)]. *)
Definition print_error (message : string) : M unit :=
  emit (EPrint Error message) ;; raise SystemExit.

Definition FRONTEND_NPM_URL : string := "https://registry.npmjs.com/bgmi-frontend/".

Definition PACKAGE_JSON_URL : string :=
  "https://registry.npmjs.com/bgmi-frontend/" +:+ __admin_version__ cfg.

(** *** [convert_cover_url_to_path] *)

Definition convert_cover_url_to_path (cover_url : string) : string * string :=
  let cover_url := normalize_path cover_url in
  let file_path := OsPath.join (save_path cfg) "cover" in
  let file_path := OsPath.join file_path cover_url in
  let dir_path := OsPath.dirname file_path in
  (dir_path, file_path).

(** *** [download_file] *)

Definition download_file (url : string) : M (option Response) :=
  if PyStr.startswith url "https://" || PyStr.startswith url "http://" then
    print_info ("Download: " +:+ url) ;;
    r <- requests_get url 60 ;;
    ret (Some r)
  else ret None.

(** *** [download_cover]

    [ThreadPool(4)] starts its four workers when it is built.  [p.map]
    returns the results in the order of the URLs once every call has
    returned, or raises what a call raised; the model makes the calls one
    after the other, in the order of the list. *)

Definition save_cover (cover_url_list : list string) (item : nat * option Response) : M unit :=
  let '(index, r) := item in
  match r with
  | Some resp =>
      if negb (Response_ok resp) then ret tt
      else
        cover_url <- match cover_url_list !! index with
                      | Some u => ret u
                      | None => raise IndexError
                      end ;;
        let '(dir_path, file_path) := convert_cover_url_to_path cover_url in
        found <- glob_glob dir_path ;;
        match found with
        | [] => os_makedirs dir_path
        | _ => ret tt
        end ;;
        open_w file_path ;;
        file_write file_path (content resp)
  | None => ret tt
  end.

Definition enumerate {A} (l : list A) : list (nat * A) := zip (seq 0 (length l)) l.

Definition download_cover (cover_url_list : list string) : M unit :=
  emit (EThreadPool 4) ;;
  content_list <- pool_map download_file cover_url_list ;;
  emit EPoolClose ;;
  for_each (enumerate content_list) (save_cover cover_url_list).

(** *** [get_web_admin] *)

(** The [try] block: [None] when it returns from the function. *)
Definition get_web_admin_fetch : M (option (json * Response)) :=
  resp <- requests_get FRONTEND_NPM_URL 60 ;;
  r <- Response_json resp ;;
  resp <- requests_get PACKAGE_JSON_URL 60 ;;
  version <- Response_json resp ;;
  has_error <- lift (json_contains "error" version) ;;
  if has_error then
    print (json_dumps_indent version) ;;
    print_error "unexpected npm error" ;;
    ret None
  else
    versions <- getitem r "versions" ;;
    v <- getitem version "version" ;;
    entry <- lift (json_getitem versions v) ;;
    dist <- getitem entry "dist" ;;
    tar_url <- getitem dist "tarball" ;;
    r <- match tar_url with
         | JStr u => requests_get u 60
         | _ => raise RequestException
         end ;;
    ret (Some (version, r)).

Definition get_web_admin_install (method : string) (version : json) (r : Response) : M unit :=
  let front := front_static_path cfg in
  tar_file <- gzip_read (content r) ;;
  shutil_rmtree front ;;
  os_makedirs front ;;
  tar_file_obj <- tarfile_open tar_file ;;
  tarfile_extractall tar_file_obj front ;;
  let dist := OsPath.join (OsPath.join front "package") "dist" in
  files <- os_listdir dist ;;
  for_each files (fun file => shutil_move (OsPath.join dist file) (OsPath.join front file)) ;;
  open_w (OsPath.join front "package.json") ;;
  file_write (OsPath.join front "package.json") (json_dumps version) ;;
  v <- getitem version "version" ;;
  print_success ("Web admin page " +:+ method +:+ " successfully. version: " +:+ py_str v).

Definition get_web_admin (method : string) : M unit :=
  match method with
  | EmptyString => raise IndexError
  | String c rest => print_info (String (PyStr.upper_char c) rest +:+ "ing BGmi frontend")
  end ;;
  fetched <- try_except get_web_admin_fetch
               [ (is_ConnectionError,
                  fun _ => print_warning "failed to download web admin" ;; ret None);
                 (is_JSONDecodeError,
                  fun _ => print_warning "failed to download web admin" ;; ret None) ] ;;
  match fetched with
  | Some (version, r) => get_web_admin_install method version r
  | None => ret tt
  end.

(** *** [check_update] *)

(** [[int(x) for x in v.split(".")]] *)
Fixpoint ints (parts : list string) : result (list Z) :=
  match parts with
  | [] => Ok []
  | x :: rest =>
      match PyStr.int x with
      | None => Raise ValueError
      | Some n =>
          match ints rest with
          | Ok ns => Ok (n :: ns)
          | Raise e => Raise e
          end
      end
  end.

Definition version_tuple (v : string) : result (list Z) := ints (PyStr.split "." v).

(** Line 242: [version > __version__], on strings. *)
Definition core_version_newer (version local : string) : bool := PyStr.gtb version local.

(** Line 255: the two lists of integers are built, left first, and compared. *)
Definition admin_version_newer (admin_version local_version : string) : result bool :=
  match version_tuple admin_version with
  | Raise e => Raise e
  | Ok a =>
      match version_tuple local_version with
      | Raise e => Raise e
      | Ok b => Ok (list_gtb a b)
      end
  end.

(** [v.split] needs a string. *)
Definition as_str (v : json) : M string :=
  match v with
  | JStr s => ret s
  | _ => raise AttributeError
  end.

Definition newline : string := String "010"%char "".

(** The nested [update()]; [depth] is the number of frames the interpreter
    still grants to its recursion. *)
Fixpoint update (depth : nat) (mark : bool) : M unit :=
  match depth with
  | O => raise RecursionError
  | S depth' =>
      try_except
        (print_info "Checking update ..." ;;
         resp <- requests_get "https://pypi.org/pypi/bgmi/json" 60 ;;
         pypi <- Response_json resp ;;
         info <- getitem pypi "info" ;;
         version <- getitem info "version" ;;
         open_w (OsPath.join (BGMI_PATH cfg) "latest") ;;
         version <- match version with
                    | JStr s => ret s
                    | _ => raise TypeError
                    end ;;
         file_write (OsPath.join (BGMI_PATH cfg) "latest") version ;;
         (if core_version_newer version (__version__ cfg) then
            print_warning ("Please update bgmi to the latest version " +:+ GREEN cfg +:+ version
                           +:+ COLOR_END cfg +:+ "." +:+ newline
                           +:+ "Then execute `bgmi upgrade` to migrate database")
          else print_success "Your BGmi is the latest version.") ;;
         resp <- requests_get PACKAGE_JSON_URL 60 ;;
         package_json <- Response_json resp ;;
         admin_version <- getitem package_json "version" ;;
         found <- glob_glob (OsPath.join (front_static_path cfg) "package.json") ;;
         match found with
         | _ :: _ =>
             text <- open_read (OsPath.join (front_static_path cfg) "package.json") ;;
             local <- match json_loads text with
                      | Some j => ret j
                      | None => raise JSONDecodeError
                      end ;;
             local_version <- getitem local "version" ;;
             a <- as_str admin_version ;;
             newer <- match version_tuple a with
                      | Raise e => raise e
                      | Ok _ => l <- as_str local_version ;; lift (admin_version_newer a l)
                      end ;;
             if newer : bool then get_web_admin "update" else ret tt
         | [] => print_info "Use 'bgmi install' to install BGmi frontend / download delegate"
         end ;;
         if negb mark then update depth' mark ;; raise SystemExit else ret tt)
        [ (is_Exception,
           fun e => print_warning ("Error occurs when checking update, " +:+ exn_str e)) ]
  end.

Definition seven_days : Q := inject_Z (7 * 24 * 3600).

(** Lines 271-279: the marker is read and, when it is too old, renewed. *)
Definition check_marker (update : M unit) : M unit :=
  let version_file := OsPath.join (BGMI_PATH cfg) "version" in
  text <- open_read version_file ;;
  try_except
    (data <- match PyStr.int text with
             | Some n => ret n
             | None => raise ValueError
             end ;;
     now <- time_time ;;
     if negb (Qle_bool (now - seven_days) (inject_Z data)) then
       open_w version_file ;;
       now <- time_time ;;
       file_write version_file (PyStr.of_Z (int_of_float now)) ;;
       update
     else ret tt)
    [ (is_ValueError, fun _ => ret tt) ].

(** Lines 265-279, for any nested [update]. *)
Definition check_update_with (update : M unit) : M unit :=
  let version_file := OsPath.join (BGMI_PATH cfg) "version" in
  present <- os_path_exists version_file ;;
  (if negb present then
     open_w version_file ;;
     now <- time_time ;;
     file_write version_file (PyStr.of_Z (int_of_float now)) ;;
     update
   else ret tt) ;;
  check_marker update.

Definition check_update (mark : bool) : M unit :=
  check_update_with (update recursion_limit mark).

(** *** [episode_filter_regex] *)

Definition keyword_filter (data : list Episode) : list Episode :=
  if enable_global_filters cfg then
    let exclude_keywords := map (fun t => str_lower (PyStr.strip t)) (global_filters cfg) in
    List.filter (fun x => negb (contains_any_words x exclude_keywords)) data
  else data.

Definition nonempty {A} (l : list A) : bool :=
  match l with [] => false | _ => true end.

Definition str_truthy (s : option string) : bool :=
  match s with
  | Some (String _ _) => true
  | _ => false
  end.

Definition episode_filter_regex (data : list Episode) (regex : option string)
  : M (list Episode) :=
  data <- match regex with
          | Some (String _ _ as regex) =>
              try_except
                (match_ <- match re_compile regex with
                           | Some p => ret p
                           | None => raise ReError
                           end ;;
                 ret (List.filter (fun s => nonempty (findall match_ (title s))) data))
                [ (is_re_error,
                   fun e =>
                     debug <- os_getenv "DEBUG" ;;
                     if str_truthy debug then emit ETraceback ;; raise e
                     else
                       print_warning ("can't compile regex " +:+ regex
                                      +:+ ", skipping filter by regex") ;;
                       ret data) ]
          | _ => ret data
          end ;;
  ret (keyword_filter data).

End Program.

(** ** The comparison of version markers in the words of the specification *)

(** Component-wise comparison of two sequences of integers. *)
Fixpoint compare_components (a b : list Z) : comparison :=
  match a, b with
  | [], [] => Eq
  | [], _ :: _ => Lt
  | _ :: _, [] => Gt
  | x :: a', y :: b' =>
      match x ?= y with
      | Eq => compare_components a' b'
      | c => c
      end
  end.

Definition zero_pad (n : nat) (l : list Z) : list Z := l ++ replicate (n - length l) 0.

(** "compared component-wise, not lexicographically; shorter sequences are
    zero-padded for comparison" *)
Definition VersionMarker_compare (a b : list Z) : comparison :=
  let n := Nat.max (length a) (length b) in
  compare_components (zero_pad n a) (zero_pad n b).

(** The order of Python on sequences: [a > b] when, after a common prefix,
    [a] has the greater item, or [b] ends there and [a] goes on. *)
Definition sequence_gt (a b : list Z) : Prop :=
  exists (p : list Z) (x : Z) (ra : list Z),
    a = p ++ x :: ra /\ (b = p \/ exists y rb, b = p ++ y :: rb /\ y < x).

(** ** Notions used to state the properties of the downloads *)

(** The URLs that [download_file] requests. *)
Definition is_http (url : string) : bool :=
  PyStr.startswith url "https://" || PyStr.startswith url "http://".

(** The files written, created and the directories made by a run, read off
    its trace. *)
Definition cover_writes (t : list event) : list (string * string) :=
  omap (fun e => match e with EWrite p data => Some (p, data) | _ => None end) t.

Definition cover_opens (t : list event) : list string :=
  omap (fun e => match e with EOpen p => Some p | _ => None end) t.

Definition cover_makedirs (t : list event) : list string :=
  omap (fun e => match e with EMakedirs p => Some p | _ => None end) t.

(** The requests of a run, with their timeouts. *)
Definition requested (t : list event) : list (string * Z) :=
  omap (fun e => match e with EGet url timeout => Some (url, timeout) | _ => None end) t.

Definition is_disk_call (e : event) : bool :=
  match e with
  | EOpen _ | EWrite _ _ | EMakedirs _ | ERmtree _ | EExtract _ | EMove _ _ => true
  | _ => false
  end.

Definition starts_workers (e : event) : bool :=
  match e with
  | EThreadPool (S _) => true
  | _ => false
  end.

(** The URLs whose fetch gave a true result, with their responses, in the
    order of the list. *)
Definition fetched (urls : list string) (rs : list (option Response))
  : list (string * Response) :=
  omap (fun ur : string * option Response =>
          match ur.2 with
          | Some resp => if Response_ok resp then Some (ur.1, resp) else None
          | None => None
          end) (zip urls rs).

(** The number of fetches without a true result. *)
Definition failures (rs : list (option Response)) : nat :=
  length (List.filter (fun r => negb (truthy r)) rs).

(** What the resolver predicts for the covers that were fetched: the file
    path and the bytes of each. *)
Definition covers_to_save (cfg : Config) (urls : list string) (rs : list (option Response))
  : list (string * string) :=
  (fun ur : string * Response =>
     ((convert_cover_url_to_path cfg ur.1).2, content ur.2)) <$> fetched urls rs.

(** The bytes last given for the path [p] in a sequence of writes. *)
Definition last_written (saved : list (string * string)) (p : string) : option string :=
  (list_to_map (reverse saved) : gmap string string) !! p.

Definition cover_dirs (cfg : Config) (urls : list string) (rs : list (option Response))
  : list string :=
  (fun ur : string * Response => (convert_cover_url_to_path cfg ur.1).1) <$> fetched urls rs.

(** Lines 396-400: what the loop of [download_cover] does with the
    response of a URL that it keeps. *)
Definition store_cover `{Externals} (cfg : Config) (cover_url : string) (resp : Response)
  : M unit :=
  let '(dir_path, file_path) := convert_cover_url_to_path cfg cover_url in
  (found <- glob_glob dir_path ;;
   match found with
   | [] => os_makedirs dir_path
   | _ => ret tt
   end ;;
   open_w file_path ;;
   file_write file_path (content resp))%M.

(** A computation that calls nothing on the disk: whatever it is run on, the
    world it leaves differs from the first by calls that are no disk calls. *)
Definition quiet {A} (m : M A) : Prop :=
  forall w w' r, m w = (w', r) ->
    exists t, w' = logged w t /\ forallb (fun e => negb (is_disk_call e)) t = true.

(** ** Notions used to state the properties of the marker file *)

Definition version_file (cfg : Config) : string := OsPath.join (BGMI_PATH cfg) "version".

(** [str(int(time.time()))], the clock being read after the calls [t]. *)
Definition stamp `{Externals} (t : list event) : string :=
  PyStr.of_Z (int_of_float (clock t)).

(** The world once the marker has been opened for writing in [w] and the
    current time written to it. *)
Definition renewed `{Externals} (cfg : Config) (w : World) : World :=
  let now := stamp (trace w ++ [EOpen (version_file cfg)]) in
  mkWorld (<[version_file cfg := File now]> (fs w)) (environ w)
    (trace w ++ [EOpen (version_file cfg); ETime; EWrite (version_file cfg) now]).

(** The number of requests to [url] in a trace. *)
Definition requests_to (url : string) (t : list event) : nat :=
  length (omap (fun e => match e with
                         | EGet u _ => if String.eqb u url then Some tt else None
                         | _ => None
                         end) t).

(** The line that opens an update check, and the number of checks in a
    trace. *)
Definition is_check_line (e : event) : bool :=
  match e with
  | EPrint Info message => String.eqb message "Checking update ..."
  | _ => false
  end.

Definition checks (t : list event) : nat := length (List.filter is_check_line t).

(** ** Concrete environments, to run the module on *)

(** An environment given by the answers of the network, of the clock and of
    the JSON decoder; every regular expression fails to compile. *)
Definition scripted_json (net : list event -> string -> Z -> result Response)
    (time : list event -> Q) (loads : string -> option json) : Externals :=
  {| http := net;
     clock := time;
     json_loads := loads;
     json_dumps := fun _ => "";
     json_dumps_indent := fun _ => "";
     py_str := fun _ => "";
     exn_str := fun _ => "";
     unicode_lower := fun s => s;
     gzip_decompress := fun _ => None;
     TarFile := string;
     tar_open := fun archive => Ok archive;
     tar_extractall := fun _ _ d => (d, Ok tt);
     shutil_move_fs := fun _ _ d => (d, Ok tt);
     glob_magic := fun _ _ => [];
     pattern := unit;
     re_compile := fun _ => None;
     findall := fun _ _ => [];
     Episode := string;
     title := fun e => e;
     contains_any_words := fun _ _ => false;
     recursion_limit := 8 |}.

(** The same, every document failing to parse. *)
Definition scripted (net : list event -> string -> Z -> result Response)
    (time : list event -> Q) : Externals :=
  scripted_json net time (fun _ => None).

(** No network: every request fails to connect. *)
Definition offline : Externals :=
  scripted (fun _ _ _ => Raise ConnectionError) (fun _ => 0%Q).

(** A server that answers every request with the same response. *)
Definition answering (r : Response) (time : list event -> Q) : Externals :=
  scripted (fun _ _ _ => Ok r) time.

Definition sample_cfg : Config :=
  {| __version__ := "4.4.1";
     __admin_version__ := "2.2.1";
     BGMI_PATH := "bgmi";
     save_path := "bangumi";
     front_static_path := "bgmi/front_static";
     enable_global_filters := false;
     global_filters := [];
     GREEN := "";
     COLOR_END := "" |}.

Definition empty_world : World :=
  {| fs := ∅; environ := ∅; trace := [] |}.

(** A disk with the directories of [sample_cfg]. *)
Definition sample_world : World :=
  {| fs := {[ "bgmi" := Dir; "bangumi" := Dir ]}; environ := ∅; trace := [] |}.

(** A clock that advances by one second at every call of the process. *)
Definition ticking (start : Z) (t : list event) : Q := inject_Z (start + Z.of_nat (length t)).

(** A server with one cover, one missing cover, and nothing else. *)
Definition cover_server : Externals :=
  scripted
    (fun _ url _ =>
       if String.eqb url "http://a.com/x.jpg" then Ok (mkResponse 200 "JPEG")
       else if String.eqb url "https://a.com/missing.jpg" then Ok (mkResponse 404 "gone")
       else Raise ConnectionError)
    (ticking 1700000000).

Definition sample_urls : list string :=
  ["http://a.com/x.jpg"; "cover.png"; "https://a.com/missing.jpg"].

Definition sample_results : list (option Response) :=
  [Some (mkResponse 200 "JPEG"); None; Some (mkResponse 404 "gone")].

Definition sample_fetch : World * result (list (option Response)) :=
  pool_map (@download_file cover_server) sample_urls (logged sample_world [EThreadPool 4]).

Definition sample_download : World * result unit :=
  @download_cover cover_server sample_cfg sample_urls sample_world.

(** A disk with a marker file. *)
Definition marker_world (text : string) : World :=
  {| fs := {[ "bgmi" := Dir; "bgmi/version" := File text ]}; environ := ∅; trace := [] |}.

(** No network, a ticking clock. *)
Definition offline_ticking : Externals :=
  scripted (fun _ _ _ => Raise ConnectionError) (ticking 1700000000).

(** A network on which every body decodes to the same document: the package
    index and the registry announce the versions [core] and [admin]. *)
Definition announcing (core admin : string) : Externals :=
  scripted_json (fun _ _ _ => Ok (mkResponse 200 "{}")) (ticking 1700000000)
    (fun _ => Some (JDict {[ "info" := JDict {[ "version" := JStr core ]};
                             "version" := JStr admin ]})).

(** ** Notions used to state what a run calls *)

(** The calls made by the fetches of [download_cover]: the line printed for
    a URL and its request. *)
Definition is_fetch_call (e : event) : bool :=
  match e with
  | EPrint Info _ => true
  | EGet _ timeout => timeout =? 60
  | _ => false
  end.

(** Every call of a run of [m] satisfies [P], and the environment is left
    as it was. *)
Definition calls_only {A} (P : event -> bool) (m : M A) : Prop :=
  forall w w' r, m w = (w', r) ->
    environ w' = environ w
    /\ exists t, trace w' = trace w ++ t /\ forallb P t = true.

(** A server on which the second of two covers cannot be reached. *)
Definition two_covers : list string := ["http://a.com/x.jpg"; "http://b.com/y.jpg"].

(** The calls that [get_web_admin] may make: requests with the timeout of
    60 seconds, lines on the console, and on the disk the removal and the
    creation of the frontend directory, the extraction into it, the moves
    from [package/dist] below it to it, and the writing of its
    [package.json]. *)
Definition get_web_admin_call (cfg : Config) (e : event) : bool :=
  match e with
  | EGet _ timeout => timeout =? 60
  | EPrint _ _ => true
  | EOpen p | EWrite p _ => String.eqb p (OsPath.join (front_static_path cfg) "package.json")
  | ERmtree p | EMakedirs p | EExtract p => String.eqb p (front_static_path cfg)
  | EMove src dst =>
      String.prefix (OsPath.join (OsPath.join (front_static_path cfg) "package") "dist") src
      && String.prefix (front_static_path cfg) dst
  | ETime | ETraceback | EThreadPool _ | EPoolClose => false
  end.

(** The calls that [check_update] may make: those of [get_web_admin], the
    clock, and the writing of the marker and of the file [latest]. *)
Definition check_update_call (cfg : Config) (e : event) : bool :=
  match e with
  | ETime => true
  | EOpen p | EWrite p _ =>
      String.eqb p (version_file cfg)
      || String.eqb p (OsPath.join (BGMI_PATH cfg) "latest")
      || String.eqb p (OsPath.join (front_static_path cfg) "package.json")
  | _ => get_web_admin_call cfg e
  end.

(** Lines 346-358 of [get_web_admin]: what follows the removal of the old
    frontend. *)
Definition get_web_admin_unpack `{Externals} (cfg : Config) (method : string)
    (version : json) (tar_file : string) : M unit :=
  let front := front_static_path cfg in
  (os_makedirs front ;;
   tar_file_obj <- tarfile_open tar_file ;;
   tarfile_extractall tar_file_obj front ;;
   let dist := OsPath.join (OsPath.join front "package") "dist" in
   files <- os_listdir dist ;;
   for_each files (fun file => shutil_move (OsPath.join dist file) (OsPath.join front file)) ;;
   open_w (OsPath.join front "package.json") ;;
   file_write (OsPath.join front "package.json") (json_dumps version) ;;
   v <- getitem version "version" ;;
   print_success ("Web admin page " +:+ method +:+ " successfully. version: " +:+ py_str v))%M.

(** The line that [get_web_admin] prints first. *)
Definition get_web_admin_banner (method : string) : string :=
  match method with
  | String c rest => String (PyStr.upper_char c) rest +:+ "ing BGmi frontend"
  | EmptyString => ""
  end.

(** ** A registry that serves the frontend *)

Definition tarball_url : string :=
  "https://registry.npmjs.com/bgmi-frontend/-/bgmi-frontend-2.2.1.tgz".

Definition registry_document : json :=
  JDict {[ "version" := JStr "2.2.1";
           "versions" :=
             JDict {[ "2.2.1" := JDict {[ "dist" := JDict {[ "tarball" := JStr tarball_url ]} ]} ]} ]}.

(** An archive that unpacks to one page; an extraction that fails after
    the first directory; the move of one entry. *)
Definition unpack_page (archive p : string) (d : gmap string node)
  : gmap string node * result unit :=
  (<[p +:+ "/package/dist/index.html" := File archive]>
     (<[p +:+ "/package/dist" := Dir]> (<[p +:+ "/package" := Dir]> d)), Ok tt).

Definition unpack_half (archive p : string) (d : gmap string node)
  : gmap string node * result unit :=
  (<[p +:+ "/package" := Dir]> d, Raise TarError).

Definition move_entry (src dst : string) (d : gmap string node)
  : gmap string node * result unit :=
  match d !! src with
  | Some n => (<[dst := n]> (delete src d), Ok tt)
  | None => (d, Raise FileNotFoundError)
  end.

(** Every request is answered with the same body, every body decodes to
    [doc], every archive can be decompressed and is unpacked by [untar]. *)
Definition registry (doc : json)
    (untar : string -> string -> gmap string node -> gmap string node * result unit)
  : Externals :=
  {| http := fun _ _ _ => Ok (mkResponse 200 "tgz");
     clock := ticking 1700000000;
     json_loads := fun _ => Some doc;
     json_dumps := fun _ => "package";
     json_dumps_indent := fun _ => "package";
     py_str := fun v => match v with JStr s => s | _ => "" end;
     exn_str := fun _ => "";
     unicode_lower := fun s => s;
     gzip_decompress := fun data => Some data;
     TarFile := string;
     tar_open := fun archive => Ok archive;
     tar_extractall := untar;
     shutil_move_fs := move_entry;
     glob_magic := fun _ _ => [];
     pattern := string;
     re_compile := fun regex => Some regex;
     findall := fun p text => if PyStr.contains p text then [p] else [];
     Episode := string;
     title := fun e => e;
     contains_any_words :=
       fun e words => existsb (fun word => PyStr.contains word (PyStr.lower e)) words;
     recursion_limit := 8 |}.

(** A disk with an installed frontend. *)
Definition installed_world : World :=
  {| fs := {[ "bgmi" := Dir; "bangumi" := Dir; "bgmi/front_static" := Dir;
              "bgmi/front_static/index.html" := File "old";
              "bgmi/front_static/package.json" := File "old" ]};
     environ := ∅; trace := [] |}.

(** A computation that does not return: it raises, whatever it is run on. *)
Definition never_returns {A} (m : M A) : Prop :=
  forall w w' a, m w <> (w', Ok a).

(** The line that the nested [update] prints when it has caught [e]. *)
Definition update_warning `{Externals} (e : exn) : event :=
  EPrint Warning ("Error occurs when checking update, " +:+ exn_str e).

(** ** Episodes to filter *)

(** The keywords as [episode_filter_regex] hands them to the episodes. *)
Definition exclude_keywords `{Externals} (cfg : Config) : list string :=
  map (fun t => str_lower (PyStr.strip t)) (global_filters cfg).

(** A configuration with global filters, the last between ideographic
    spaces. *)
Definition filtering_cfg : Config :=
  {| __version__ := "4.4.1";
     __admin_version__ := "2.2.1";
     BGMI_PATH := "bgmi";
     save_path := "bangumi";
     front_static_path := "bgmi/front_static";
     enable_global_filters := true;
     global_filters := [" Leopard-Raws "; "HEVC"; "　BIG5　"];
     GREEN := "";
     COLOR_END := "" |}.

Definition sample_titles : list string :=
  ["[Sub] Show - 01 [720p]"; "[Leopard-Raws] Show - 01"; "[Sub] Other - 01 [HEVC]";
   "[Sub] Show - 02 [1080p]"; "[Sub] Show - 03 [BIG5]"].

(** The registry with the release document and an archive that unpacks. *)
Definition library : Externals := registry registry_document unpack_page.

(** ** [test_connection]

    The function asks each site of [SUPPORT_WEBSITE] whose [id] is the data
    source of the configuration with a [HEAD] request.  The table of the
    sites and the data source are arguments; the requests made so far are
    passed along, and the answer of the network may depend on them. *)

(** The class of [except requests.RequestException]. *)
Definition is_RequestException (e : exn) : bool :=
  match e with
  | ConnectionError | ConnectTimeout | ReadTimeout | RequestException => true
  | _ => false
  end.

(** An entry of [SUPPORT_WEBSITE]: the keys that the function reads. *)
Record Website : Type := mkWebsite {
  website_id : string;      (* website["id"] *)
  website_url : string      (* website["url"] *)
}.

Section TestConnection.

(** [requests.request("head", url, timeout=timeout)] after the requests
    made so far. *)
Variable head_request : list (string * Z) -> string -> Z -> result Response.
Variable SUPPORT_WEBSITE : list Website.
Variable data_source : string.

(** The loop of lines 161-163, from the sites still to visit and the
    requests made. *)
Fixpoint test_connection_loop (sites : list Website) (made : list (string * Z))
  : list (string * Z) * result unit :=
  match sites with
  | [] => (made, Ok tt)
  | website :: rest =>
      if String.eqb data_source (website_id website) then
        match head_request made (website_url website) 10 with
        | Ok _ => test_connection_loop rest (made ++ [(website_url website, 10)])
        | Raise e => (made ++ [(website_url website, 10)], Raise e)
        end
      else test_connection_loop rest made
  end.

Definition test_connection : list (string * Z) * result bool :=
  match test_connection_loop SUPPORT_WEBSITE [] with
  | (made, Ok _) => (made, Ok true)
  | (made, Raise e) =>
      if is_RequestException e then (made, Ok false) else (made, Raise e)
  end.

(** The requests that a run makes when none fails. *)
Definition sites_to_ask : list (string * Z) :=
  map (fun website => (website_url website, 10))
    (List.filter (fun website => String.eqb data_source (website_id website))
       SUPPORT_WEBSITE).

End TestConnection.

(** A table of two sites, and a network on which the first site answers
    with a server error and the second cannot be reached. *)
Definition sample_sites : list Website :=
  [mkWebsite "bangumi_moe" "https://bangumi.moe";
   mkWebsite "mikan_project" "https://mikanani.me"].

Definition sample_head (made : list (string * Z)) (url : string) (timeout : Z)
  : result Response :=
  if String.eqb url "https://bangumi.moe" then Ok (mkResponse 503 "")
  else Raise ConnectTimeout.

(** ** The console helpers with their decorators

    Lines 61-145: [print_info], [print_success], [print_warning] and
    [print_error] as the decorators [_indicator] and [colorize] leave them,
    called with any positional and keyword arguments.  What is written to
    the standard output is recorded; the calls of the logger are left
    out. *)

Module Console.

(** The values that a caller may pass. *)
Inductive value : Type :=
| VStr (s : string)
| VBool (b : bool)
| VInt (n : Z)
| VNone.

(** [bool(v)] *)
Definition truth (v : value) : bool :=
  match v with
  | VStr s => negb (String.eqb s "")
  | VBool b => b
  | VInt n => negb (n =? 0)
  | VNone => false
  end.

(** [str(v)], as [print] writes a value. *)
Definition str (v : value) : string :=
  match v with
  | VStr s => s
  | VBool true => "True"
  | VBool false => "False"
  | VInt n => PyStr.of_Z n
  | VNone => "None"
  end.

(** [a + v] for a string [a]: only a string can be added. *)
Definition add (a : string) (v : value) : result string :=
  match v with
  | VStr s => Ok (a +:+ s)
  | _ => Raise TypeError
  end.

Inductive output : Type :=
| Written (text : string)     (* print(...): the text and the end of line *)
| Flushed.                    (* sys.stdout.flush() *)

(** The colour codes chosen at import time (all empty on a Windows
    console). *)
Record Colours : Type := mkColours {
  GREEN : string;
  YELLOW : string;
  RED : string;
  COLOR_END : string
}.

(** A function called with [*args] and [**kwargs], on the output so far. *)
Definition function : Type :=
  list value -> gmap string value -> list output -> list output * result unit.

Definition color_map (c : Colours) : gmap string string :=
  {[ "print_info" := ""; "print_success" := GREEN c;
     "print_warning" := YELLOW c; "print_error" := RED c ]}.

Definition indicator_map : gmap string string :=
  {[ "print_info" := "[*] "; "print_success" := "[+] ";
     "print_warning" := "[-] "; "print_error" := "[x] " ]}.

(** The binding of the arguments of a call to the parameters of a function
    without [*args] and [**kwargs]; a parameter comes with its default. *)
Definition bind_arguments (params : list (string * option value))
    (args : list value) (kwargs : gmap string value) : result (list value) :=
  if (length params <? length args)%nat then Raise TypeError
  else
    let rest := drop (length args) params in
    if forallb (fun kv : string * value => existsb (String.eqb kv.1) (rest.*1))
         (map_to_list kwargs)
    then
      match mapM (fun p : string * option value =>
                    match kwargs !! p.1 with
                    | Some v => Some v
                    | None => p.2
                    end) rest with
      | Some values => Ok (args ++ values)
      | None => Raise TypeError
      end
    else Raise TypeError.

(** [_indicator(f)]; [func_name] is the [__qualname__] that
    [functools.wraps] hands down from the decorated function. *)
Definition _indicator (func_name : string) (f : function) : function :=
  fun args kwargs out =>
    let args' :=
      if truth (default (VBool true) (kwargs !! "indicator")) then
        match args with
        | [] => Raise IndexError
        | first :: _ =>
            match add (default "" (indicator_map !! func_name)) first with
            | Ok s => Ok [VStr s]
            | Raise e => Raise e
            end
        end
      else Ok args in
    match args' with
    | Raise e => (out, Raise e)
    | Ok args' =>
        match f args' kwargs out with
        | (out', Ok _) => (out' ++ [Flushed], Ok tt)
        | (out', Raise e) => (out', Raise e)
        end
    end.

(** [b + s + e] *)
Definition wrap (b e : string) (s : value) : result value :=
  match add b s with
  | Ok bs => Ok (VStr (bs +:+ e))
  | Raise x => Raise x
  end.

Fixpoint wrap_all (b e : string) (args : list value) : result (list value) :=
  match args with
  | [] => Ok []
  | s :: rest =>
      match wrap b e s with
      | Raise x => Raise x
      | Ok s' =>
          match wrap_all b e rest with
          | Ok rest' => Ok (s' :: rest')
          | Raise x => Raise x
          end
      end
  end.

(** [colorize(f)] *)
Definition colorize (c : Colours) (func_name : string) (f : function) : function :=
  fun args kwargs out =>
    let b := default "" (color_map c !! func_name) in
    let e := match color_map c !! func_name with
             | Some (String _ _) => COLOR_END c
             | _ => ""
             end in
    match wrap_all b e args with
    | Ok args' => f args' kwargs out
    | Raise x => (out, Raise x)
    end.

(** The functions under the decorators. *)
Definition print_info_body : function :=
  fun args kwargs out =>
    match bind_arguments [("message", None); ("indicator", Some (VBool true))] args kwargs with
    | Ok (message :: _) =>
        match message with
        | VStr s => (out ++ [Written (s +:+ newline)], Ok tt)
        | _ => (out, Raise TypeError)
        end
    | Ok [] => (out, Raise TypeError)
    | Raise e => (out, Raise e)
    end.

Definition print_line_body : function :=
  fun args kwargs out =>
    match bind_arguments [("message", None); ("indicator", Some (VBool true))] args kwargs with
    | Ok (message :: _) => (out ++ [Written (str message +:+ newline)], Ok tt)
    | Ok [] => (out, Raise TypeError)
    | Raise e => (out, Raise e)
    end.

Definition print_error_body : function :=
  fun args kwargs out =>
    match bind_arguments [("message", None); ("exit_", Some (VBool true));
                          ("indicator", Some (VBool true))] args kwargs with
    | Ok (message :: exit_ :: _) =>
        (out ++ [Written (str message +:+ newline)],
         if truth exit_ then Raise SystemExit else Ok tt)
    | Ok _ => (out, Raise TypeError)
    | Raise e => (out, Raise e)
    end.

Definition print_info (c : Colours) : function :=
  _indicator "print_info" (colorize c "print_info" print_info_body).

Definition print_success (c : Colours) : function :=
  _indicator "print_success" (colorize c "print_success" print_line_body).

Definition print_warning (c : Colours) : function :=
  _indicator "print_warning" (colorize c "print_warning" print_line_body).

Definition print_error (c : Colours) : function :=
  _indicator "print_error" (colorize c "print_error" print_error_body).

(** [b + s + e] for the colour [b] of a helper. *)
Definition coloured (c : Colours) (b s : string) : string :=
  match b with
  | String _ _ => b +:+ s +:+ COLOR_END c
  | EmptyString => s
  end.

(** The codes of a terminal. *)
Definition escape (code : string) : string := String "027"%char code.

Definition ansi : Colours :=
  {| GREEN := escape "[1;32m"; YELLOW := escape "[1;33m"; RED := escape "[1;31m";
     COLOR_END := escape "[0m" |}.

End Console.
(** * Properties *)

(** ** Sanity checks of the string model *)

Example replace_overlap : PyStr.replace "aa" "b" "aaa" = "ba".
Proof. reflexivity. Qed.

Example replace_all_occurrences :
  PyStr.replace "http://" "http/" "http://a/http://b" = "http/a/http/b".
Proof. reflexivity. Qed.

Example replace_empty_pattern : PyStr.replace "" "-" "abc" = "-a-b-c-".
Proof. reflexivity. Qed.

Example normalize_path_example :
  normalize_path "https://a.com/x:y?z" = "https/a.com/xyz".
Proof. reflexivity. Qed.

Example normalize_path_two_slashes : normalize_path "//a" = "/a".
Proof. reflexivity. Qed.

Example int_examples :
  PyStr.int " 12 " = Some 12 /\ PyStr.int "-7" = Some (-7) /\ PyStr.int "1_0" = Some 10 /\
  PyStr.int "" = None /\ PyStr.int "1__0" = None /\ PyStr.int "12a" = None /\
  PyStr.int "007" = Some 7 /\ PyStr.of_Z 1700000000 = "1700000000" /\ PyStr.of_Z (-5) = "-5" /\
  PyStr.of_Z 0 = "0".
Proof. repeat split. Qed.

Example split_examples :
  PyStr.split "." "2.10.1" = ["2"; "10"; "1"] /\ PyStr.split "." "" = [""] /\
  PyStr.split "." "1..2." = ["1"; ""; "2"; ""].
Proof. repeat split. Qed.

Example gtb_examples :
  PyStr.gtb "2.9" "2.10" = true /\ PyStr.gtb "2.10" "2.9" = false /\
  PyStr.gtb "1.0.0" "1.0" = true /\ PyStr.strip "  a b  " = "a b".
Proof. repeat split. Qed.

Example os_path_examples :
  OsPath.join "a" "b" = "a/b" /\ OsPath.join "a/" "b" = "a/b" /\ OsPath.join "a" "/b" = "/b"
  /\ OsPath.join "" "b" = "b" /\ OsPath.dirname "a/b/c" = "a/b" /\ OsPath.dirname "/a" = "/"
  /\ OsPath.dirname "a" = "" /\ OsPath.dirname "a//b" = "a" /\ OsPath.split "/" = ("/", "")
  /\ OsPath.split "a/b/" = ("a/b", "") /\ OsPath.basename "a/b.jpg" = "b.jpg".
Proof. repeat split. Qed.

Example convert_cover_url_to_path_example :
  convert_cover_url_to_path sample_cfg "https://a.com/img/1.jpg?size=l"
  = ("bangumi/cover/https/a.com/img", "bangumi/cover/https/a.com/img/1.jpgsize=l").
Proof. reflexivity. Qed.

(** ** [normalize_path] *)

Section NormalizePath.

Implicit Types (s t old new : string) (c : ascii) (p q : ascii -> bool).

Lemma prefix_one c s :
  String.prefix (String c "") s =
  match s with String d _ => Ascii.eqb c d | EmptyString => false end.
Proof.
  destruct s as [|d r]; simpl; [done|].
  destruct (ascii_dec c d) as [->|Hne].
  - rewrite Ascii.eqb_refl. by destruct r.
  - symmetry. by apply Ascii.eqb_neq.
Qed.

Lemma append_cons x (a b : string) : String x a +:+ b = String x (a +:+ b).
Proof. done. Qed.

Lemma prefix_append (a b : string) : String.prefix a (a +:+ b) = true.
Proof.
  induction a as [|c a IH]; [by destruct b|].
  rewrite append_cons. cbn [String.prefix]. by destruct (ascii_dec c c).
Qed.

Lemma prefix_split (p s : string) : String.prefix p s = true -> exists r, s = p +:+ r.
Proof.
  revert s. induction p as [|c p IH]; intros s Hp; [by exists s|].
  destruct s as [|d s]; [done|]. cbn [String.prefix] in Hp.
  destruct (ascii_dec c d) as [->|]; [|done].
  destruct (IH _ Hp) as [r ->]. by exists r.
Qed.

Lemma drop_append (a b : string) : PyStr.drop (String.length a) (a +:+ b) = b.
Proof. induction a as [|c a IH]; [by destruct b|]. by rewrite append_cons. Qed.

Lemma replace_from_skip old new k s :
  PyStr.replace_from old new k s = PyStr.replace_from old new 0 (PyStr.drop k s).
Proof.
  revert k. induction s as [|c r IH]; intros [|k]; try done.
  cbn [PyStr.replace_from PyStr.drop]. apply IH.
Qed.

(** The two cases of a step of [str.replace] on a non-empty text. *)
Lemma replace_here a old new s :
  PyStr.replace (String a old) new (String a old +:+ s)
  = new +:+ PyStr.replace (String a old) new s.
Proof.
  unfold PyStr.replace. rewrite append_cons. cbn [PyStr.replace_from].
  rewrite <- append_cons, prefix_append. cbn [String.length Nat.pred].
  by rewrite replace_from_skip, drop_append.
Qed.

Lemma replace_next a old new c s :
  String.prefix (String a old) (String c s) = false ->
  PyStr.replace (String a old) new (String c s)
  = String c (PyStr.replace (String a old) new s).
Proof. intros Hp. unfold PyStr.replace. cbn [PyStr.replace_from]. by rewrite Hp. Qed.

(** [str.replace] computes the replacement of all occurrences, and nothing
    else does. *)
Lemma replace_Replaced a old new s t :
  Replaced (String a old) new s t <-> PyStr.replace (String a old) new s = t.
Proof.
  split.
  - induction 1 as [|s t _ IH|c s t Hp _ IH].
    + done.
    + by rewrite replace_here, IH.
    + by rewrite replace_next, IH.
  - intros <-.
    assert (forall n s, (String.length s <= n)%nat ->
              Replaced (String a old) new s (PyStr.replace (String a old) new s)) as Hn.
    { clear s. induction n as [|n IH]; intros s Hl.
      - destruct s; [constructor|cbn [String.length] in Hl; lia].
      - destruct s as [|c r]; [constructor|].
        destruct (String.prefix (String a old) (String c r)) eqn:Hp.
        + destruct (prefix_split _ _ Hp) as [s' E]. rewrite E, replace_here.
          constructor. apply IH.
          apply (f_equal String.length) in E. rewrite append_cons in E.
          cbn [String.length] in *.
          assert (String.length s' <= String.length (old +:+ s'))%nat as Hle.
          { clear. induction old as [|x o IHo]; [done|].
            rewrite append_cons. cbn [String.length]. lia. }
          lia.
        + rewrite replace_next by done. constructor; [done|].
          apply IH. cbn [String.length] in Hl. lia. }
    by apply (Hn (String.length s)).
Qed.

(** Replacing a single character by nothing deletes it. *)
Lemma replace_char_remove c s :
  PyStr.replace (String c "") "" s = PyStr.remove_if (Ascii.eqb c) s.
Proof.
  unfold PyStr.replace.
  induction s as [|d r IH]; [done|].
  cbn [PyStr.replace_from PyStr.remove_if].
  rewrite prefix_one. destruct (Ascii.eqb c d); simpl; by rewrite IH.
Qed.

Lemma remove_if_ext p q s :
  (forall c, p c = q c) -> PyStr.remove_if p s = PyStr.remove_if q s.
Proof. intros E. induction s as [|d r IH]; simpl; [done|]. by rewrite E, IH. Qed.

Lemma remove_if_twice p q s :
  PyStr.remove_if q (PyStr.remove_if p s) = PyStr.remove_if (fun c => p c || q c) s.
Proof.
  induction s as [|d r IH]; simpl; [done|].
  destruct (p d); simpl; [done|]. destruct (q d); by rewrite IH.
Qed.

Lemma is_illegal_unfold c :
  is_illegal c =
  (((((((Ascii.eqb ":" c || Ascii.eqb "*" c) || Ascii.eqb "?" c)
       || Ascii.eqb PyStr.illegal_quote c) || Ascii.eqb "<" c) || Ascii.eqb ">" c)
    || Ascii.eqb "|" c) || Ascii.eqb "'" c).
Proof. by destruct c as [[] [] [] [] [] [] [] []]. Qed.

(** The loop over [illegal_char] deletes the eight characters. *)
Lemma illegal_loop s :
  fold_left (fun u char => PyStr.replace char "" u) illegal_char s
  = PyStr.remove_if is_illegal s.
Proof.
  unfold illegal_char. cbn [fold_left].
  rewrite !replace_char_remove, !remove_if_twice.
  apply remove_if_ext. intros c. by rewrite is_illegal_unfold, !orb_assoc.
Qed.

Lemma startswith_sep s :
  (if PyStr.startswith s "/" then PyStr.tail s else s) = drop_leading_separator s.
Proof.
  unfold PyStr.startswith. rewrite prefix_one.
  destruct s as [|d r]; [done|].
  by destruct d as [[] [] [] [] [] [] [] []].
Qed.

Lemma normalize_path_eq_spec s : normalize_path s = normalize_spec s.
Proof.
  unfold normalize_path, normalize_spec. cbv zeta.
  by rewrite illegal_loop, startswith_sep.
Qed.

Lemma mem_remove_if p c s : p c = true -> PyStr.mem c (PyStr.remove_if p s) = false.
Proof.
  intros Hp. induction s as [|d r IH]; simpl; [done|].
  destruct (p d) eqn:Hd; [done|]. simpl.
  destruct (Ascii.eqb_spec c d) as [->|]; [congruence|done].
Qed.

Lemma mem_drop_leading_separator c s :
  PyStr.mem c s = false -> PyStr.mem c (drop_leading_separator s) = false.
Proof.
  destruct s as [|d r]; [done|]. intros Hm.
  assert (PyStr.mem c r = false) as Hr.
  { simpl in Hm. by destruct (Ascii.eqb c d). }
  destruct d as [[] [] [] [] [] [] [] []]; simpl; try exact Hm; exact Hr.
Qed.

Lemma normalize_path_legal c s :
  is_illegal c = true -> PyStr.mem c (normalize_path s) = false.
Proof.
  intros Hc. rewrite normalize_path_eq_spec. unfold normalize_spec.
  apply mem_drop_leading_separator. by apply mem_remove_if.
Qed.

(** A pattern with a character that the text lacks does not occur in it. *)
Lemma prefix_mem old s c :
  String.prefix old s = true -> PyStr.mem c old = true -> PyStr.mem c s = true.
Proof.
  revert s. induction old as [|a old IH]; intros s Hp Hm; [done|].
  destruct s as [|b r]; [done|]. simpl in Hp.
  destruct (ascii_dec a b) as [->|]; [|done].
  simpl in *. destruct (Ascii.eqb c b); [done|]. by apply IH.
Qed.

Lemma replace_absent old new s c :
  PyStr.mem c old = true -> PyStr.mem c s = false -> PyStr.replace old new s = s.
Proof.
  intros Ho. unfold PyStr.replace. destruct old as [|a old']; [done|].
  induction s as [|d r IH]; intros Hs; [done|].
  cbn [PyStr.replace_from].
  destruct (String.prefix (String a old') (String d r)) eqn:Hp.
  - pose proof (prefix_mem _ _ _ Hp Ho). congruence.
  - f_equal. apply IH. simpl in Hs. by destruct (Ascii.eqb c d).
Qed.

Lemma remove_if_absent p s :
  (forall c, p c = true -> PyStr.mem c s = false) -> PyStr.remove_if p s = s.
Proof.
  induction s as [|d r IH]; intros Hs; [done|]. simpl.
  destruct (p d) eqn:Hd.
  - specialize (Hs d Hd). simpl in Hs. by rewrite Ascii.eqb_refl in Hs.
  - f_equal. apply IH. intros c Hc. specialize (Hs c Hc). simpl in Hs.
    by destruct (Ascii.eqb c d).
Qed.

(** On a text without illegal characters only the leading separator is left
    for [normalize_path] to remove. *)
Lemma normalize_path_legal_input t :
  (forall c, is_illegal c = true -> PyStr.mem c t = false) ->
  normalize_path t = drop_leading_separator t.
Proof.
  intros Ht. rewrite normalize_path_eq_spec. unfold normalize_spec.
  rewrite (replace_absent "http://" "http/" t ":") by (done || by apply Ht).
  rewrite (replace_absent "https://" "https/" t ":") by (done || by apply Ht).
  by rewrite remove_if_absent.
Qed.

Lemma string_cons_neq c s : String c s <> s.
Proof. induction s as [|d r IH]; [done|]. intros [= -> E]. by apply IH. Qed.

Lemma drop_leading_separator_fixed s :
  drop_leading_separator s = s <-> PyStr.startswith s "/" = false.
Proof.
  unfold PyStr.startswith. rewrite prefix_one.
  destruct s as [|d r]; [done|].
  destruct (Ascii.eqb_spec "/" d) as [<-|Hne].
  - simpl. split; [|done].
    intros E. symmetry in E. by apply string_cons_neq in E.
  - split; [done|]. intros _.
    destruct d as [[] [] [] [] [] [] [] []]; reflexivity || by destruct Hne.
Qed.

End NormalizePath.

(** C7: [normalize_path] is a total function that computes what the
    specification describes: the two scheme replacements, the deletion of
    every occurrence of the eight illegal characters (none is left in the
    result), and the removal of one leading separator; on
    ["https://a.com/x:y?z"] it gives ["https/a.com/xyz"]. *)
Theorem normalize_path_algorithm :
  forall url : string,
    (exists t1 t2 : string,
       Replaced "http://" "http/" url t1
       /\ Replaced "https://" "https/" t1 t2
       /\ normalize_path url = drop_leading_separator (PyStr.remove_if is_illegal t2))
    /\ normalize_path url = normalize_spec url
    /\ (forall c : ascii, is_illegal c && PyStr.mem c (normalize_path url) = false)
    /\ normalize_path "https://a.com/x:y?z" = "https/a.com/xyz".
Proof.
  intros url. split.
  { exists (PyStr.replace "http://" "http/" url),
      (PyStr.replace "https://" "https/" (PyStr.replace "http://" "http/" url)).
    split; [by apply replace_Replaced|]. split; [by apply replace_Replaced|].
    apply normalize_path_eq_spec. }
  split; [apply normalize_path_eq_spec|]. split; [|reflexivity].
  intros c. destruct (is_illegal c) eqn:Hc; [|done]. simpl.
  by apply normalize_path_legal.
Qed.

(** C6, as the code has it: a second application of [normalize_path]
    removes one more leading separator and nothing else, so the function is
    idempotent exactly on the inputs whose normal form does not begin with
    a separator. *)
Theorem normalize_path_twice :
  forall s : string,
    normalize_path (normalize_path s) = drop_leading_separator (normalize_path s)
    /\ (normalize_path (normalize_path s) = normalize_path s
        <-> PyStr.startswith (normalize_path s) "/" = false).
Proof.
  intros s.
  assert (normalize_path (normalize_path s) = drop_leading_separator (normalize_path s)) as E.
  { apply normalize_path_legal_input. intros c Hc. by apply normalize_path_legal. }
  split; [exact E|]. rewrite E. apply drop_leading_separator_fixed.
Qed.

(** C6 as stated fails: two leading separators lose one at each application. *)
Lemma normalize_path_not_idempotent :
  normalize_path "//a" = "/a" /\ normalize_path (normalize_path "//a") = "a".
Proof. split; reflexivity. Qed.

(** ** The version comparisons of [check_update] *)

Section Versions.

Implicit Types a b p : list Z.

Lemma list_gtb_components a b :
  list_gtb a b = true <-> compare_components a b = Gt.
Proof.
  revert b. induction a as [|x a IH]; intros [|y b]; simpl; try done.
  destruct (Z.ltb_spec y x), (Z.ltb_spec x y), (Z.compare_spec x y);
    try lia; try done; apply IH.
Qed.

Lemma list_gtb_cons_same (z : Z) a b : list_gtb (z :: a) (z :: b) = list_gtb a b.
Proof. simpl. by rewrite Z.ltb_irrefl. Qed.

Lemma list_gtb_app p a b : list_gtb (p ++ a) (p ++ b) = list_gtb a b.
Proof.
  induction p as [|z p IH]; [done|]. rewrite <- IH. apply list_gtb_cons_same.
Qed.

Lemma list_gtb_sequence_gt a b : list_gtb a b = true <-> sequence_gt a b.
Proof.
  split.
  - revert b. induction a as [|x a IH]; intros b Hgt; [done|].
    destruct b as [|y b].
    + exists [], x, a. split; [done|]. by left.
    + simpl in Hgt. destruct (Z.ltb_spec y x).
      * exists [], x, a. split; [done|]. right. by exists y, b.
      * destruct (Z.ltb_spec x y); [done|].
        assert (x = y) as -> by lia.
        destruct (IH b Hgt) as (p & z & ra & -> & Hb).
        exists (y :: p), z, ra. split; [done|].
        destruct Hb as [->|(y' & rb & -> & Hlt)]; [by left|].
        right. by exists y', rb.
  - intros (p & x & ra & -> & Hb).
    destruct Hb as [->|(y & rb & -> & Hlt)].
    + rewrite <- (app_nil_r p) at 2. by rewrite list_gtb_app.
    + rewrite list_gtb_app. simpl. destruct (Z.ltb_spec y x); [done|lia].
Qed.

Lemma zero_pad_length a : zero_pad (length a) a = a.
Proof. unfold zero_pad. by rewrite Nat.sub_diag, app_nil_r. Qed.

Lemma VersionMarker_compare_same_length a b :
  length a = length b -> VersionMarker_compare a b = compare_components a b.
Proof.
  intros E. unfold VersionMarker_compare. rewrite <- E, Nat.max_id.
  rewrite zero_pad_length. by rewrite E, zero_pad_length.
Qed.

End Versions.

(** C1, as the code has it for the frontend bundle: both version strings
    are turned into lists of integers and compared with the list order of
    Python, which is component-wise and numeric; the remote version is newer
    when it has the greater component after a common prefix or when the
    local version is a proper prefix of it.  There is no zero padding: the
    result agrees with the zero-padded comparison when both versions have as
    many components. *)
Theorem admin_version_newer_componentwise :
  forall (admin_version local_version : string) (a b : list Z),
    version_tuple admin_version = Ok a ->
    version_tuple local_version = Ok b ->
    admin_version_newer admin_version local_version = Ok (list_gtb a b)
    /\ (list_gtb a b = true <-> sequence_gt a b)
    /\ (length a = length b ->
        (list_gtb a b = true <-> VersionMarker_compare a b = Gt)).
Proof.
  intros admin_version local_version a b Ha Hb.
  split; [by unfold admin_version_newer; rewrite Ha, Hb|].
  split; [apply list_gtb_sequence_gt|].
  intros E. rewrite VersionMarker_compare_same_length by done.
  apply list_gtb_components.
Qed.

Lemma admin_version_newer_componentwise_witness :
  admin_version_newer "2.10" "2.9" = Ok (list_gtb [2; 10] [2; 9])
  /\ (list_gtb [2; 10] [2; 9] = true <-> sequence_gt [2; 10] [2; 9])
  /\ (length [2; 10] = length [2; 9] ->
      (list_gtb [2; 10] [2; 9] = true <-> VersionMarker_compare [2; 10] [2; 9] = Gt)).
Proof.
  apply (admin_version_newer_componentwise "2.10" "2.9" [2; 10] [2; 9]); reflexivity.
Defined.

(** What the two comparisons say on the examples of the specification. *)
Example admin_version_examples :
  admin_version_newer "2.10" "2.9" = Ok true
  /\ admin_version_newer "2.9" "2.10" = Ok false
  /\ admin_version_newer "1.0" "1.0.0" = Ok false
  /\ admin_version_newer "1.0" "1.0" = Ok false
  /\ admin_version_newer "1.x" "1.0" = Raise ValueError.
Proof. repeat split. Qed.

(** C1 as stated fails on its own examples.  The package-index comparison
    is a comparison of strings: a remote "2.9" counts as newer than a local
    "2.10", which the component-wise comparison puts before it.  The
    frontend comparison does not pad: a remote "1.0.0" counts as newer than
    a local "1.0", which the zero-padded comparison holds equal. *)
Lemma version_comparisons_differ :
  (core_version_newer "2.9" "2.10" = true
   /\ version_tuple "2.9" = Ok [2; 9] /\ version_tuple "2.10" = Ok [2; 10]
   /\ VersionMarker_compare [2; 9] [2; 10] = Lt)
  /\ (admin_version_newer "1.0.0" "1.0" = Ok true
      /\ version_tuple "1.0.0" = Ok [1; 0; 0] /\ version_tuple "1.0" = Ok [1; 0]
      /\ VersionMarker_compare [1; 0; 0] [1; 0] = Eq).
Proof. repeat split. Qed.

(** The comparison of line 242 at work: the release "2.9" is announced to
    an installation of "2.10" as an update. *)
Example update_announces_older_release :
  trace (fst (@update (announcing "2.9" "2.2.1")
                (mkConfig "2.10" "2.2.1" "bgmi" "bangumi" "bgmi/front_static" false [] "" "")
                1 true sample_world))
  = [EPrint Info "Checking update ...";
     EGet "https://pypi.org/pypi/bgmi/json" 60;
     EOpen "bgmi/latest"; EWrite "bgmi/latest" "2.9";
     EPrint Warning ("Please update bgmi to the latest version 2.9." +:+ newline
                     +:+ "Then execute `bgmi upgrade` to migrate database");
     EGet "https://registry.npmjs.com/bgmi-frontend/2.2.1" 60;
     EPrint Info "Use 'bgmi install' to install BGmi frontend / download delegate"].
Proof. vm_compute. reflexivity. Qed.

(** ** Running the monad *)

Lemma logged_nil w : logged w [] = w.
Proof. destruct w. unfold logged. simpl. by rewrite app_nil_r. Qed.

Lemma logged_logged w t1 t2 : logged (logged w t1) t2 = logged w (t1 ++ t2).
Proof. unfold logged. simpl. by rewrite app_assoc. Qed.

Lemma with_fs_same w : with_fs w (fs w) = w.
Proof. by destruct w. Qed.

Lemma bind_ok {A B} (m : M A) (k : A -> M B) w w' a :
  m w = (w', Ok a) -> bind m k w = k a w'.
Proof. unfold bind. by intros ->. Qed.

Lemma bind_raise {A B} (m : M A) (k : A -> M B) w w' e :
  m w = (w', Raise e) -> bind m k w = (w', Raise e).
Proof. unfold bind. by intros ->. Qed.

Lemma emit_logged e w : emit e w = (logged w [e], Ok tt).
Proof. done. Qed.

(** The steps that only unfold the plumbing of the monad. *)
Ltac run :=
  repeat (unfold bind, ret, raise, lift, emit, get_fs, put_fs, on_disk,
            try_except, print, print_info, print_success, print_warning,
            print_error; cbn [fst snd select_handler fs environ trace]).

(** ** [download_file] *)

Section DownloadFile.

Context `{Externals}.

Lemma download_file_eq url w :
  download_file url w =
    if is_http url then
      (logged w [EPrint Info ("Download: " +:+ url); EGet url 60],
       match http (trace w ++ [EPrint Info ("Download: " +:+ url)]) url 60 with
       | Ok r => Ok (Some r)
       | Raise e => Raise e
       end)
    else (w, Ok None).
Proof.
  unfold download_file, is_http.
  destruct (PyStr.startswith url "https://" || PyStr.startswith url "http://"); [|done].
  run. unfold requests_get. cbn [fs environ trace].
  unfold logged. rewrite <- app_assoc. cbn [app].
  by destruct (http _ url 60).
Qed.

End DownloadFile.

(** C3, as the code has it: a URL that begins with neither "http://" nor
    "https://" is not requested and gives [None], the world untouched; any
    other URL is announced and requested once, with a timeout of 60
    seconds, and the outcome of that request is the outcome of the call:
    the response when there is one, and the exception when the request
    raises. *)
Theorem download_file_behaviour :
  forall (H : Externals) (url : string) (w : World),
    download_file url w =
      if PyStr.startswith url "https://" || PyStr.startswith url "http://" then
        (logged w [EPrint Info ("Download: " +:+ url); EGet url 60],
         match http (trace w ++ [EPrint Info ("Download: " +:+ url)]) url 60 with
         | Ok r => Ok (Some r)
         | Raise e => Raise e
         end)
      else (w, Ok None).
Proof. intros. apply download_file_eq. Qed.

(** C3 as stated fails: without a connection the call raises. *)
Lemma download_file_raises :
  snd (@download_file offline "http://example.com/cover.jpg" empty_world)
  = Raise ConnectionError.
Proof. reflexivity. Qed.

(** ** [download_cover] *)

Section DownloadCover.

Context `{Externals}.
Variable cfg : Config.

(** One step of the pool: the other tasks are run whatever the first
    gives. *)
Lemma pool_map_cons {A B} (f : A -> M B) x l w :
  pool_map f (x :: l) w =
    match f x w with
    | (w1, Ok y) =>
        match pool_map f l w1 with
        | (w2, Ok ys) => (w2, Ok (y :: ys))
        | (w2, Raise e) => (w2, Raise e)
        end
    | (w1, Raise e) => ((pool_map f l w1).1, Raise e)
    end.
Proof.
  cbn [pool_map]. destruct (f x w) as [w1 [y|e]]; [|done].
  unfold bind. by destruct (pool_map f l w1) as [w2 [ys|e]].
Qed.

Lemma pool_map_length {A B} (f : A -> M B) l w w' ys :
  pool_map f l w = (w', Ok ys) -> length ys = length l.
Proof.
  revert w w' ys. induction l as [|x l IH]; intros w w' ys.
  - cbn [pool_map]. run. by intros [= _ <-].
  - rewrite pool_map_cons. destruct (f x w) as [w1 [y|e]]; [|done].
    destruct (pool_map f l w1) as [w2 [ys'|e]] eqn:E; [|done].
    intros [= _ <-]. simpl. f_equal. by eapply IH.
Qed.

Lemma download_cover_eq urls w :
  download_cover cfg urls w =
    match pool_map download_file urls (logged w [EThreadPool 4]) with
    | (w1, Ok rs) =>
        for_each (enumerate rs) (save_cover cfg urls) (logged w1 [EPoolClose])
    | (w1, Raise e) => (w1, Raise e)
    end.
Proof.
  unfold download_cover. rewrite (bind_ok _ _ _ _ _ (emit_logged _ w)).
  unfold bind at 1.
  destruct (pool_map download_file urls (logged w [EThreadPool 4])) as [w1 [rs|e]]; [|done].
  by rewrite (bind_ok _ _ _ _ _ (emit_logged _ w1)).
Qed.

Lemma truthy_error_status (r : Response) :
  400 <= status_code r < 600 -> truthy (Some r) = false.
Proof.
  intros [Hl Hu]. unfold truthy, Response_ok.
  destruct (Z.leb_spec 400 (status_code r)); [|lia].
  destruct (Z.ltb_spec (status_code r) 600); [done|lia].
Qed.

Lemma save_cover_falsy urls index r w :
  truthy r = false -> save_cover cfg urls (index, r) w = (w, Ok tt).
Proof.
  unfold save_cover, truthy. destruct r as [resp|]; [|done].
  by intros ->.
Qed.

Lemma for_each_app {A} (l1 l2 : list A) (body : A -> M unit) w :
  for_each (l1 ++ l2) body w =
    match for_each l1 body w with
    | (w1, Ok _) => for_each l2 body w1
    | (w1, Raise e) => (w1, Raise e)
    end.
Proof.
  revert w. induction l1 as [|x l1 IH]; intros w; cbn [app for_each]; [done|].
  unfold bind. destruct (body x w) as [w1 [[]|e]]; [|done]. apply IH.
Qed.

Lemma enumerate_app {A} (l1 l2 : list A) :
  enumerate (l1 ++ l2) = enumerate l1 ++ zip (seq (length l1) (length l2)) l2.
Proof.
  unfold enumerate. rewrite length_app, seq_app.
  rewrite zip_with_app by by rewrite length_seq. done.
Qed.

(** An item whose result is false leaves the loop as a skipped one does. *)
Lemma for_each_falsy_item urls (before after : list (option Response)) r w :
  truthy r = false ->
  for_each (enumerate (before ++ r :: after)) (save_cover cfg urls) w
  = for_each (enumerate (before ++ None :: after)) (save_cover cfg urls) w.
Proof.
  intros Hr. rewrite !enumerate_app, !for_each_app.
  destruct (for_each (enumerate before) _ w) as [w1 [[]|e]]; [|done].
  cbn [length seq zip zip_with for_each]. unfold bind.
  by rewrite save_cover_falsy.
Qed.

End DownloadCover.

(** C9, as the code has it: on the empty list [download_cover] requests
    nothing and touches no file; it builds the pool of four workers, closes
    it and returns. *)
Theorem download_cover_empty :
  forall (H : Externals) (cfg : Config) (w : World),
    download_cover cfg [] w = (logged w [EThreadPool 4; EPoolClose], Ok tt).
Proof.
  intros. rewrite download_cover_eq. cbn [pool_map]. run.
  unfold enumerate. cbn [length seq zip zip_with for_each]. run.
  by rewrite logged_logged.
Qed.

(** C9 as stated fails: the pool and its workers are started before the
    list is looked at. *)
Lemma download_cover_empty_starts_workers :
  existsb starts_workers
    (trace (fst (@download_cover offline sample_cfg [] empty_world))) = true.
Proof. reflexivity. Qed.

(** C10, as the code has it: a response with a client or server error
    status (400 to 599) is false, so its item is skipped like a [None]:
    nothing is called for it, the world is as before, and the whole loop
    runs as if the fetch had given no result. *)
Theorem download_cover_error_status_skipped :
  forall (H : Externals) (cfg : Config) (urls : list string) (index : nat)
         (r : Response) (w : World),
    400 <= status_code r < 600 ->
    truthy (Some r) = false
    /\ save_cover cfg urls (index, Some r) w = (w, Ok tt)
    /\ save_cover cfg urls (index, Some r) w = save_cover cfg urls (index, None) w
    /\ (forall before after : list (option Response),
          for_each (enumerate (before ++ Some r :: after)) (save_cover cfg urls) w
          = for_each (enumerate (before ++ None :: after)) (save_cover cfg urls) w).
Proof.
  intros H cfg urls index r w Hs.
  pose proof (truthy_error_status r Hs) as Hf.
  split; [done|]. split; [by apply save_cover_falsy|].
  split; [by rewrite save_cover_falsy|].
  intros before after. by apply for_each_falsy_item.
Qed.

Lemma download_cover_error_status_skipped_witness :
  truthy (Some (mkResponse 404 "not found")) = false
  /\ @save_cover offline sample_cfg ["http://a.com/x.jpg"] (0%nat, Some (mkResponse 404 "not found"))
       sample_world = (sample_world, Ok tt)
  /\ @save_cover offline sample_cfg ["http://a.com/x.jpg"] (0%nat, Some (mkResponse 404 "not found"))
       sample_world
     = @save_cover offline sample_cfg ["http://a.com/x.jpg"] (0%nat, None) sample_world
  /\ (forall before after : list (option Response),
        for_each (enumerate (before ++ Some (mkResponse 404 "not found") :: after))
          (@save_cover offline sample_cfg ["http://a.com/x.jpg"]) sample_world
        = for_each (enumerate (before ++ None :: after))
            (@save_cover offline sample_cfg ["http://a.com/x.jpg"]) sample_world).
Proof.
  apply (download_cover_error_status_skipped offline sample_cfg ["http://a.com/x.jpg"] 0%nat
           (mkResponse 404 "not found") sample_world).
  simpl. lia.
Defined.

(** C10 as stated fails above the error statuses: a response with the
    status 600 is true, and its body is saved like any cover. *)
Lemma download_cover_status_600_saved :
  truthy (Some (mkResponse 600 "JPEG")) = true
  /\ cover_writes
       (trace (fst (@download_cover (answering (mkResponse 600 "JPEG") (fun _ => 0%Q))
                      sample_cfg ["http://a.com/x.jpg"] sample_world)))
     = [("bangumi/cover/http/a.com/x.jpg", "JPEG")]
  /\ fs (fst (@download_cover (answering (mkResponse 600 "JPEG") (fun _ => 0%Q))
                sample_cfg ["http://a.com/x.jpg"] sample_world))
       !! "bangumi/cover/http/a.com/x.jpg" = Some (File "JPEG").
Proof. repeat split; vm_compute; reflexivity. Qed.

(** ** [episode_filter_regex] *)



Example episode_filter_regex_debug :
  snd (@episode_filter_regex offline sample_cfg ["Show S01E01"] (Some "(")
         (mkWorld ∅ {[ "DEBUG" := "1" ]} []))
  = Raise ReError.
Proof. reflexivity. Qed.

(** ** [get_web_admin] *)

Section Quiet.

Context `{Externals}.

Lemma quiet_ret {A} (a : A) : quiet (ret a).
Proof. intros w w' r [= <- <-]. exists []. by rewrite logged_nil. Qed.

Lemma quiet_raise {A} e : quiet (@raise A e).
Proof. intros w w' r [= <- <-]. exists []. by rewrite logged_nil. Qed.

Lemma quiet_lift {A} (x : result A) : quiet (lift x).
Proof. intros w w' r [= <- <-]. exists []. by rewrite logged_nil. Qed.

Lemma quiet_bind {A B} (m : M A) (k : A -> M B) :
  quiet m -> (forall a, quiet (k a)) -> quiet (bind m k).
Proof.
  intros Hm Hk w w' r. unfold bind.
  destruct (m w) as [w1 [a|e]] eqn:E.
  - intros Hr. destruct (Hm _ _ _ E) as (t1 & -> & F1).
    destruct (Hk _ _ _ _ Hr) as (t2 & -> & F2).
    exists (t1 ++ t2). rewrite logged_logged. split; [done|].
    by rewrite forallb_app, F1, F2.
  - intros [= <- <-]. eauto.
Qed.

Lemma quiet_emit e : is_disk_call e = false -> quiet (emit e).
Proof.
  intros He w w' r [= <- <-]. exists [e]. split; [done|]. simpl. by rewrite He.
Qed.

Lemma quiet_requests_get url timeout : quiet (requests_get url timeout).
Proof. intros w w' r [= <- <-]. by exists [EGet url timeout]. Qed.

Lemma quiet_Response_json r : quiet (Response_json r).
Proof.
  unfold Response_json. destruct (json_loads (content r)).
  - apply quiet_ret.
  - apply quiet_raise.
Qed.

Lemma quiet_select_handler {A} (clauses : list ((exn -> bool) * (exn -> M A))) e :
  Forall (fun ch => forall e, quiet (ch.2 e)) clauses -> quiet (select_handler clauses e).
Proof.
  induction 1 as [|[class handler] rest Hh _ IH]; cbn [select_handler].
  - apply quiet_raise.
  - destruct (class e); [apply Hh|apply IH].
Qed.

Lemma quiet_try_except {A} (m : M A) clauses :
  quiet m -> Forall (fun ch => forall e, quiet (ch.2 e)) clauses ->
  quiet (try_except m clauses).
Proof.
  intros Hm Hc w w' r. unfold try_except.
  destruct (m w) as [w1 [a|e]] eqn:E.
  - intros [= <- <-]. eauto.
  - intros Hr. destruct (Hm _ _ _ E) as (t1 & -> & F1).
    destruct (quiet_select_handler clauses e Hc _ _ _ Hr) as (t2 & -> & F2).
    exists (t1 ++ t2). rewrite logged_logged. split; [done|].
    by rewrite forallb_app, F1, F2.
Qed.

End Quiet.

Ltac quiet_step :=
  first
    [ apply quiet_ret | apply quiet_raise | apply quiet_lift
    | apply quiet_requests_get | apply quiet_Response_json
    | apply quiet_emit; reflexivity
    | apply quiet_bind; [|intros ?]
    | match goal with
      | |- quiet (if ?b then _ else _) => destruct b
      | |- quiet (match ?x with _ => _ end) => destruct x
      end ].

Section GetWebAdmin.

Context `{Externals}.
Variable cfg : Config.

(** The [try] block of [get_web_admin] calls the network and the console
    only. *)
Lemma get_web_admin_fetch_quiet : quiet (get_web_admin_fetch cfg).
Proof.
  unfold get_web_admin_fetch, getitem, print, print_error.
  repeat quiet_step.
Qed.

End GetWebAdmin.

(** C2: when the first step of [get_web_admin] (the two registry requests,
    their decoding, the request of the tarball) ends in a connection error
    or a JSON decoding error, the call prints the warning and returns; it
    has made no disk call, and the disk and the environment are as
    before. *)
Theorem get_web_admin_failure_atomic :
  forall (H : Externals) (cfg : Config) (c : ascii) (rest : string)
         (w w1 : World) (e : exn),
    get_web_admin_fetch cfg
      (logged w [EPrint Info (String (PyStr.upper_char c) rest +:+ "ing BGmi frontend")])
      = (w1, Raise e) ->
    is_ConnectionError e || is_JSONDecodeError e = true ->
    get_web_admin cfg (String c rest) w
      = (logged w1 [EPrint Warning "failed to download web admin"], Ok tt)
    /\ fs (logged w1 [EPrint Warning "failed to download web admin"]) = fs w
    /\ environ (logged w1 [EPrint Warning "failed to download web admin"]) = environ w
    /\ exists t : list event,
         trace (logged w1 [EPrint Warning "failed to download web admin"]) = trace w ++ t
         /\ forallb (fun e => negb (is_disk_call e)) t = true.
Proof.
  intros H cfg c rest w w1 e Hf He.
  destruct (get_web_admin_fetch_quiet cfg _ _ _ Hf) as (t & -> & Ft).
  split.
  - unfold get_web_admin, print_info.
    rewrite (bind_ok _ _ _ _ _ (emit_logged _ w)).
    unfold bind at 1. unfold try_except. rewrite Hf. cbn [select_handler].
    destruct (is_ConnectionError e); [by run|].
    simpl in He. rewrite He. by run.
  - split; [done|]. split; [done|].
    eexists. split.
    + unfold logged. cbn [trace]. rewrite <- !app_assoc. reflexivity.
    + cbn [app forallb is_disk_call negb andb]. by rewrite forallb_app, Ft.
Qed.

Lemma get_web_admin_failure_atomic_witness :
  @get_web_admin offline sample_cfg "install" sample_world
    = (logged (logged sample_world
                 [EPrint Info "Installing BGmi frontend";
                  EGet "https://registry.npmjs.com/bgmi-frontend/" 60])
         [EPrint Warning "failed to download web admin"], Ok tt)
  /\ fs (logged (logged sample_world
                   [EPrint Info "Installing BGmi frontend";
                    EGet "https://registry.npmjs.com/bgmi-frontend/" 60])
           [EPrint Warning "failed to download web admin"]) = fs sample_world
  /\ environ (logged (logged sample_world
                        [EPrint Info "Installing BGmi frontend";
                         EGet "https://registry.npmjs.com/bgmi-frontend/" 60])
                [EPrint Warning "failed to download web admin"]) = environ sample_world
  /\ exists t : list event,
       trace (logged (logged sample_world
                        [EPrint Info "Installing BGmi frontend";
                         EGet "https://registry.npmjs.com/bgmi-frontend/" 60])
                [EPrint Warning "failed to download web admin"]) = trace sample_world ++ t
       /\ forallb (fun e => negb (is_disk_call e)) t = true.
Proof.
  apply (get_web_admin_failure_atomic offline sample_cfg "i" "nstall" sample_world
           (logged sample_world
              [EPrint Info "Installing BGmi frontend";
               EGet "https://registry.npmjs.com/bgmi-frontend/" 60])
           ConnectionError); reflexivity.
Defined.

(** A body that is not JSON takes the same path. *)
Example get_web_admin_malformed_json :
  @get_web_admin (answering (mkResponse 200 "<html>") (fun _ => 0%Q)) sample_cfg "update"
    sample_world
  = (logged sample_world
       [EPrint Info "Updateing BGmi frontend";
        EGet "https://registry.npmjs.com/bgmi-frontend/" 60;
        EPrint Warning "failed to download web admin"], Ok tt).
Proof. reflexivity. Qed.

(** ** [check_update]: the marker file *)

Section Decimal.

Import DecimalString.NilEmpty.

Lemma rstrip_if_id (p : ascii -> bool) s :
  PyStr.all_chars (fun c => negb (p c)) s = true -> PyStr.rstrip_if p s = s.
Proof.
  induction s as [|c r IH]; [done|]. cbn [PyStr.all_chars PyStr.rstrip_if].
  intros [Hc Hr]%andb_prop. rewrite (IH Hr).
  destruct r; [|done]. by destruct (p c).
Qed.

Lemma lstrip_if_id (p : ascii -> bool) s :
  PyStr.all_chars (fun c => negb (p c)) s = true -> PyStr.lstrip_if p s = s.
Proof.
  destruct s as [|c r]; [done|]. cbn [PyStr.all_chars PyStr.lstrip_if].
  intros [Hc _]%andb_prop. by destruct (p c).
Qed.

Lemma char_byte (c : ascii) : Utf8.char (Utf8.byte c) = c.
Proof. unfold Utf8.char, Utf8.byte. by rewrite N2Z.id, ascii_N_embedding. Qed.

(** A text of ASCII characters is the list of its bytes, and [int] reads it
    as it is. *)
Lemma decode_from_ascii fuel s :
  (String.length s <= fuel)%nat ->
  PyStr.all_chars (fun c => Utf8.byte c <? 128) s = true ->
  exists cps, Utf8.decode_from fuel s = Some cps /\ PyStr.ascii_text cps = s.
Proof.
  revert fuel. induction s as [|c r IH]; intros fuel Hf Hs;
    [exists []; by destruct fuel|].
  cbn [String.length] in Hf. destruct fuel as [|fuel]; [lia|].
  cbn [PyStr.all_chars] in Hs. apply andb_prop in Hs as [Hc Hr].
  destruct (IH fuel ltac:(lia) Hr) as (cps & E & Et).
  exists (Utf8.byte c :: cps). cbn [Utf8.decode_from Utf8.next]. rewrite Hc, E.
  split; [done|]. cbn [PyStr.ascii_text]. unfold PyStr.to_ascii.
  by rewrite Hc, char_byte, Et.
Qed.

Lemma int_ascii s :
  PyStr.all_chars (fun c => Utf8.byte c <? 128) s = true ->
  PyStr.int s =
    match PyStr.rstrip_if PyStr.c_isspace (PyStr.lstrip_if PyStr.c_isspace s) with
    | String "-" r => Z.opp <$> PyStr.parse_digits 0 false r
    | String "+" r => PyStr.parse_digits 0 false r
    | r => PyStr.parse_digits 0 false r
    end.
Proof.
  intros Hs. unfold PyStr.int, Utf8.decode.
  destruct (decode_from_ascii (String.length s) s) as (cps & -> & ->); done.
Qed.

Lemma strip_id s :
  PyStr.all_chars (fun c => negb (PyStr.c_isspace c)) s = true ->
  PyStr.rstrip_if PyStr.c_isspace (PyStr.lstrip_if PyStr.c_isspace s) = s.
Proof. intros Hs. by rewrite lstrip_if_id, rstrip_if_id. Qed.

Lemma string_of_uint_no_space u :
  PyStr.all_chars (fun c => negb (PyStr.c_isspace c)) (string_of_uint u) = true.
Proof. induction u; simpl; auto. Qed.

Lemma string_of_uint_ascii u :
  PyStr.all_chars (fun c => Utf8.byte c <? 128) (string_of_uint u) = true.
Proof. induction u; simpl; auto. Qed.

Lemma parse_digits_acc u (acc : positive) :
  PyStr.parse_digits (Z.pos acc) true (string_of_uint u)
  = Some (Z.pos (Pos.of_uint_acc u acc)).
Proof.
  revert acc. induction u; intros acc; cbn [string_of_uint PyStr.parse_digits];
    [done|..];
    match goal with
    | |- context [PyStr.digit ?c] => change (PyStr.digit c) with (Some (Z.of_nat (nat_of_ascii c) - 48))
    end;
    cbn [Pos.of_uint_acc]; rewrite <- IHu; f_equal;
    try (match goal with
         | |- context [Z.of_nat (nat_of_ascii ?c) - 48] =>
             let v := eval vm_compute in (Z.of_nat (nat_of_ascii c) - 48) in
             change (Z.of_nat (nat_of_ascii c) - 48) with v
         end; lia).
Qed.

Lemma parse_digits_zero u :
  PyStr.parse_digits 0 true (string_of_uint u) = Some (Z.of_N (Pos.of_uint u)).
Proof.
  induction u; cbn [string_of_uint PyStr.parse_digits Pos.of_uint]; [done|..];
    match goal with
    | |- context [PyStr.digit ?c] => change (PyStr.digit c) with (Some (Z.of_nat (nat_of_ascii c) - 48))
    end;
    [exact IHu|..]; cbn [Z.of_N]; rewrite <- parse_digits_acc; f_equal.
Qed.

Lemma parse_digits_start u :
  u <> Decimal.Nil ->
  PyStr.parse_digits 0 false (string_of_uint u) = Some (Z.of_N (Pos.of_uint u)).
Proof.
  intros Hu. rewrite <- parse_digits_zero. by destruct u.
Qed.

Lemma int_string_of_uint u :
  u <> Decimal.Nil ->
  PyStr.int (string_of_uint u) = Some (Z.of_N (Pos.of_uint u)).
Proof.
  intros Hu. rewrite int_ascii by apply string_of_uint_ascii.
  rewrite strip_id by apply string_of_uint_no_space.
  rewrite <- parse_digits_start by done. by destruct u.
Qed.

Lemma to_uint_not_nil p : Pos.to_uint p <> Decimal.Nil.
Proof.
  intros E. pose proof (DecimalPos.Unsigned.of_to p) as Hp. rewrite E in Hp. done.
Qed.

(** What [str] prints, [int] reads back. *)
Lemma int_of_Z n : PyStr.int (PyStr.of_Z n) = Some n.
Proof.
  unfold PyStr.of_Z. destruct n as [|p|p]; cbn [Z.to_int string_of_int].
  - reflexivity.
  - rewrite int_string_of_uint by apply to_uint_not_nil.
    by rewrite DecimalPos.Unsigned.of_to.
  - rewrite int_ascii
      by (cbn [PyStr.all_chars]; by rewrite string_of_uint_ascii).
    rewrite strip_id
      by (cbn [PyStr.all_chars]; by rewrite string_of_uint_no_space).
    rewrite parse_digits_start by apply to_uint_not_nil.
    by rewrite DecimalPos.Unsigned.of_to.
Qed.

End Decimal.

Section Marker.

Context `{Externals}.
Variable cfg : Config.

Lemma append_assoc (a b c : string) : (a +:+ b) +:+ c = a +:+ (b +:+ c).
Proof. induction a as [|x a IH]; [done|]. rewrite !append_cons. by f_equal. Qed.

Lemma cut_tail_nonempty s c :
  OsPath.is_sep c = false -> (OsPath.cut (s +:+ String c "")).2 <> "".
Proof.
  intros Hc. induction s as [|d s IH].
  - change ("" +:+ String c "") with (String c ""). cbn [OsPath.cut]. by rewrite Hc.
  - rewrite append_cons. cbn [OsPath.cut].
    destruct (OsPath.cut (s +:+ String c "")) as [h t]. simpl in IH.
    destruct (OsPath.is_sep d); [done|]. by destruct h.
Qed.

Lemma basename_cut p : OsPath.basename p = (OsPath.cut p).2.
Proof.
  unfold OsPath.basename, OsPath.split. destruct (OsPath.cut p) as [h t].
  by destruct (PyStr.rstrip_if OsPath.is_sep h).
Qed.

Lemma version_file_basename : OsPath.basename (version_file cfg) <> "".
Proof.
  rewrite basename_cut. unfold version_file, OsPath.join.
  change (PyStr.startswith "version" "/") with false. cbv iota.
  destruct (_ || _).
  - change (BGMI_PATH cfg +:+ "version") with (BGMI_PATH cfg +:+ "versio" +:+ "n").
    rewrite <- (append_assoc (BGMI_PATH cfg) "versio" "n").
    by apply cut_tail_nonempty.
  - change (BGMI_PATH cfg +:+ "/" +:+ "version")
      with (BGMI_PATH cfg +:+ "/versio" +:+ "n").
    rewrite <- (append_assoc (BGMI_PATH cfg) "/versio" "n").
    by apply cut_tail_nonempty.
Qed.

(** The marker can be opened for writing when its directory is there and it
    is not itself a directory. *)
Lemma create_version_file d :
  Disk.parent d (version_file cfg) = Ok tt ->
  Disk.isdir d (version_file cfg) = false ->
  Disk.create (version_file cfg) d = Ok (<[version_file cfg := File ""]> d).
Proof.
  intros Hp Hd. unfold Disk.create. unfold Disk.isdir in Hd.
  pose proof version_file_basename as Hb.
  destruct (d !! version_file cfg) as [[]|]; try done;
    destruct (OsPath.basename (version_file cfg)); try done; by rewrite Hp.
Qed.

(** Lines 267-268 and 275-276: the marker is opened, the clock read, the
    time written. *)
Lemma renew_marker (k : M unit) w :
  Disk.parent (fs w) (version_file cfg) = Ok tt ->
  Disk.isdir (fs w) (version_file cfg) = false ->
  (open_w (version_file cfg) ;;
   now <- time_time ;;
   file_write (version_file cfg) (PyStr.of_Z (int_of_float now)) ;;
   k)%M w
  = k (renewed cfg w).
Proof.
  intros Hp Hd. unfold open_w, time_time, file_write. run.
  rewrite (create_version_file _ Hp Hd). run.
  unfold renewed, stamp. rewrite insert_insert_eq, <- !app_assoc. done.
Qed.

(** What escapes [update] is no [Exception]: the nested function handles
    every [Exception] itself. *)
Lemma update_raises depth mark w w' e :
  update cfg depth mark w = (w', Raise e) -> is_ValueError e = false.
Proof.
  destruct depth as [|depth]; cbn [update].
  - by intros [= _ <-].
  - unfold try_except. match goal with |- context [match ?m w with _ => _ end] =>
      destruct (m w) as [w1 [[]|e1]] end; [done|].
    cbn [select_handler]. destruct (is_Exception e1) eqn:E.
    + by run.
    + run. intros [= _ <-]. by destruct e1.
Qed.

Lemma check_marker_eq (upd : M unit) w :
  check_marker cfg upd w =
    match fs w !! version_file cfg with
    | Some (File text) =>
        match PyStr.int text with
        | Some data =>
            if Qle_bool (clock (trace w) - seven_days) (inject_Z data)
            then (logged w [ETime], Ok tt)
            else try_except
                   (open_w (version_file cfg) ;;
                    now <- time_time ;;
                    file_write (version_file cfg) (PyStr.of_Z (int_of_float now)) ;;
                    upd)%M
                   [ (is_ValueError, fun _ => ret tt) ] (logged w [ETime])
        | None => (w, Ok tt)
        end
    | Some Dir => (w, Raise IsADirectoryError)
    | None => (w, Raise FileNotFoundError)
    end.
Proof.
  unfold check_marker, open_read, Disk.read. fold (version_file cfg). run.
  destruct (fs w !! version_file cfg) as [[text|]|]; [|done..].
  destruct (PyStr.int text) as [data|]; [|done].
  unfold time_time at 1. run.
  by destruct (Qle_bool (clock (trace w) - seven_days) (inject_Z data)).
Qed.

End Marker.

Section MarkerCases.

Context `{Externals}.
Variable cfg : Config.
Variable mark : bool.

Local Abbreviation upd := (update cfg recursion_limit mark).

Lemma try_update w :
  try_except upd [ (is_ValueError, fun _ => ret tt) ] w = upd w.
Proof.
  unfold try_except. destruct (upd w) as [w' [[]|e]] eqn:E; [done|].
  cbn [select_handler]. by rewrite (update_raises _ _ _ _ _ _ E).
Qed.

Lemma check_update_missing w :
  fs w !! version_file cfg = None ->
  Disk.parent (fs w) (version_file cfg) = Ok tt ->
  check_update cfg mark w = (upd ;; check_marker cfg upd)%M (renewed cfg w).
Proof.
  intros Hm Hp. unfold check_update, check_update_with, os_path_exists, Disk.exists_.
  fold (version_file cfg). run. rewrite Hm. cbn [negb].
  assert (Disk.isdir (fs w) (version_file cfg) = false) as Hd
    by (unfold Disk.isdir; by rewrite Hm).
  pose proof (renew_marker cfg upd w Hp Hd) as E. revert E. run. by intros ->.
Qed.

Lemma check_update_present w n :
  fs w !! version_file cfg = Some n ->
  check_update cfg mark w = check_marker cfg upd w.
Proof.
  intros Hm. unfold check_update, check_update_with, os_path_exists, Disk.exists_.
  fold (version_file cfg). run. by rewrite Hm.
Qed.

Lemma check_marker_old w text data :
  fs w !! version_file cfg = Some (File text) ->
  PyStr.int text = Some data ->
  (inject_Z data < clock (trace w) - seven_days)%Q ->
  Disk.parent (fs w) (version_file cfg) = Ok tt ->
  check_marker cfg upd w = upd (renewed cfg (logged w [ETime])).
Proof.
  intros Hm Hi Hold Hp. rewrite check_marker_eq, Hm, Hi.
  destruct (Qle_bool _ _) eqn:E.
  - apply Qle_bool_iff in E. by apply Qle_not_lt in E.
  - assert (Disk.isdir (fs (logged w [ETime])) (version_file cfg) = false) as Hd
      by (unfold Disk.isdir; cbn [logged fs]; by rewrite Hm).
    unfold try_except at 1.
    rewrite (renew_marker cfg upd (logged w [ETime]) Hp Hd).
    pose proof (try_update (renewed cfg (logged w [ETime]))) as T.
    unfold try_except in T. exact T.
Qed.

Lemma check_marker_fresh w text data :
  fs w !! version_file cfg = Some (File text) ->
  PyStr.int text = Some data ->
  (clock (trace w) - seven_days <= inject_Z data)%Q ->
  check_marker cfg upd w = (logged w [ETime], Ok tt).
Proof.
  intros Hm Hi Hfresh. rewrite check_marker_eq, Hm, Hi.
  apply Qle_bool_iff in Hfresh. by rewrite Hfresh.
Qed.

Lemma check_marker_malformed w text :
  fs w !! version_file cfg = Some (File text) ->
  PyStr.int text = None ->
  check_marker cfg upd w = (w, Ok tt).
Proof. intros Hm Hi. by rewrite check_marker_eq, Hm, Hi. Qed.

End MarkerCases.

(** ** The writes of [download_cover] *)

Section DiskFacts.

Implicit Types (d : gmap string node) (p k : string).

Lemma mkdir_ok p d d' :
  Disk.mkdir p d = Ok d' -> d' = <[p := Dir]> d /\ d !! p = None.
Proof.
  unfold Disk.mkdir. destruct (d !! p) eqn:E; [done|].
  destruct (Disk.parent d p); [|done]. by intros [= <-].
Qed.

Lemma mkdir_keeps p d d' k v :
  Disk.mkdir p d = Ok d' -> d !! k = Some v -> d' !! k = Some v.
Proof.
  intros [-> Hn]%mkdir_ok Hk. rewrite lookup_insert_ne; [done|]. congruence.
Qed.

(** [os.makedirs] only adds entries. *)
Lemma makedirs_from_keeps fuel name d d' k v :
  Disk.makedirs_from fuel name d = Ok d' -> d !! k = Some v -> d' !! k = Some v.
Proof.
  revert name d d'. induction fuel as [|fuel IH]; intros name d d'; [done|].
  cbn [Disk.makedirs_from].
  destruct (OsPath.split name) as [head tail].
  destruct (match tail with
            | EmptyString => OsPath.split head
            | String _ _ => (head, tail)
            end) as [head' tail'].
  destruct (negb (String.eqb head' "") && negb (String.eqb tail' "")
            && negb (Disk.exists_ d head')).
  - destruct (Disk.makedirs_from fuel head' d) as [d1|e] eqn:E.
    + destruct (String.eqb tail' ".").
      * intros [= <-] Hk. by eapply IH.
      * intros Hm Hk. eapply mkdir_keeps; [done|]. by eapply IH.
    + destruct e; try done. destruct (String.eqb tail' ".").
      * by intros [= <-].
      * intros Hm Hk. by eapply mkdir_keeps.
  - intros Hm Hk. by eapply mkdir_keeps.
Qed.

Lemma create_ok p d d' :
  Disk.create p d = Ok d' ->
  d' = <[p := File ""]> d /\ Disk.parent d p = Ok tt /\ d !! p <> Some Dir
  /\ OsPath.basename p <> "".
Proof.
  unfold Disk.create. intros Hc.
  assert (d !! p <> Some Dir) as Hd by (by destruct (d !! p) as [[]|]).
  assert (match OsPath.basename p with
          | EmptyString => Raise IsADirectoryError
          | String _ _ =>
              match Disk.parent d p with
              | Ok _ => Ok (<[p := File ""]> d)
              | Raise e => Raise e
              end
          end = Ok d') as Hc'.
  { by destruct (d !! p) as [[]|]. }
  destruct (OsPath.basename p); [done|].
  destruct (Disk.parent d p) as [[]|] eqn:Hp; [|done].
  injection Hc' as <-. done.
Qed.

Lemma parent_mono d d' p :
  Disk.parent d p = Ok tt ->
  (forall k, d !! k = Some Dir -> d' !! k = Some Dir) ->
  Disk.parent d' p = Ok tt.
Proof.
  unfold Disk.parent. intros Hp Hk.
  destruct (PyStr.rstrip_if OsPath.is_sep (OsPath.dirname p)); [done|].
  destruct (d !! OsPath.dirname p) as [[]|] eqn:E; try done.
  by rewrite (Hk _ E).
Qed.

Lemma cut_length p :
  (String.length (OsPath.cut p).1 + String.length (OsPath.cut p).2 = String.length p)%nat.
Proof.
  induction p as [|c p IH]; [done|]. cbn [OsPath.cut].
  destruct (OsPath.cut p) as [h t]. cbn [fst snd] in IH.
  destruct (OsPath.is_sep c); cbn [fst snd String.length]; [lia|].
  destruct h; cbn [fst snd String.length] in *; lia.
Qed.

Lemma rstrip_if_length q s :
  (String.length (PyStr.rstrip_if q s) <= String.length s)%nat.
Proof.
  induction s as [|c s IH]; [done|]. cbn [PyStr.rstrip_if].
  destruct (PyStr.rstrip_if q s); [destruct (q c)|]; cbn [String.length] in *; lia.
Qed.

(** A path with a last component is not its own directory. *)
Lemma dirname_neq p : OsPath.basename p <> "" -> OsPath.dirname p <> p.
Proof.
  rewrite basename_cut. unfold OsPath.dirname, OsPath.split.
  pose proof (cut_length p) as Hl. destruct (OsPath.cut p) as [h t].
  cbn [fst snd] in *. intros Ht.
  assert (0 < String.length t)%nat by (destruct t; [done|cbn [String.length]; lia]).
  pose proof (rstrip_if_length OsPath.is_sep h).
  intros E. apply (f_equal String.length) in E.
  destruct (PyStr.rstrip_if OsPath.is_sep h); cbn [fst String.length] in *; lia.
Qed.

Lemma split_length name :
  (String.length (OsPath.split name).1 + String.length (OsPath.split name).2
   <= String.length name)%nat.
Proof.
  unfold OsPath.split. pose proof (cut_length name) as Hl.
  destruct (OsPath.cut name) as [h t]. cbn [fst snd] in Hl.
  pose proof (rstrip_if_length OsPath.is_sep h).
  destruct (PyStr.rstrip_if OsPath.is_sep h); cbn [fst snd String.length] in *; lia.
Qed.

Lemma mkdir_not_recursion p d : Disk.mkdir p d <> Raise RecursionError.
Proof.
  unfold Disk.mkdir, Disk.parent. destruct (d !! p); [done|].
  destruct (PyStr.rstrip_if OsPath.is_sep (OsPath.dirname p)); [done|].
  by destruct (d !! OsPath.dirname p) as [[]|].
Qed.

(** The fuel that [Disk.makedirs] gives to the recursion is enough: the
    head of a path is shorter than the path. *)
Lemma makedirs_from_fuel fuel name d :
  (String.length name < fuel)%nat ->
  Disk.makedirs_from fuel name d <> Raise RecursionError.
Proof.
  revert name d. induction fuel as [|fuel IH]; intros name d Hf; [lia|].
  cbn [Disk.makedirs_from].
  pose proof (split_length name) as Hs.
  destruct (OsPath.split name) as [head tail]. cbn [fst snd] in Hs.
  assert (forall h t,
            (String.length h + String.length t <= String.length name)%nat ->
            (if negb (String.eqb h "") && negb (String.eqb t "") && negb (Disk.exists_ d h)
             then match Disk.makedirs_from fuel h d with
                  | Ok d' => if String.eqb t "." then Ok d' else Disk.mkdir name d'
                  | Raise FileExistsError =>
                      if String.eqb t "." then Ok d else Disk.mkdir name d
                  | Raise e => Raise e
                  end
             else Disk.mkdir name d) <> Raise RecursionError) as Hstep.
  { intros h t Hl.
    destruct (negb (String.eqb h "") && negb (String.eqb t "") && negb (Disk.exists_ d h))
      eqn:Hc; [|apply mkdir_not_recursion].
    assert (String.length h < fuel)%nat as Hh.
    { destruct t; [by rewrite andb_false_r in Hc|]. cbn [String.length] in Hl. lia. }
    specialize (IH h d Hh).
    destruct (Disk.makedirs_from fuel h d) as [d'|e].
    - destruct (String.eqb t "."); [done|apply mkdir_not_recursion].
    - destruct e; try done.
      destruct (String.eqb t "."); [done|apply mkdir_not_recursion]. }
  destruct tail as [|c tail].
  - pose proof (split_length head) as Hs2.
    destruct (OsPath.split head) as [head' tail']. cbn [fst snd String.length] in *.
    apply Hstep. lia.
  - apply Hstep. lia.
Qed.

Lemma makedirs_total name d : Disk.makedirs name d <> Raise RecursionError.
Proof. apply makedirs_from_fuel. lia. Qed.

End DiskFacts.

Section CoverWrites.

Context `{Externals}.
Variable cfg : Config.

Lemma glob_glob_pure p w : exists found, glob_glob p w = (w, Ok found).
Proof.
  unfold glob_glob. run. destruct (Disk.has_magic p); [by eexists|].
  destruct (OsPath.basename p); by eexists.
Qed.

Lemma os_makedirs_ok p w w' :
  os_makedirs p w = (w', Ok tt) ->
  exists d', Disk.makedirs p (fs w) = Ok d' /\ w' = with_fs (logged w [EMakedirs p]) d'.
Proof.
  unfold os_makedirs. run. destruct (Disk.makedirs p (fs w)) as [d'|e]; [|done].
  intros [= <-]. by exists d'.
Qed.

Lemma open_w_ok p w w' :
  open_w p w = (w', Ok tt) ->
  exists d', Disk.create p (fs w) = Ok d' /\ w' = with_fs (logged w [EOpen p]) d'.
Proof.
  unfold open_w. run. destruct (Disk.create p (fs w)) as [d'|e]; [|done].
  intros [= <-]. by exists d'.
Qed.

Lemma file_write_eq p data w :
  file_write p data w
  = (with_fs (logged w [EWrite p data]) (<[p := File data]> (fs w)), Ok tt).
Proof. done. Qed.

(** One cover stored: the calls made and what the disk holds afterwards. *)
Lemma store_cover_ok u resp w w' :
  store_cover cfg u resp w = (w', Ok tt) ->
  exists mk,
    (mk = [] \/ mk = [EMakedirs (convert_cover_url_to_path cfg u).1])
    /\ trace w' = trace w ++ mk ++ [EOpen (convert_cover_url_to_path cfg u).2;
                                   EWrite (convert_cover_url_to_path cfg u).2 (content resp)]
    /\ environ w' = environ w
    /\ fs w' !! (convert_cover_url_to_path cfg u).2 = Some (File (content resp))
    /\ (forall k v, k <> (convert_cover_url_to_path cfg u).2 ->
                    fs w !! k = Some v -> fs w' !! k = Some v)
    /\ (forall k, fs w !! k = Some Dir -> fs w' !! k = Some Dir)
    /\ Disk.parent (fs w') (convert_cover_url_to_path cfg u).2 = Ok tt.
Proof.
  unfold store_cover.
  destruct (convert_cover_url_to_path cfg u) as [dir file]. cbn [fst snd].
  destruct (glob_glob_pure dir w) as [found Hg].
  rewrite (bind_ok _ _ _ _ _ Hg).
  (* the directory *)
  assert (forall w1, (match found with [] => os_makedirs dir | _ :: _ => ret tt end) w = (w1, Ok tt) ->
            exists mk d1, (mk = [] \/ mk = [EMakedirs dir])
              /\ w1 = with_fs (logged w mk) d1
              /\ (forall k v, fs w !! k = Some v -> d1 !! k = Some v)) as Hdir.
  { intros w1. destruct found.
    - intros (d1 & Hm & ->)%os_makedirs_ok. exists [EMakedirs dir], d1.
      split; [by right|]. split; [done|].
      intros k v. by eapply makedirs_from_keeps.
    - intros [= <-]. exists [], (fs w). split; [by left|].
      by rewrite logged_nil, with_fs_same. }
  unfold bind at 1.
  destruct ((match found with [] => os_makedirs dir | _ :: _ => ret tt end) w)
    as [w1 [[]|e]] eqn:E1; [|done].
  destruct (Hdir w1 eq_refl) as (mk & d1 & Hmk & -> & Hkeep).
  (* the file *)
  unfold bind at 1.
  destruct (open_w file (with_fs (logged w mk) d1)) as [w2 [[]|e]] eqn:E2; [|done].
  apply open_w_ok in E2 as (d2 & Hc & ->). cbn [with_fs logged fs environ trace] in Hc.
  apply create_ok in Hc as (-> & Hp & Hnd & Hb).
  rewrite file_write_eq. intros [= <-].
  exists mk. cbn [with_fs logged fs environ trace].
  split; [done|]. split; [by rewrite <- !app_assoc|]. split; [done|].
  split; [by rewrite lookup_insert_eq|].
  split; [|split].
  - intros k v Hk Hv. rewrite !lookup_insert_ne by done. by apply Hkeep.
  - intros k Hk. assert (k <> file) as Hne.
    { intros ->. apply Hnd. by apply Hkeep. }
    rewrite !lookup_insert_ne by done. by apply Hkeep.
  - apply (parent_mono d1); [done|].
    intros k Hk. assert (k <> file) as Hne by (intros ->; by apply Hnd).
    by rewrite !lookup_insert_ne.
Qed.

Lemma last_written_cons (f c : string) saved p c' :
  last_written ((f, c) :: saved) p = Some c' ->
  last_written saved p = Some c' \/ ((p ∉ saved.*1) /\ p = f /\ c' = c).
Proof.
  unfold last_written. rewrite reverse_cons, list_to_map_app.
  intros [Hl|[Hn Hs]]%lookup_union_Some_raw; [by left|]. right.
  apply not_elem_of_list_to_map in Hn. rewrite fmap_reverse, elem_of_reverse in Hn.
  cbn [list_to_map foldr] in Hs.
  apply lookup_insert_Some in Hs as [[<- <-]|[_ Hs]]; [done|].
  by rewrite lookup_empty in Hs.
Qed.

Abbreviation store_pair :=
  (fun ur : string * Response => store_cover cfg ur.1 ur.2).

Abbreviation path_and_bytes :=
  (fun ur : string * Response => ((convert_cover_url_to_path cfg ur.1).2, content ur.2)).

(** The covers stored one after the other. *)
Lemma store_all_ok (l : list (string * Response)) w w' :
  for_each l store_pair w = (w', Ok tt) ->
  (exists t,
     trace w' = trace w ++ t
     /\ cover_writes t = path_and_bytes <$> l
     /\ cover_opens t = (path_and_bytes <$> l).*1
     /\ forallb is_disk_call t = true
     /\ (forall d, d ∈ cover_makedirs t ->
                   d ∈ (fun ur : string * Response =>
                          (convert_cover_url_to_path cfg ur.1).1) <$> l))
  /\ environ w' = environ w
  /\ (forall p c, last_written (path_and_bytes <$> l) p = Some c ->
                  fs w' !! p = Some (File c))
  /\ (forall p, p ∈ (path_and_bytes <$> l).*1 -> Disk.parent (fs w') p = Ok tt)
  /\ (forall k v, k ∉ (path_and_bytes <$> l).*1 -> fs w !! k = Some v ->
                  fs w' !! k = Some v)
  /\ (forall k, fs w !! k = Some Dir -> fs w' !! k = Some Dir).
Proof.
  revert w. induction l as [|[u resp] l IH]; intros w; cbn [for_each].
  - intros [= <-]. cbn [fmap list_fmap].
    split; [exists []; by rewrite app_nil_r|].
    split; [done|]. split; [|split; [|split; by auto]].
    + intros p c. unfold last_written. rewrite reverse_nil, list_to_map_nil, lookup_empty.
      intros Hn. discriminate Hn.
    + by intros p ?%elem_of_nil.
  - unfold bind. cbn [fst snd].
    destruct (store_cover cfg u resp w) as [w1 [[]|e]] eqn:E1; [|done].
    intros E2.
    apply store_cover_ok in E1
      as (mk & Hmk & Ht1 & He1 & Hf1 & Hk1 & Hd1 & Hp1).
    apply IH in E2
      as ((t2 & Ht2 & Hw2 & Ho2 & Hc2 & Hm2) & He2 & Hl2 & Hp2 & Hk2 & Hd2).
    cbn [fmap list_fmap fst snd] in *.
    split; [|split; [|split; [|split; [|split]]]].
    + exists ((mk ++ [EOpen (convert_cover_url_to_path cfg u).2;
                     EWrite (convert_cover_url_to_path cfg u).2 (content resp)]) ++ t2).
      rewrite Ht2, Ht1. split; [by rewrite <- !app_assoc|].
      unfold cover_writes, cover_opens, cover_makedirs in *.
      rewrite !omap_app, !forallb_app, Hw2, Ho2, Hc2.
      destruct Hmk as [-> | ->]; cbn [omap list_omap app forallb is_disk_call andb].
      * repeat split; try done. intros d Hd. right. by apply Hm2.
      * repeat split; try done. intros d [->|Hd]%elem_of_cons; [by left|].
        right. by apply Hm2.
    + congruence.
    + intros p c [Hl | (Hn & -> & ->)]%last_written_cons; [by apply Hl2|].
      by apply Hk2.
    + intros p [->|Hp]%elem_of_cons; [|by apply Hp2].
      by apply (parent_mono (fs w1)).
    + intros k v [Hne Hn]%not_elem_of_cons Hv. apply Hk2; [done|]. by apply Hk1.
    + intros k Hk. by apply Hd2, Hd1.
Qed.

End CoverWrites.

Section CoverLoop.

Context `{Externals}.
Variable cfg : Config.

Lemma save_cover_at (pre us : list string) u r w :
  save_cover cfg (pre ++ u :: us) (length pre, r) w =
    match r with
    | Some resp => if Response_ok resp then store_cover cfg u resp w else (w, Ok tt)
    | None => (w, Ok tt)
    end.
Proof.
  unfold save_cover, store_cover. destruct r as [resp|]; [|done].
  destruct (Response_ok resp); [|done]. cbn [negb].
  rewrite list_lookup_middle by done. run.
  by destruct (convert_cover_url_to_path cfg u).
Qed.

(** The loop over the numbered results stores the covers that were fetched,
    in order. *)
Lemma save_covers_from (pre us : list string) (rs : list (option Response)) w :
  length us = length rs ->
  for_each (zip (seq (length pre) (length rs)) rs) (save_cover cfg (pre ++ us)) w
  = for_each (fetched us rs) (fun ur => store_cover cfg ur.1 ur.2) w.
Proof.
  revert pre us w. induction rs as [|r rs IH]; intros pre [|u us] w Hl; try done.
  cbn [length seq zip zip_with for_each]. unfold bind at 1.
  rewrite save_cover_at.
  assert (forall w1,
            for_each (zip (seq (S (length pre)) (length rs)) rs)
              (save_cover cfg (pre ++ u :: us)) w1
            = for_each (fetched us rs) (fun ur => store_cover cfg ur.1 ur.2) w1) as Hrest.
  { intros w1. specialize (IH (pre ++ [u]) us w1).
    rewrite length_app, Nat.add_1_r, <- app_assoc in IH. apply IH.
    cbn [length] in Hl. lia. }
  unfold fetched. cbn [zip zip_with omap list_omap fst snd].
  destruct r as [resp|]; [|apply Hrest].
  destruct (Response_ok resp); [|apply Hrest].
  cbn [for_each fst snd]. unfold bind.
  destruct (store_cover cfg u resp w) as [w1 [[]|e]]; [apply Hrest|done].
Qed.

Lemma save_covers_eq (urls : list string) (rs : list (option Response)) w :
  length rs = length urls ->
  for_each (enumerate rs) (save_cover cfg urls) w
  = for_each (fetched urls rs) (fun ur => store_cover cfg ur.1 ur.2) w.
Proof. intros Hl. by apply (save_covers_from [] urls rs). Qed.

Lemma fetched_length (urls : list string) (rs : list (option Response)) :
  length rs = length urls ->
  (length (fetched urls rs) + failures rs = length urls)%nat.
Proof.
  revert urls. induction rs as [|r rs IH]; intros [|u urls] Hl; try done.
  unfold fetched, failures in *. cbn [zip zip_with omap list_omap fst snd List.filter].
  specialize (IH urls). cbn [length] in Hl.
  destruct r as [resp|]; cbn [truthy negb];
    [destruct (Response_ok resp)|]; cbn [negb length]; lia.
Qed.

Lemma download_file_quiet url : quiet (download_file url).
Proof.
  intros w w' r. rewrite download_file_eq. destruct (is_http url).
  - intros [= <- <-]. by eexists.
  - intros [= <- <-]. exists []. by rewrite logged_nil.
Qed.

Lemma pool_map_quiet {A B} (f : A -> M B) l :
  (forall x, quiet (f x)) -> quiet (pool_map f l).
Proof.
  intros Hf. induction l as [|x l IH]; [apply quiet_ret|].
  intros w w' r. rewrite pool_map_cons.
  destruct (f x w) as [w1 [y|e]] eqn:E; destruct (Hf _ _ _ _ E) as (t1 & -> & F1);
    destruct (pool_map f l (logged w t1)) as [w2 r2] eqn:E2;
    destruct (IH _ _ _ E2) as (t2 & -> & F2).
  - intros Hr. exists (t1 ++ t2). rewrite logged_logged in Hr.
    split; [by destruct r2; injection Hr as <- _|]. by rewrite forallb_app, F1, F2.
  - cbn [fst]. intros [= <- _]. exists (t1 ++ t2). rewrite logged_logged.
    split; [done|]. by rewrite forallb_app, F1, F2.
Qed.

(** The fetches: each URL with a scheme is requested once, in the order of
    the list, with the timeout of 60 seconds, and the disk is not called. *)
Lemma pool_map_download_file urls w w1 rs :
  pool_map download_file urls w = (w1, Ok rs) ->
  exists t0, w1 = logged w t0
             /\ forallb (fun e => negb (is_disk_call e)) t0 = true
             /\ requested t0 = (fun u => (u, 60)) <$> List.filter is_http urls.
Proof.
  revert w w1 rs. induction urls as [|u urls IH]; intros w w1 rs.
  - cbn [pool_map]. run. intros [= <- _]. exists []. by rewrite logged_nil.
  - rewrite pool_map_cons, download_file_eq. cbn [List.filter].
    destruct (is_http u).
    + destruct (http _ u 60) as [r|e]; [|done].
      destruct (pool_map download_file urls _) as [w3 [rs0|e]] eqn:E1; [|done].
      intros [= <- _]. apply IH in E1 as (t0 & -> & Hq & Hr).
      eexists. rewrite logged_logged. split; [done|].
      unfold requested in *. rewrite forallb_app, omap_app, Hq, Hr. done.
    + destruct (pool_map download_file urls _) as [w3 [rs0|e]] eqn:E1; [|done].
      intros [= <- _]. by apply IH in E1.
Qed.

(** Only the URLs that begin with a scheme have a response. *)
Lemma fetched_http urls w w1 rs u resp :
  pool_map download_file urls w = (w1, Ok rs) ->
  (u, resp) ∈ fetched urls rs -> is_http u = true.
Proof.
  revert w w1 rs. induction urls as [|u0 urls IH]; intros w w1 rs.
  - cbn [pool_map]. run. intros [= _ <-]. by intros ?%elem_of_nil.
  - rewrite pool_map_cons. destruct (download_file u0 w) as [w2 [r0|e]] eqn:E0; [|done].
    destruct (pool_map download_file urls w2) as [w3 [rs0|e]] eqn:E1; [|done].
    intros [= _ <-]. unfold fetched. cbn [zip zip_with omap list_omap fst snd].
    rewrite download_file_eq in E0.
    destruct r0 as [resp0|]; [destruct (Response_ok resp0)|].
    + intros [[= -> ->]|Hin]%elem_of_cons; [|by eapply IH].
      by destruct (is_http u0).
    + intros Hin. by eapply IH.
    + intros Hin. by eapply IH.
Qed.

End CoverLoop.

Section CoverPaths.

Lemma join_prefix (a b : string) :
  PyStr.startswith b "/" = false -> String.prefix a (OsPath.join a b) = true.
Proof.
  intros Hb. unfold OsPath.join. rewrite Hb.
  destruct (_ || _); apply prefix_append.
Qed.

Lemma replace_head (c : ascii) (old new s : string) :
  exists r, PyStr.replace (String c old) (String c new) (String c s) = String c r.
Proof.
  unfold PyStr.replace. cbn [PyStr.replace_from].
  destruct (String.prefix (String c old) (String c s)).
  - rewrite append_cons. by eexists.
  - by eexists.
Qed.

(** The normal form of a URL with a scheme begins with the scheme, not with
    a separator. *)
Lemma normalize_path_http u :
  is_http u = true -> PyStr.startswith (normalize_path u) "/" = false.
Proof.
  intros Hu.
  assert (exists r, u = String "h" r) as [r ->].
  { unfold is_http, PyStr.startswith in Hu.
    apply orb_prop in Hu as [Hs|Hs]; apply prefix_split in Hs as [r ->];
      rewrite append_cons; by eexists. }
  rewrite normalize_path_eq_spec. unfold normalize_spec.
  destruct (replace_head "h" "ttp://" "ttp/" r) as [r1 ->].
  destruct (replace_head "h" "ttps://" "ttps/" r1) as [r2 ->].
  reflexivity.
Qed.

End CoverPaths.

(** When a fetch raises, so does [download_cover], before any disk call. *)
Lemma download_cover_fetch_raises `{Externals} (cfg : Config) urls w w1 e :
  pool_map download_file urls (logged w [EThreadPool 4]) = (w1, Raise e) ->
  download_cover cfg urls w = (w1, Raise e)
  /\ fs w1 = fs w
  /\ exists t, trace w1 = trace w ++ t
               /\ forallb (fun e => negb (is_disk_call e)) t = true.
Proof.
  intros Hfetch. rewrite download_cover_eq, Hfetch. split; [done|].
  destruct (pool_map_quiet download_file urls download_file_quiet _ _ _ Hfetch)
    as (t0 & -> & Ht0).
  split; [done|]. exists (EThreadPool 4 :: t0). split; [|done].
  cbn [logged trace]. by rewrite <- app_assoc.
Qed.



(** The run of the witness: one file for three URLs, two of them without a
    true result. *)
Example sample_download_run :
  covers_to_save sample_cfg sample_urls sample_results
    = [("bangumi/cover/http/a.com/x.jpg", "JPEG")]
  /\ fs sample_download.1 !! "bangumi/cover/http/a.com/x.jpg" = Some (File "JPEG")
  /\ fs sample_download.1 !! "bangumi/cover/http/a.com" = Some Dir
  /\ fs sample_download.1 !! "bangumi/cover/https/a.com/missing.jpg" = None
  /\ trace sample_download.1
     = [EThreadPool 4;
        EPrint Info "Download: http://a.com/x.jpg"; EGet "http://a.com/x.jpg" 60;
        EPrint Info "Download: https://a.com/missing.jpg";
        EGet "https://a.com/missing.jpg" 60;
        EPoolClose;
        EMakedirs "bangumi/cover/http/a.com";
        EOpen "bangumi/cover/http/a.com/x.jpg";
        EWrite "bangumi/cover/http/a.com/x.jpg" "JPEG"].
Proof. repeat split; vm_compute; reflexivity. Qed.


(** * Further properties of the module *)

(** ** More on [normalize_path] and [convert_cover_url_to_path] *)

Section NormalizePathMore.

Implicit Types (s t old new : string) (c : ascii).

Lemma all_chars_mem (p : ascii -> bool) s :
  PyStr.all_chars (fun c => negb (p c)) s = true
  <-> (forall c, p c = true -> PyStr.mem c s = false).
Proof.
  induction s as [|d r IH]; cbn [PyStr.all_chars PyStr.mem]; [done|].
  rewrite andb_true_iff, IH. split.
  - intros [Hd Hr] c Hc. destruct (Ascii.eqb_spec c d) as [->|]; [|by apply Hr].
    by rewrite Hc in Hd.
  - intros Hs. split.
    + destruct (p d) eqn:Hd; [|done]. specialize (Hs d Hd).
      by rewrite Ascii.eqb_refl in Hs.
    + intros c Hc. specialize (Hs c Hc). by destruct (Ascii.eqb c d).
Qed.

Lemma append_length (a b : string) :
  String.length (a +:+ b) = (String.length a + String.length b)%nat.
Proof.
  induction a as [|x a IH]; [done|]. rewrite append_cons. cbn [String.length]. lia.
Qed.

Lemma Replaced_length old new s t :
  (String.length new <= String.length old)%nat ->
  Replaced old new s t -> (String.length t <= String.length s)%nat.
Proof.
  intros Hl. induction 1 as [|s t _ IH|c s t _ _ IH]; [done|..].
  - rewrite !append_length. lia.
  - cbn [String.length]. lia.
Qed.

Lemma remove_if_length (p : ascii -> bool) s :
  (String.length (PyStr.remove_if p s) <= String.length s)%nat.
Proof.
  induction s as [|d r IH]; [done|]. cbn [PyStr.remove_if].
  destruct (p d); cbn [String.length]; lia.
Qed.

Lemma drop_leading_separator_length s :
  (String.length (drop_leading_separator s) <= String.length s)%nat.
Proof.
  destruct s as [|d r]; [done|].
  destruct d as [[] [] [] [] [] [] [] []]; cbn [drop_leading_separator String.length]; lia.
Qed.

(** A scheme at the head of the text is folded and nothing before the rest
    of the text can take part in a replacement. *)
Lemma normalize_path_scheme_http r :
  normalize_path ("http://" +:+ r)
  = "http/" +:+ PyStr.remove_if is_illegal
                  (PyStr.replace "https://" "https/" (PyStr.replace "http://" "http/" r)).
Proof.
  rewrite normalize_path_eq_spec. unfold normalize_spec.
  rewrite (replace_here "h" "ttp://" "http/" r).
  set (x := PyStr.replace "http://" "http/" r).
  change ("http/" +:+ x) with (String "h" (String "t" (String "t" (String "p" (String "/" x))))).
  rewrite !replace_next by reflexivity.
  reflexivity.
Qed.

Lemma normalize_path_scheme_https r :
  normalize_path ("https://" +:+ r)
  = "https/" +:+ PyStr.remove_if is_illegal
                   (PyStr.replace "https://" "https/" (PyStr.replace "http://" "http/" r)).
Proof.
  rewrite normalize_path_eq_spec. unfold normalize_spec.
  assert (PyStr.replace "http://" "http/" ("https://" +:+ r)
          = "https://" +:+ PyStr.replace "http://" "http/" r) as ->.
  { change ("https://" +:+ r)
      with (String "h" (String "t" (String "t" (String "p" (String "s"
              (String ":" (String "/" (String "/" r)))))))).
    by rewrite !replace_next by reflexivity. }
  rewrite (replace_here "h" "ttps://" "https/").
  reflexivity.
Qed.

End NormalizePathMore.

(** X1: the fixed points of [normalize_path] are the texts that hold none
    of the eight illegal characters and do not begin with a separator. *)
Theorem normalize_path_fixed_points :
  forall s : string,
    normalize_path s = s
    <-> PyStr.all_chars (fun c => negb (is_illegal c)) s = true
        /\ PyStr.startswith s "/" = false.
Proof.
  intros s. split.
  - intros E.
    assert (forall c, is_illegal c = true -> PyStr.mem c s = false) as Hl.
    { intros c Hc. rewrite <- E. by apply normalize_path_legal. }
    split; [by apply all_chars_mem|].
    apply drop_leading_separator_fixed. by rewrite <- normalize_path_legal_input.
  - intros [Hl Hs]. rewrite normalize_path_legal_input by by apply all_chars_mem.
    by apply drop_leading_separator_fixed.
Qed.

(** X2: [normalize_path] never makes a text longer. *)
Theorem normalize_path_length :
  forall s : string, (String.length (normalize_path s) <= String.length s)%nat.
Proof.
  intros s. rewrite normalize_path_eq_spec. unfold normalize_spec.
  etransitivity; [apply drop_leading_separator_length|].
  etransitivity; [apply remove_if_length|].
  etransitivity.
  - apply (Replaced_length "https://" "https/"); [cbn; lia|]. by apply replace_Replaced.
  - apply (Replaced_length "http://" "http/"); [cbn; lia|]. by apply replace_Replaced.
Qed.

(** X3: the scheme is kept as the first path segment: the [http] and the
    [https] form of the same address have the normal forms ["http/" + t]
    and ["https/" + t] with one and the same [t], and so never the same
    path. *)
Theorem normalize_path_keeps_scheme :
  forall r : string,
    exists t : string,
      normalize_path ("http://" +:+ r) = "http/" +:+ t
      /\ normalize_path ("https://" +:+ r) = "https/" +:+ t
      /\ normalize_path ("http://" +:+ r) <> normalize_path ("https://" +:+ r).
Proof.
  intros r. eexists. split; [apply normalize_path_scheme_http|].
  split; [apply normalize_path_scheme_https|].
  rewrite normalize_path_scheme_http, normalize_path_scheme_https. discriminate.
Qed.

(** X4: where [convert_cover_url_to_path] puts a cover.  The directory is
    the [dirname] of the file.  When the normal form of the URL does not
    begin with a separator the file lies under the [cover] directory of the
    save root; when it does (a URL that began with two separators), the save
    root is dropped and the file path is the normal form itself. *)
Theorem convert_cover_url_to_path_place :
  forall (cfg : Config) (cover_url : string),
    (convert_cover_url_to_path cfg cover_url).1
      = OsPath.dirname (convert_cover_url_to_path cfg cover_url).2
    /\ if PyStr.startswith (normalize_path cover_url) "/"
       then (convert_cover_url_to_path cfg cover_url).2 = normalize_path cover_url
       else String.prefix (OsPath.join (save_path cfg) "cover")
              (convert_cover_url_to_path cfg cover_url).2 = true.
Proof.
  intros cfg cover_url. split; [done|].
  unfold convert_cover_url_to_path. cbn [snd].
  destruct (PyStr.startswith (normalize_path cover_url) "/") eqn:E.
  - unfold OsPath.join at 1. by rewrite E.
  - by apply join_prefix.
Qed.

Example convert_cover_url_to_path_escapes :
  convert_cover_url_to_path sample_cfg "//etc/cron.d/x" = ("/etc/cron.d", "/etc/cron.d/x").
Proof. reflexivity. Qed.

(** ** More on the version comparisons *)

Section VersionsMore.

Implicit Types a b c : list Z.

Lemma list_gtb_irrefl a : list_gtb a a = false.
Proof. induction a as [|x a IH]; [done|]. by rewrite list_gtb_cons_same. Qed.

Lemma list_gtb_asym a b : list_gtb a b = true -> list_gtb b a = false.
Proof.
  revert b. induction a as [|x a IH]; intros [|y b]; simpl; try done.
  destruct (Z.ltb_spec y x), (Z.ltb_spec x y); try lia; try done. apply IH.
Qed.

Lemma list_gtb_trans a b c :
  list_gtb a b = true -> list_gtb b c = true -> list_gtb a c = true.
Proof.
  revert b c. induction a as [|x a IH]; intros [|y b] [|z c]; simpl; try done.
  destruct (Z.ltb_spec y x), (Z.ltb_spec x y), (Z.ltb_spec z y), (Z.ltb_spec y z),
    (Z.ltb_spec z x), (Z.ltb_spec x z); try lia; try done. apply IH.
Qed.

Lemma list_gtb_total a b : list_gtb a b = false -> list_gtb b a = false -> a = b.
Proof.
  revert b. induction a as [|x a IH]; intros [|y b]; simpl; try done.
  destruct (Z.ltb_spec y x), (Z.ltb_spec x y); try lia; try done.
  intros Ha Hb. assert (x = y) as -> by lia. f_equal. by apply IH.
Qed.

Lemma admin_version_newer_inv v l r :
  admin_version_newer v l = Ok r ->
  exists a b, version_tuple v = Ok a /\ version_tuple l = Ok b /\ r = list_gtb a b.
Proof.
  unfold admin_version_newer.
  destruct (version_tuple v) as [a|]; [|done].
  destruct (version_tuple l) as [b|]; [|done].
  intros [= <-]. by exists a, b.
Qed.

Lemma gtb_cons_same (x : ascii) (s t : string) :
  PyStr.gtb (String x s) (String x t) = PyStr.gtb s t.
Proof. cbn [PyStr.gtb]. by rewrite Nat.ltb_irrefl. Qed.

Lemma gtb_append (p s t : string) : PyStr.gtb (p +:+ s) (p +:+ t) = PyStr.gtb s t.
Proof.
  induction p as [|x p IH]; [done|]. by rewrite !append_cons, gtb_cons_same.
Qed.

End VersionsMore.

(** X5: the comparison of line 255 is a strict total order on the versions
    that parse: a version is never newer than itself, of two versions at
    most one is newer than the other, newer-than is transitive, and two
    versions of which neither is newer have the same list of components. *)
Theorem admin_version_newer_strict_order :
  (forall v, admin_version_newer v v <> Ok true)
  /\ (forall v l, admin_version_newer v l = Ok true -> admin_version_newer l v = Ok false)
  /\ (forall u v l,
        admin_version_newer u v = Ok true -> admin_version_newer v l = Ok true ->
        admin_version_newer u l = Ok true)
  /\ (forall v l,
        admin_version_newer v l = Ok false -> admin_version_newer l v = Ok false ->
        version_tuple v = version_tuple l).
Proof.
  repeat split.
  - intros v (a & b & Ha & Hb & Hr)%admin_version_newer_inv.
    rewrite Ha in Hb. injection Hb as <-. by rewrite list_gtb_irrefl in Hr.
  - intros v l (a & b & Ha & Hb & Hr)%admin_version_newer_inv.
    unfold admin_version_newer. rewrite Ha, Hb. f_equal. by apply list_gtb_asym.
  - intros u v l (a & b & Ha & Hb & Hr)%admin_version_newer_inv
                 (b' & c & Hb' & Hc & Hr')%admin_version_newer_inv.
    rewrite Hb in Hb'. injection Hb' as <-.
    unfold admin_version_newer. rewrite Ha, Hc. f_equal. by eapply list_gtb_trans.
  - intros v l (a & b & Ha & Hb & Hr)%admin_version_newer_inv
               (b' & a' & Hb' & Ha' & Hr')%admin_version_newer_inv.
    rewrite Ha in Ha'. injection Ha' as <-. rewrite Hb in Hb'. injection Hb' as <-.
    rewrite Ha, Hb. f_equal. by apply list_gtb_total.
Qed.

Example admin_version_newer_same_components :
  admin_version_newer "2.02.1" "2.2.1" = Ok false
  /\ admin_version_newer "2.2.1" "2.02.1" = Ok false
  /\ version_tuple "2.02.1" = version_tuple "2.2.1".
Proof. repeat split; vm_compute; reflexivity. Qed.

(** X6: the comparison of line 242 is the order of the characters.  Where,
    after any common beginning, the one version goes on with [9] and the
    other with [10], the one with [9] counts as the newer, whatever follows:
    the step from 9 to 10 is never announced, and the step back is. *)
Theorem core_version_newer_nine_ten :
  forall p ra rb : string,
    core_version_newer (p +:+ "9" +:+ ra) (p +:+ "10" +:+ rb) = true
    /\ core_version_newer (p +:+ "10" +:+ rb) (p +:+ "9" +:+ ra) = false.
Proof.
  intros p ra rb. unfold core_version_newer. by rewrite !gtb_append.
Qed.

(** ** More on [download_cover] *)

Section DownloadCoverMore.

Context `{Externals}.
Variable cfg : Config.

Lemma download_file_no_scheme url w :
  is_http url = false -> download_file url w = (w, Ok None).
Proof. intros Hu. by rewrite download_file_eq, Hu. Qed.

(** The fetches of a list and of its URLs with a scheme: the same calls, the
    same exception, the same covers to keep. *)
Lemma pool_map_with_scheme urls w :
  match pool_map download_file urls w with
  | (w1, Ok rs) =>
      exists rs', pool_map download_file (List.filter is_http urls) w = (w1, Ok rs')
                  /\ fetched (List.filter is_http urls) rs' = fetched urls rs
  | (w1, Raise e) => pool_map download_file (List.filter is_http urls) w = (w1, Raise e)
  end.
Proof.
  revert w. induction urls as [|u urls IH]; intros w; cbn [List.filter].
  - cbn [pool_map]. run. by exists [].
  - destruct (is_http u) eqn:Hu.
    + rewrite !pool_map_cons.
      destruct (download_file u w) as [w1 [r|e]] eqn:E0; specialize (IH w1).
      * destruct (pool_map download_file urls w1) as [w2 [rs|e]] eqn:E1.
        -- destruct IH as (rs' & -> & Hf). exists (r :: rs'). split; [done|].
           unfold fetched in *. cbn [zip zip_with omap list_omap fst snd]. by rewrite Hf.
        -- by rewrite IH.
      * destruct (pool_map download_file urls w1) as [w2 [rs|e1]] eqn:E1; cbn [fst].
        -- by destruct IH as (rs' & -> & _).
        -- by rewrite IH.
    + rewrite pool_map_cons, (download_file_no_scheme u w Hu).
      specialize (IH w).
      destruct (pool_map download_file urls w) as [w2 [rs|e]] eqn:E1; [|done].
      destruct IH as (rs' & E2 & Hf). by exists rs'.
Qed.

(** The calls of the fetches. *)
Lemma pool_map_fetch_calls urls w w1 r :
  pool_map download_file urls w = (w1, r) ->
  exists t, w1 = logged w t /\ forallb is_fetch_call t = true.
Proof.
  revert w w1 r. induction urls as [|u urls IH]; intros w w1 r.
  - cbn [pool_map]. run. intros [= <- _]. exists []. by rewrite logged_nil.
  - rewrite pool_map_cons.
    assert (exists t, (download_file u w).1 = logged w t /\ forallb is_fetch_call t = true)
      as (t1 & E1 & F1).
    { rewrite download_file_eq. destruct (is_http u); [by eexists|].
      exists []. by rewrite logged_nil. }
    destruct (download_file u w) as [w2 r2]. cbn [fst] in E1. subst w2.
    destruct (pool_map download_file urls (logged w t1)) as [w3 r3] eqn:E.
    destruct (IH _ _ _ E) as (t2 & -> & F2).
    assert (w1 = logged (logged w t1) t2 -> 
            exists t, w1 = logged w t /\ forallb is_fetch_call t = true) as Hdone.
    { intros ->. exists (t1 ++ t2). rewrite logged_logged. split; [done|].
      by rewrite forallb_app, F1, F2. }
    destruct r2 as [y|e]; [destruct r3 as [ys|e]|]; cbn [fst];
      intros [= <- _]; by apply Hdone.
Qed.

(** A URL that cannot be fetched makes the fetches raise. *)
Lemma pool_map_unreachable urls url e w :
  In url urls -> is_http url = true ->
  (forall t, http t url 60 = Raise e) ->
  exists w1 e1, pool_map download_file urls w = (w1, Raise e1).
Proof.
  intros Hin Hu Hfail. revert w. induction urls as [|u urls IH]; intros w; [done|].
  rewrite pool_map_cons.
  destruct Hin as [->|Hin].
  - rewrite download_file_eq, Hu, Hfail. by eexists _, _.
  - destruct (download_file u w) as [w1 [r|e1]]; [|by eexists _, _].
    destruct (IH Hin w1) as (w2 & e2 & ->). by eexists _, _.
Qed.

End DownloadCoverMore.


Example download_cover_no_scheme :
  @download_cover offline sample_cfg ["cover.png"; "ftp://a.com/x.jpg"; "//a.com/y.jpg"]
    sample_world
  = (logged sample_world [EThreadPool 4; EPoolClose], Ok tt).
Proof. reflexivity. Qed.

(** X8: one cover that cannot be fetched aborts the whole batch.  When the
    request of some URL of the list always raises, [download_cover] raises;
    it has then started the workers, printed and requested (each request
    with the timeout of 60 seconds) and done nothing else: the pool is not
    closed, the disk is not called and is as before, so that the covers
    fetched before the failure are not saved. *)
Theorem download_cover_one_failure_aborts :
  forall (H : Externals) (cfg : Config) (cover_url_list : list string)
         (url : string) (e : exn) (w : World),
    In url cover_url_list ->
    is_http url = true ->
    (forall t, http t url 60 = Raise e) ->
    exists (w' : World) (e' : exn) (t : list event),
      download_cover cfg cover_url_list w = (w', Raise e')
      /\ w' = logged w (EThreadPool 4 :: t)
      /\ forallb is_fetch_call t = true
      /\ fs w' = fs w.
Proof.
  intros H cfg urls url e w Hin Hu Hfail.
  destruct (pool_map_unreachable urls url e (logged w [EThreadPool 4]) Hin Hu Hfail)
    as (w1 & e1 & E).
  destruct (pool_map_fetch_calls _ _ _ _ E) as (t & -> & Ht).
  exists (logged (logged w [EThreadPool 4]) t), e1, t.
  rewrite download_cover_eq, E. by rewrite logged_logged.
Qed.

Lemma download_cover_one_failure_aborts_witness :
  exists (w' : World) (e' : exn) (t : list event),
    @download_cover cover_server sample_cfg two_covers sample_world = (w', Raise e')
    /\ w' = logged sample_world (EThreadPool 4 :: t)
    /\ forallb is_fetch_call t = true
    /\ fs w' = fs sample_world.
Proof.
  apply (download_cover_one_failure_aborts cover_server sample_cfg two_covers
           "http://b.com/y.jpg" ConnectionError sample_world).
  - simpl. tauto.
  - reflexivity.
  - intros t. reflexivity.
Defined.

(** The first cover had been fetched when the second failed; it is lost. *)
Example download_cover_one_failure_run :
  @download_cover cover_server sample_cfg two_covers sample_world
  = (logged sample_world
       [EThreadPool 4;
        EPrint Info "Download: http://a.com/x.jpg"; EGet "http://a.com/x.jpg" 60;
        EPrint Info "Download: http://b.com/y.jpg"; EGet "http://b.com/y.jpg" 60],
     Raise ConnectionError).
Proof. reflexivity. Qed.

(** ** What a run calls *)

Section CallsOnly.

Context `{Externals}.
Variable P : event -> bool.

Lemma calls_only_silent {A} (m : M A) :
  (forall w, exists r, m w = (w, r)) -> calls_only P m.
Proof.
  intros Hm w w' r E. destruct (Hm w) as [r' E']. rewrite E' in E.
  injection E as <- <-. split; [done|]. exists []. by rewrite app_nil_r.
Qed.

Lemma calls_only_ret {A} (a : A) : calls_only P (ret a).
Proof. apply calls_only_silent. by eexists. Qed.

Lemma calls_only_raise {A} e : calls_only P (@raise A e).
Proof. apply calls_only_silent. by eexists. Qed.

Lemma calls_only_lift {A} (x : result A) : calls_only P (lift x).
Proof. apply calls_only_silent. by eexists. Qed.

Lemma calls_only_get_fs : calls_only P get_fs.
Proof. apply calls_only_silent. by eexists. Qed.

Lemma calls_only_os_getenv key : calls_only P (os_getenv key).
Proof. apply calls_only_silent. by eexists. Qed.

Lemma calls_only_put_fs d : calls_only P (put_fs d).
Proof.
  intros w w' r [= <- <-]. split; [done|]. exists []. by rewrite app_nil_r.
Qed.

Lemma calls_only_emit e : P e = true -> calls_only P (emit e).
Proof.
  intros He w w' r [= <- <-]. split; [done|]. exists [e]. split; [done|].
  simpl. by rewrite He.
Qed.

(** The value that [m] returns satisfies [Q], which the rest may rely on. *)
Lemma calls_only_bind_post {A B} (Q : A -> Prop) (m : M A) (k : A -> M B) :
  (forall w w' a, m w = (w', Ok a) -> Q a) ->
  calls_only P m -> (forall a, Q a -> calls_only P (k a)) -> calls_only P (bind m k).
Proof.
  intros HQ Hm Hk w w' r. unfold bind.
  destruct (m w) as [w1 [a|e]] eqn:E.
  - intros Hr. destruct (Hm _ _ _ E) as (Ee & t1 & Et1 & F1).
    destruct (Hk a (HQ _ _ _ E) _ _ _ Hr) as (Ee' & t2 & Et2 & F2).
    split; [congruence|]. exists (t1 ++ t2). split.
    + by rewrite Et2, Et1, app_assoc.
    + by rewrite forallb_app, F1, F2.
  - intros [= <- <-]. eauto.
Qed.

Lemma calls_only_bind {A B} (m : M A) (k : A -> M B) :
  calls_only P m -> (forall a, calls_only P (k a)) -> calls_only P (bind m k).
Proof.
  intros Hm Hk. apply (calls_only_bind_post (fun _ => True)); auto.
Qed.

Lemma calls_only_select_handler {A} (clauses : list ((exn -> bool) * (exn -> M A))) e :
  Forall (fun ch => forall e, calls_only P (ch.2 e)) clauses ->
  calls_only P (select_handler clauses e).
Proof.
  induction 1 as [|[class handler] rest Hh _ IH]; cbn [select_handler].
  - apply calls_only_raise.
  - destruct (class e); [apply Hh|apply IH].
Qed.

Lemma calls_only_try_except {A} (m : M A) clauses :
  calls_only P m -> Forall (fun ch => forall e, calls_only P (ch.2 e)) clauses ->
  calls_only P (try_except m clauses).
Proof.
  intros Hm Hc w w' r. unfold try_except.
  destruct (m w) as [w1 [a|e]] eqn:E.
  - intros [= <- <-]. eauto.
  - intros Hr. destruct (Hm _ _ _ E) as (Ee & t1 & Et1 & F1).
    destruct (calls_only_select_handler clauses e Hc _ _ _ Hr) as (Ee' & t2 & Et2 & F2).
    split; [congruence|]. exists (t1 ++ t2). split.
    + by rewrite Et2, Et1, app_assoc.
    + by rewrite forallb_app, F1, F2.
Qed.

Lemma calls_only_for_each {A} (l : list A) (body : A -> M unit) :
  (forall x, In x l -> calls_only P (body x)) -> calls_only P (for_each l body).
Proof.
  induction l as [|x l IH]; intros Hb; cbn [for_each].
  - apply calls_only_ret.
  - apply calls_only_bind; [apply Hb; by left|].
    intros _. apply IH. intros y Hy. apply Hb. by right.
Qed.

Lemma calls_only_pool_map {A B} (f : A -> M B) (l : list A) :
  (forall x, calls_only P (f x)) -> calls_only P (pool_map f l).
Proof.
  intros Hf. induction l as [|x l IH]; [apply calls_only_ret|].
  intros w w' r. rewrite pool_map_cons.
  destruct (f x w) as [w1 r1] eqn:E1. destruct (Hf _ _ _ _ E1) as (Ee1 & t1 & Et1 & F1).
  destruct (pool_map f l w1) as [w2 r2] eqn:E2.
  destruct (IH _ _ _ E2) as (Ee2 & t2 & Et2 & F2).
  assert (w' = w2 -> environ w' = environ w
                     /\ exists t, trace w' = trace w ++ t /\ forallb P t = true) as Hdone.
  { intros ->. split; [congruence|]. exists (t1 ++ t2). split.
    - by rewrite Et2, Et1, app_assoc.
    - by rewrite forallb_app, F1, F2. }
  destruct r1 as [y|e]; [destruct r2 as [ys|e]|]; cbn [fst];
    intros [= <- _]; by apply Hdone.
Qed.

Lemma calls_only_on_disk op : calls_only P (on_disk op).
Proof.
  unfold on_disk. apply calls_only_bind; [apply calls_only_get_fs|].
  intros d. destruct (op d); [apply calls_only_put_fs|apply calls_only_raise].
Qed.

Lemma calls_only_on_disk_partial op : calls_only P (on_disk_partial op).
Proof.
  intros w w' r [= <- <-]. split; [done|]. exists []. by rewrite app_nil_r.
Qed.

Lemma calls_only_requests_get url timeout :
  P (EGet url timeout) = true -> calls_only P (requests_get url timeout).
Proof.
  intros He w w' r [= <- <-]. split; [done|]. exists [EGet url timeout].
  split; [done|]. simpl. by rewrite He.
Qed.

Lemma calls_only_time_time : P ETime = true -> calls_only P time_time.
Proof.
  intros He w w' r [= <- <-]. split; [done|]. exists [ETime].
  split; [done|]. simpl. by rewrite He.
Qed.

Lemma calls_only_Response_json r : calls_only P (Response_json r).
Proof.
  unfold Response_json.
  destruct (json_loads (content r)); [apply calls_only_ret|apply calls_only_raise].
Qed.

Lemma calls_only_glob_glob p : calls_only P (glob_glob p).
Proof.
  apply calls_only_silent. intros w. destruct (glob_glob_pure p w) as [found E].
  by eexists.
Qed.

Lemma calls_only_open_w p : P (EOpen p) = true -> calls_only P (open_w p).
Proof.
  intros He. apply calls_only_bind; [by apply calls_only_emit|].
  intros _. apply calls_only_on_disk.
Qed.

Lemma calls_only_file_write p data :
  P (EWrite p data) = true -> calls_only P (file_write p data).
Proof.
  intros He. apply calls_only_bind; [by apply calls_only_emit|].
  intros _. apply calls_only_on_disk.
Qed.

Lemma calls_only_os_makedirs p : P (EMakedirs p) = true -> calls_only P (os_makedirs p).
Proof.
  intros He. apply calls_only_bind; [by apply calls_only_emit|].
  intros _. apply calls_only_on_disk.
Qed.

Lemma calls_only_shutil_rmtree p : P (ERmtree p) = true -> calls_only P (shutil_rmtree p).
Proof.
  intros He. apply calls_only_bind; [by apply calls_only_emit|].
  intros _. apply calls_only_on_disk.
Qed.

Lemma calls_only_tarfile_extractall archive p :
  P (EExtract p) = true -> calls_only P (tarfile_extractall archive p).
Proof.
  intros He. apply calls_only_bind; [by apply calls_only_emit|].
  intros _. apply calls_only_on_disk_partial.
Qed.

Lemma calls_only_shutil_move src dst :
  P (EMove src dst) = true -> calls_only P (shutil_move src dst).
Proof.
  intros He. apply calls_only_bind; [by apply calls_only_emit|].
  intros _. apply calls_only_on_disk_partial.
Qed.

End CallsOnly.

(** One step of a proof that a computation calls only what [P] allows; the
    calls themselves are left as goals [P e = true]. *)
Ltac calls_step :=
  first
    [ apply calls_only_ret | apply calls_only_raise | apply calls_only_lift
    | apply calls_only_Response_json | apply calls_only_glob_glob
    | apply calls_only_get_fs | apply calls_only_os_getenv
    | apply calls_only_emit | apply calls_only_requests_get
    | apply calls_only_time_time | apply calls_only_open_w
    | apply calls_only_file_write | apply calls_only_os_makedirs
    | apply calls_only_shutil_rmtree | apply calls_only_tarfile_extractall
    | apply calls_only_bind; [|intros ?]
    | match goal with
      | |- calls_only _ (if ?b then _ else _) => destruct b
      | |- calls_only _ (match ?x with _ => _ end) => destruct x
      end ].

(** ** More on [get_web_admin] *)

Section GetWebAdminMore.

Context `{Externals}.
Variable cfg : Config.

(** The [try] block returns only with the tarball: after the three
    requests, and never from the branch of the registry error. *)
Lemma get_web_admin_fetch_ok w w1 x :
  get_web_admin_fetch cfg w = (w1, Ok x) ->
  exists version r u,
    x = Some (version, r)
    /\ json_contains "error" version = Ok false
    /\ w1 = logged w [EGet FRONTEND_NPM_URL 60; EGet (PACKAGE_JSON_URL cfg) 60; EGet u 60].
Proof.
  unfold get_web_admin_fetch, requests_get, Response_json, getitem. run.
  destruct (http (trace w) _ _) as [resp1|]; [|done]. run.
  destruct (json_loads (content resp1)) as [doc|]; [|done]. run.
  destruct (http _ _ _) as [resp2|]; [|done]. run.
  destruct (json_loads (content resp2)) as [version|]; [|done]. run.
  destruct (json_contains "error" version) as [[]|] eqn:Herr; [done| |done]. run.
  destruct (json_getitem doc _) as [versions|]; [|done]. run.
  destruct (json_getitem version _) as [v|]; [|done]. run.
  destruct (json_getitem versions v) as [entry|]; [|done]. run.
  destruct (json_getitem entry _) as [dist|]; [|done]. run.
  destruct (json_getitem dist _) as [tar_url|]; [|done]. run.
  destruct tar_url as [| | | |u| |]; try done. run.
  destruct (http _ u _) as [resp3|]; [|done].
  intros [= <- <-]. exists version, resp3, u. split; [done|]. split; [done|].
  unfold logged. by rewrite <- !app_assoc.
Qed.

(** [get_web_admin] by the outcome of its [try] block. *)
Lemma get_web_admin_eq (c : ascii) (rest : string) w :
  get_web_admin cfg (String c rest) w =
    match get_web_admin_fetch cfg
            (logged w [EPrint Info (get_web_admin_banner (String c rest))]) with
    | (w1, Ok (Some (version, r))) => get_web_admin_install cfg (String c rest) version r w1
    | (w1, Ok None) => (w1, Ok tt)
    | (w1, Raise e) =>
        if is_ConnectionError e || is_JSONDecodeError e
        then (logged w1 [EPrint Warning "failed to download web admin"], Ok tt)
        else (w1, Raise e)
    end.
Proof.
  unfold get_web_admin, print_info.
  rewrite (bind_ok _ _ _ _ _ (emit_logged _ w)).
  unfold bind at 1. unfold try_except. cbn [get_web_admin_banner].
  destruct (get_web_admin_fetch cfg _) as [w1 [[[version r]|]|e]]; [done..|].
  cbn [select_handler]. destruct (is_ConnectionError e); [by run|].
  destruct (is_JSONDecodeError e); by run.
Qed.

Lemma get_web_admin_install_eq method version r :
  get_web_admin_install cfg method version r
  = (tar_file <- gzip_read (content r) ;;
     shutil_rmtree (front_static_path cfg) ;;
     get_web_admin_unpack cfg method version tar_file)%M.
Proof. reflexivity. Qed.

Lemma bind_inv {A B} (m : M A) (k : A -> M B) w w' r :
  bind m k w = (w', r) ->
  (exists e, m w = (w', Raise e) /\ r = Raise e)
  \/ (exists w1 a, m w = (w1, Ok a) /\ k a w1 = (w', r)).
Proof.
  unfold bind. destruct (m w) as [w1 [a|e]].
  - intros Hk. right. by exists w1, a.
  - intros [= <- <-]. left. by exists e.
Qed.

Lemma bind_inv_ok {A B} (m : M A) (k : A -> M B) w w' b :
  bind m k w = (w', Ok b) -> exists w1 a, m w = (w1, Ok a) /\ k a w1 = (w', Ok b).
Proof. intros [(e & _ & [=])|Hk]%bind_inv. done. Qed.

Lemma on_disk_inv op w w' r :
  on_disk op w = (w', r) ->
  match op (fs w) with
  | Ok d => w' = with_fs w d /\ r = Ok tt
  | Raise e => w' = w /\ r = Raise e
  end.
Proof. unfold on_disk. run. destruct (op (fs w)); by intros [= <- <-]. Qed.

End GetWebAdminMore.

Section DiskMore.

(** [os.makedirs] touches no path longer than its argument. *)
Lemma makedirs_from_adds fuel name d d' k :
  Disk.makedirs_from fuel name d = Ok d' ->
  (String.length name < String.length k)%nat -> d' !! k = d !! k.
Proof.
  revert name d d'. induction fuel as [|fuel IH]; intros name d d'; [done|].
  cbn [Disk.makedirs_from]. intros Hm Hk.
  assert (forall d0 d1, Disk.mkdir name d0 = Ok d1 -> d1 !! k = d0 !! k) as Hmk.
  { intros d0 d1 [-> _]%mkdir_ok. apply lookup_insert_ne. intros ->. lia. }
  pose proof (split_length name) as Hs.
  destruct (OsPath.split name) as [head tail]. cbn [fst snd] in Hs.
  assert (forall h t,
            (String.length h <= String.length name)%nat ->
            (if negb (String.eqb h "") && negb (String.eqb t "") && negb (Disk.exists_ d h)
             then match Disk.makedirs_from fuel h d with
                  | Ok d' => if String.eqb t "." then Ok d' else Disk.mkdir name d'
                  | Raise FileExistsError =>
                      if String.eqb t "." then Ok d else Disk.mkdir name d
                  | Raise e => Raise e
                  end
             else Disk.mkdir name d) = Ok d' -> d' !! k = d !! k) as Hstep.
  { intros h t Hl.
    destruct (negb (String.eqb h "") && negb (String.eqb t "") && negb (Disk.exists_ d h));
      [|apply Hmk].
    destruct (Disk.makedirs_from fuel h d) as [d1|e] eqn:E.
    - assert (d1 !! k = d !! k) as <- by (eapply IH; [done|lia]).
      destruct (String.eqb t "."); [by intros [= <-]|apply Hmk].
    - destruct e; try done.
      destruct (String.eqb t "."); [by intros [= <-]|apply Hmk]. }
  destruct tail as [|c tail].
  - pose proof (split_length head) as Hs2.
    destruct (OsPath.split head) as [head' tail']. cbn [fst snd String.length] in *.
    eapply Hstep; [|done]. lia.
  - eapply Hstep; [|done]. lia.
Qed.

Lemma prefix_longer (a b : string) :
  String.prefix (a +:+ "/") b = true -> (String.length a < String.length b)%nat.
Proof.
  intros [r ->]%prefix_split. rewrite !append_length. cbn [String.length]. lia.
Qed.

(** [shutil.rmtree] leaves nothing below the directory. *)
Lemma rmtree_below p d d' k :
  Disk.rmtree p d = Ok d' -> String.prefix (p +:+ "/") k = true -> d' !! k = None.
Proof.
  unfold Disk.rmtree. destruct (d !! p) as [[]|]; try done. intros [= <-] Hk.
  apply map_lookup_filter_None. right. intros n _. cbn [fst].
  unfold Disk.under. rewrite Hk. by rewrite orb_true_r.
Qed.

End DiskMore.

(** X9: a failure of the first step of [get_web_admin] that is neither a
    connection error nor a JSON decoding error (a read timeout, a missing
    key of the registry document, ...) is not handled: the call raises
    it; no warning is printed, and the disk has not been called and is as
    before. *)
Theorem get_web_admin_other_failure_escapes :
  forall (H : Externals) (cfg : Config) (c : ascii) (rest : string)
         (w w1 : World) (e : exn),
    get_web_admin_fetch cfg
      (logged w [EPrint Info (get_web_admin_banner (String c rest))]) = (w1, Raise e) ->
    is_ConnectionError e || is_JSONDecodeError e = false ->
    get_web_admin cfg (String c rest) w = (w1, Raise e)
    /\ fs w1 = fs w
    /\ exists t : list event,
         trace w1 = trace w ++ EPrint Info (get_web_admin_banner (String c rest)) :: t
         /\ forallb (fun e => negb (is_disk_call e)) t = true.
Proof.
  intros H cfg c rest w w1 e Hf He.
  rewrite get_web_admin_eq, Hf, He. split; [done|].
  destruct (get_web_admin_fetch_quiet cfg _ _ _ Hf) as (t & -> & Ft).
  split; [done|]. exists t. split; [|done].
  cbn [logged trace]. by rewrite <- app_assoc.
Qed.

Lemma get_web_admin_other_failure_escapes_witness :
  @get_web_admin (scripted (fun _ _ _ => Raise ReadTimeout) (fun _ => 0%Q)) sample_cfg
    "update" installed_world
  = (logged installed_world
       [EPrint Info "Updateing BGmi frontend";
        EGet "https://registry.npmjs.com/bgmi-frontend/" 60], Raise ReadTimeout)
  /\ fs (logged installed_world
           [EPrint Info "Updateing BGmi frontend";
            EGet "https://registry.npmjs.com/bgmi-frontend/" 60]) = fs installed_world
  /\ exists t : list event,
       trace (logged installed_world
                [EPrint Info "Updateing BGmi frontend";
                 EGet "https://registry.npmjs.com/bgmi-frontend/" 60])
       = trace installed_world ++ EPrint Info (get_web_admin_banner "update") :: t
       /\ forallb (fun e => negb (is_disk_call e)) t = true.
Proof.
  apply (get_web_admin_other_failure_escapes
           (scripted (fun _ _ _ => Raise ReadTimeout) (fun _ => 0%Q)) sample_cfg
           "u" "pdate" installed_world
           (logged installed_world
              [EPrint Info "Updateing BGmi frontend";
               EGet "https://registry.npmjs.com/bgmi-frontend/" 60])
           ReadTimeout); reflexivity.
Defined.

(** X10: when the document of the release holds the key [error],
    [get_web_admin] prints the document and the error line and leaves by
    [SystemExit]: the helper exits, so the [return] written after it is not
    reached.  The tarball is not requested and the disk is not called. *)
Theorem get_web_admin_registry_error_exits :
  forall (H : Externals) (cfg : Config) (c : ascii) (rest : string) (w : World)
         (r1 r2 : Response) (doc version : json),
    http (trace w ++ [EPrint Info (get_web_admin_banner (String c rest))])
      FRONTEND_NPM_URL 60 = Ok r1 ->
    json_loads (content r1) = Some doc ->
    http (trace w ++ [EPrint Info (get_web_admin_banner (String c rest));
                      EGet FRONTEND_NPM_URL 60])
      (PACKAGE_JSON_URL cfg) 60 = Ok r2 ->
    json_loads (content r2) = Some version ->
    json_contains "error" version = Ok true ->
    get_web_admin cfg (String c rest) w
    = (logged w [EPrint Info (get_web_admin_banner (String c rest));
                 EGet FRONTEND_NPM_URL 60;
                 EGet (PACKAGE_JSON_URL cfg) 60;
                 EPrint Plain (json_dumps_indent version);
                 EPrint Error "unexpected npm error"],
       Raise SystemExit).
Proof.
  intros H cfg c rest w r1 r2 doc version H1 J1 H2 J2 He.
  rewrite get_web_admin_eq.
  unfold get_web_admin_fetch, requests_get, Response_json. run.
  cbn [logged trace fs environ]. rewrite H1. run. rewrite J1. run. rewrite <- app_assoc. cbn [app].
  rewrite H2. run. rewrite J2. run. rewrite He. run.
  unfold logged. by rewrite <- !app_assoc.
Qed.

Lemma get_web_admin_registry_error_exits_witness :
  @get_web_admin (registry (JDict {[ "error" := JStr "Not found" ]}) unpack_page) sample_cfg
    "install" installed_world
  = (logged installed_world
       [EPrint Info (get_web_admin_banner "install");
        EGet FRONTEND_NPM_URL 60;
        EGet (PACKAGE_JSON_URL sample_cfg) 60;
        EPrint Plain
          (@json_dumps_indent (registry (JDict {[ "error" := JStr "Not found" ]}) unpack_page)
             (JDict {[ "error" := JStr "Not found" ]}));
        EPrint Error "unexpected npm error"],
     Raise SystemExit).
Proof.
  apply (get_web_admin_registry_error_exits
           (registry (JDict {[ "error" := JStr "Not found" ]}) unpack_page) sample_cfg
           "i" "nstall" installed_world (mkResponse 200 "tgz") (mkResponse 200 "tgz")
           (JDict {[ "error" := JStr "Not found" ]}) (JDict {[ "error" := JStr "Not found" ]}));
    reflexivity.
Defined.

(** ** The calls of [get_web_admin] and of [check_update] *)

Section Footprint.

Context `{Externals}.
Variable cfg : Config.
Variable P : event -> bool.

Local Abbreviation front := (front_static_path cfg).
Local Abbreviation dist := (OsPath.join (OsPath.join (front_static_path cfg) "package") "dist").
Local Abbreviation package_json := (OsPath.join (front_static_path cfg) "package.json").

Hypothesis P_get : forall url, P (EGet url 60) = true.
Hypothesis P_print : forall l message, l <> Info -> P (EPrint l message) = true.
Hypothesis P_rmtree : P (ERmtree front) = true.
Hypothesis P_makedirs : P (EMakedirs front) = true.
Hypothesis P_extract : P (EExtract front) = true.
Hypothesis P_move :
  forall file, PyStr.mem "/" file = false ->
    P (EMove (OsPath.join dist file) (OsPath.join front file)) = true.
Hypothesis P_open : P (EOpen package_json) = true.
Hypothesis P_write : forall data, P (EWrite package_json data) = true.

(** The names that [os.listdir] returns hold no separator. *)
Lemma os_listdir_names p w w' (names : list string) :
  os_listdir p w = (w', Ok names) ->
  forall name, In name names -> PyStr.mem "/" name = false.
Proof.
  unfold os_listdir, Disk.listdir. run.
  destruct (fs w !! p) as [[]|]; try done. intros [= _ <-] name Hin.
  apply list_elem_of_In, list_elem_of_omap in Hin as ([k n] & _ & Hn).
  unfold Disk.entry_name in Hn. cbn [fst] in Hn.
  destruct (Disk.drop_prefix _ k) as [s|]; [|done].
  destruct (String.eqb s "" || PyStr.mem "/" s) eqn:E; [done|].
  injection Hn as <-. by apply orb_false_elim in E as [_ ?].
Qed.

Lemma calls_only_os_listdir p : calls_only P (os_listdir p).
Proof.
  apply calls_only_silent. intros w. unfold os_listdir. run. by eexists.
Qed.

Lemma calls_only_gzip_read data : calls_only P (gzip_read data).
Proof.
  unfold gzip_read.
  destruct (gzip_decompress data); [apply calls_only_ret|apply calls_only_raise].
Qed.

(** A goal [P e = true] for a call of the module. *)
Ltac allowed := first [ assumption | solve [auto] | apply P_print; discriminate ].

Lemma get_web_admin_unpack_calls method version tar_file :
  calls_only P (get_web_admin_unpack cfg method version tar_file).
Proof.
  unfold get_web_admin_unpack, getitem, print_success, tarfile_open.
  apply calls_only_bind; [by apply calls_only_os_makedirs|]. intros _.
  apply calls_only_bind; [apply calls_only_lift|]. intros tar_file_obj.
  apply calls_only_bind; [by apply calls_only_tarfile_extractall|]. intros _.
  apply (calls_only_bind_post P
           (fun names => forall name, In name names -> PyStr.mem "/" name = false)).
  { intros w w' names. apply os_listdir_names. }
  { apply calls_only_os_listdir. }
  intros files Hfiles.
  apply calls_only_bind.
  { apply calls_only_for_each. intros file Hin.
    apply calls_only_shutil_move, P_move. by apply Hfiles. }
  intros _. repeat calls_step; allowed.
Qed.

Lemma get_web_admin_calls method :
  P (EPrint Info (get_web_admin_banner method)) = true ->
  calls_only P (get_web_admin cfg method).
Proof.
  intros P_banner. unfold get_web_admin, print_info.
  apply calls_only_bind.
  { destruct method; [apply calls_only_raise|by apply calls_only_emit]. }
  intros _. apply calls_only_bind.
  - apply calls_only_try_except.
    + unfold get_web_admin_fetch, getitem, print, print_error.
      repeat calls_step; allowed.
    + unfold print_warning.
      repeat (apply Forall_cons_2; [intros e; cbn [snd]; repeat calls_step; allowed|]).
      apply Forall_nil_2.
  - intros [[version r]|]; [|apply calls_only_ret].
    rewrite get_web_admin_install_eq.
    apply calls_only_bind; [apply calls_only_gzip_read|]. intros tar_file.
    apply calls_only_bind; [by apply calls_only_shutil_rmtree|]. intros _.
    apply get_web_admin_unpack_calls.
Qed.

Hypothesis P_banner : P (EPrint Info (get_web_admin_banner "update")) = true.
Hypothesis P_hint :
  P (EPrint Info "Use 'bgmi install' to install BGmi frontend / download delegate") = true.
Hypothesis P_latest_open : P (EOpen (OsPath.join (BGMI_PATH cfg) "latest")) = true.
Hypothesis P_latest_write :
  forall data, P (EWrite (OsPath.join (BGMI_PATH cfg) "latest") data) = true.

Lemma calls_only_open_read p : calls_only P (open_read p).
Proof.
  apply calls_only_silent. intros w. unfold open_read. run. by eexists.
Qed.

(** The steps of the body of [update]; [IH] is what is known of the call
    of [update] that the body makes. *)
Ltac update_steps IH :=
  unfold getitem, print_info, print_warning, print_success, as_str;
  repeat first [ apply get_web_admin_calls; allowed | apply IH
               | apply calls_only_open_read | calls_step ];
  allowed.

Ltac update_handler_steps :=
  unfold print_warning; apply Forall_cons_2; [|apply Forall_nil_2];
  intros ?; cbn [snd]; apply calls_only_emit; allowed.

Lemma try_except_emit {A} (e : event) (k : M A) clauses w :
  try_except (emit e ;; k) clauses w = try_except k clauses (logged w [e]).
Proof. done. Qed.

Lemma try_except_bind {A B} (m : M A) (k : A -> M B) clauses w :
  try_except (x <- m ;; k x) clauses w
  = match m w with
    | (w1, Ok a) => try_except (k a) clauses w1
    | (w1, Raise e) => try_except (raise e) clauses w1
    end.
Proof. unfold try_except, bind. by destruct (m w) as [w1 [a|e]]. Qed.

(** With [mark], [update] prints the line of the check and asks the
    package index, and what follows are calls that [P] allows: the line is
    not among them unless [P] allows that. *)
Lemma update_marked_calls depth w w' r :
  update cfg (S depth) true w = (w', r) ->
  environ w' = environ w
  /\ exists t, trace w' = trace w ++ EPrint Info "Checking update ..."
                             :: EGet "https://pypi.org/pypi/bgmi/json" 60 :: t
               /\ forallb P t = true.
Proof.
  cbn [update negb]. unfold print_info at 1.
  rewrite try_except_emit, try_except_bind. unfold requests_get at 1.
  destruct (http _ _ _) as [resp|e]; intros Hu.
  - match type of Hu with
    | try_except ?body ?clauses _ = _ =>
        assert (calls_only P (try_except body clauses)) as Hc
    end.
    { apply calls_only_try_except; [|update_handler_steps].
      update_steps calls_only_ret. }
    destruct (Hc _ _ _ Hu) as (Ee & t & Et & Ft). split; [done|].
    exists t. split; [|done]. cbn [logged trace] in Et. by rewrite Et, <- !app_assoc.
  - match type of Hu with
    | try_except ?body ?clauses _ = _ =>
        assert (calls_only P (try_except body clauses)) as Hc
    end.
    { apply calls_only_try_except; [apply calls_only_raise|update_handler_steps]. }
    destruct (Hc _ _ _ Hu) as (Ee & t & Et & Ft). split; [done|].
    exists t. split; [|done]. cbn [logged trace] in Et. by rewrite Et, <- !app_assoc.
Qed.

Hypothesis P_check : P (EPrint Info "Checking update ...") = true.

Lemma update_calls depth mark : calls_only P (update cfg depth mark).
Proof.
  induction depth as [|depth IH]; cbn [update]; [apply calls_only_raise|].
  apply calls_only_try_except; [|update_handler_steps].
  update_steps IH.
Qed.

Hypothesis P_time : P ETime = true.
Hypothesis P_marker_open : P (EOpen (version_file cfg)) = true.
Hypothesis P_marker_write : forall data, P (EWrite (version_file cfg) data) = true.

Lemma check_marker_calls (upd : M unit) :
  calls_only P upd -> calls_only P (check_marker cfg upd).
Proof.
  intros Hu. unfold check_marker. fold (version_file cfg).
  repeat first [ apply Hu | apply calls_only_open_read | apply calls_only_try_except
               | calls_step ]; auto.
  apply Forall_cons_2; [|apply Forall_nil_2]. intros e. cbn [snd]. apply calls_only_ret.
Qed.

Lemma check_update_calls mark : calls_only P (check_update cfg mark).
Proof.
  pose proof (update_calls recursion_limit mark) as Hu.
  unfold check_update, check_update_with, os_path_exists.
  fold (version_file cfg).
  repeat first [ apply Hu | apply check_marker_calls | calls_step ]; auto.
Qed.

End Footprint.

Section GetWebAdminRuns.

Context `{Externals}.
Variable cfg : Config.

Lemma mem_startswith (c : ascii) (s : string) :
  PyStr.mem c s = false -> PyStr.startswith s (String c "") = false.
Proof.
  unfold PyStr.startswith. rewrite prefix_one. destruct s as [|d s]; [done|].
  cbn [PyStr.mem]. by destruct (Ascii.eqb c d).
Qed.

Lemma get_web_admin_call_ok :
  (forall url, get_web_admin_call cfg (EGet url 60) = true)
  /\ (forall file, PyStr.mem "/" file = false ->
        get_web_admin_call cfg
          (EMove (OsPath.join (OsPath.join (OsPath.join (front_static_path cfg) "package")
                                 "dist") file)
             (OsPath.join (front_static_path cfg) file)) = true)
  /\ (forall p, String.eqb p p = true).
Proof.
  split; [done|]. split; [|apply String.eqb_refl].
  intros file Hf%mem_startswith. cbn [get_web_admin_call].
  by rewrite !join_prefix.
Qed.

Lemma shutil_rmtree_inv p w w' r :
  shutil_rmtree p w = (w', r) ->
  match Disk.rmtree p (fs w) with
  | Ok d => w' = with_fs (logged w [ERmtree p]) d /\ r = Ok tt
  | Raise e => w' = logged w [ERmtree p] /\ r = Raise e
  end.
Proof.
  unfold shutil_rmtree. rewrite (bind_ok _ _ _ _ _ (emit_logged _ w)).
  intros Hd%on_disk_inv. cbn [logged fs] in Hd. by destruct (Disk.rmtree p (fs w)).
Qed.

Lemma gzip_read_inv data w w' r :
  gzip_read data w = (w', r) ->
  w' = w /\ r = match gzip_decompress data with Some b => Ok b | None => Raise OSError end.
Proof. unfold gzip_read. destruct (gzip_decompress data); by intros [= <- <-]. Qed.

End GetWebAdminRuns.

(** X11: [get_web_admin] returns normally in two ways only.  Either the
    first step failed with a connection or decoding error: the warning is
    the last line printed, the disk was not called and is as before.  Or
    the frontend was installed: the line of success is the last line
    printed, it names the version of the release document, and the file
    [package.json] of the frontend directory holds that document as
    [json.dumps] gives it. *)
Theorem get_web_admin_normal_return :
  forall (H : Externals) (cfg : Config) (method : string) (w w' : World),
    get_web_admin cfg method w = (w', Ok tt) ->
    (fs w' = fs w
     /\ exists t : list event,
          trace w' = trace w ++ t ++ [EPrint Warning "failed to download web admin"]
          /\ forallb (fun e => negb (is_disk_call e)) t = true)
    \/ (exists (version v : json) (t : list event),
          json_getitem version (JStr "version") = Ok v
          /\ trace w' = t ++ [EPrint Success ("Web admin page " +:+ method
                                              +:+ " successfully. version: " +:+ py_str v)]
          /\ fs w' !! OsPath.join (front_static_path cfg) "package.json"
             = Some (File (json_dumps version))).
Proof.
  intros H cfg [|c rest] w w'; [done|].
  rewrite get_web_admin_eq.
  destruct (get_web_admin_fetch cfg _) as [w1 [x|e]] eqn:Hf.
  - destruct (get_web_admin_fetch_ok _ _ _ _ Hf) as (version & r & u & -> & _ & _).
    intros Hi. right. rewrite get_web_admin_install_eq in Hi.
    apply bind_inv_ok in Hi as (w2 & tar_file & _ & Hi).
    apply bind_inv_ok in Hi as (w3 & [] & _ & Hi).
    unfold get_web_admin_unpack in Hi.
    apply bind_inv_ok in Hi as (w4 & [] & _ & Hi).
    apply bind_inv_ok in Hi as (w4' & tar_file_obj & _ & Hi).
    apply bind_inv_ok in Hi as (w5 & [] & _ & Hi).
    apply bind_inv_ok in Hi as (w6 & files & _ & Hi).
    apply bind_inv_ok in Hi as (w7 & [] & _ & Hi).
    apply bind_inv_ok in Hi as (w8 & [] & _ & Hi).
    apply bind_inv_ok in Hi as (w9 & [] & Hw & Hi).
    apply bind_inv_ok in Hi as (w10 & v & Hv & Hi).
    rewrite file_write_eq in Hw. injection Hw as <-.
    unfold getitem, lift in Hv. injection Hv as <- Hv.
    unfold print_success in Hi. rewrite emit_logged in Hi. injection Hi as <-.
    exists version, v. eexists. split; [done|]. split; [done|].
    cbn [logged with_fs fs]. apply lookup_insert_eq.
  - destruct (get_web_admin_fetch_quiet cfg _ _ _ Hf) as (t & -> & Ft).
    destruct (is_ConnectionError e || is_JSONDecodeError e); [|done].
    intros [= <-]. left. split; [done|].
    exists (EPrint Info (get_web_admin_banner (String c rest)) :: t). split; [|done].
    cbn [logged trace]. by rewrite <- !app_assoc.
Qed.

Lemma get_web_admin_normal_return_witness :
  (fs (@get_web_admin (registry registry_document unpack_page) sample_cfg "update"
         installed_world).1 = fs installed_world
   /\ exists t : list event,
        trace (@get_web_admin (registry registry_document unpack_page) sample_cfg "update"
                 installed_world).1
        = trace installed_world ++ t ++ [EPrint Warning "failed to download web admin"]
        /\ forallb (fun e => negb (is_disk_call e)) t = true)
  \/ (exists (version v : json) (t : list event),
        json_getitem version (JStr "version") = Ok v
        /\ trace (@get_web_admin (registry registry_document unpack_page) sample_cfg "update"
                    installed_world).1
           = t ++ [EPrint Success ("Web admin page " +:+ "update"
                                   +:+ " successfully. version: "
                                   +:+ @py_str (registry registry_document unpack_page) v)]
        /\ fs (@get_web_admin (registry registry_document unpack_page) sample_cfg "update"
                 installed_world).1
             !! OsPath.join (front_static_path sample_cfg) "package.json"
           = Some (File (@json_dumps (registry registry_document unpack_page) version))).
Proof.
  apply (get_web_admin_normal_return (registry registry_document unpack_page) sample_cfg
           "update" installed_world).
  vm_compute. reflexivity.
Defined.

(** The run of the witness: an update of an installed frontend. *)
Example get_web_admin_update_run :
  let run := @get_web_admin (registry registry_document unpack_page) sample_cfg "update"
               installed_world in
  trace run.1
  = [EPrint Info "Updateing BGmi frontend";
     EGet "https://registry.npmjs.com/bgmi-frontend/" 60;
     EGet "https://registry.npmjs.com/bgmi-frontend/2.2.1" 60;
     EGet tarball_url 60;
     ERmtree "bgmi/front_static"; EMakedirs "bgmi/front_static";
     EExtract "bgmi/front_static";
     EMove "bgmi/front_static/package/dist/index.html" "bgmi/front_static/index.html";
     EOpen "bgmi/front_static/package.json";
     EWrite "bgmi/front_static/package.json" "package";
     EPrint Success "Web admin page update successfully. version: 2.2.1"]
  /\ run.2 = Ok tt
  /\ fs run.1 !! "bgmi/front_static/index.html" = Some (File "tgz").
Proof. repeat split; vm_compute; reflexivity. Qed.

(** X12: [get_web_admin] downloads before it deletes.  Its first call on
    the disk, if it makes one, is the removal of the frontend directory, and
    it comes after the line of the start and the three requests (the two
    documents of the registry and the tarball) and nothing else; a run that
    does not come that far has not called the disk, which is as before. *)
Theorem get_web_admin_fetches_before_removing :
  forall (H : Externals) (cfg : Config) (method : string) (w w' : World) (r : result unit),
    get_web_admin cfg method w = (w', r) ->
    exists t : list event,
      trace w' = trace w ++ t
      /\ ((fs w' = fs w /\ forallb (fun e => negb (is_disk_call e)) t = true)
          \/ exists (u : string) (t2 : list event),
               t = [EPrint Info (get_web_admin_banner method);
                    EGet FRONTEND_NPM_URL 60;
                    EGet (PACKAGE_JSON_URL cfg) 60;
                    EGet u 60;
                    ERmtree (front_static_path cfg)] ++ t2).
Proof.
  intros H cfg [|c rest] w w' r.
  { intros [= <- <-]. exists []. rewrite app_nil_r. split; [done|]. by left. }
  rewrite get_web_admin_eq.
  destruct (get_web_admin_fetch cfg _) as [w1 [x|e]] eqn:Hf.
  - destruct (get_web_admin_fetch_ok _ _ _ _ Hf) as (version & resp & u & -> & _ & ->).
    rewrite get_web_admin_install_eq, logged_logged. cbn [app].
    intros [(e & [-> _]%gzip_read_inv & ->)|(w2 & tar_file & [-> _]%gzip_read_inv & Hi)]%bind_inv.
    { eexists. split; [done|]. by left. }
    apply bind_inv in Hi as [(e & Hrm%shutil_rmtree_inv & ->)|(w3 & [] & Hrm%shutil_rmtree_inv & Hi)].
    + destruct (Disk.rmtree _ _); [by destruct Hrm|]. destruct Hrm as [-> _].
      rewrite logged_logged. eexists. split; [done|]. right. by exists u, [].
    + destruct (Disk.rmtree _ _) as [d|]; [|by destruct Hrm]. destruct Hrm as [-> _].
      assert (calls_only (fun _ => true)
                (get_web_admin_unpack cfg (String c rest) version tar_file)) as Hc
        by (apply get_web_admin_unpack_calls; done).
      destruct (Hc _ _ _ Hi) as (_ & t2 & Et2 & _).
      rewrite Et2. cbn [with_fs logged trace]. rewrite <- !app_assoc. cbn [app].
      eexists. split; [done|]. right. by exists u, t2.
  - destruct (get_web_admin_fetch_quiet cfg _ _ _ Hf) as (t & -> & Ft).
    destruct (is_ConnectionError e || is_JSONDecodeError e); intros [= <- <-].
    + exists (EPrint Info (get_web_admin_banner (String c rest)) :: t
              ++ [EPrint Warning "failed to download web admin"]).
      split; [cbn [logged trace]; by rewrite <- !app_assoc|]. left. split; [done|].
      cbn [forallb is_disk_call negb andb]. by rewrite forallb_app, Ft.
    + exists (EPrint Info (get_web_admin_banner (String c rest)) :: t).
      split; [cbn [logged trace]; by rewrite <- !app_assoc|]. by left.
Qed.

Lemma get_web_admin_fetches_before_removing_witness :
  exists t : list event,
    trace (@get_web_admin (registry registry_document unpack_page) sample_cfg "update"
             installed_world).1
    = trace installed_world ++ t
    /\ ((fs (@get_web_admin (registry registry_document unpack_page) sample_cfg "update"
               installed_world).1 = fs installed_world
         /\ forallb (fun e => negb (is_disk_call e)) t = true)
        \/ exists (u : string) (t2 : list event),
             t = [EPrint Info (get_web_admin_banner "update");
                  EGet FRONTEND_NPM_URL 60;
                  EGet (PACKAGE_JSON_URL sample_cfg) 60;
                  EGet u 60;
                  ERmtree (front_static_path sample_cfg)] ++ t2).
Proof.
  apply (get_web_admin_fetches_before_removing (registry registry_document unpack_page)
           sample_cfg "update" installed_world _
           (@get_web_admin (registry registry_document unpack_page) sample_cfg "update"
              installed_world).2).
  apply surjective_pairing.
Defined.

(** X13: the second step of [get_web_admin] is not undone when it fails.
    When the tarball has been fetched and decompressed and the frontend
    directory is there, but the archive cannot be opened or its extraction
    fails, the call raises.  By then the old frontend has been removed:
    the disk is one that holds nothing below the frontend directory and
    everything that was outside it, with what the failed extraction itself
    has left on it. *)
Theorem get_web_admin_failed_extraction :
  forall (H : Externals) (cfg : Config) (c : ascii) (rest : string) (w w1 : World)
         (version : json) (r : Response) (tar_file : string),
    get_web_admin_fetch cfg
      (logged w [EPrint Info (get_web_admin_banner (String c rest))])
      = (w1, Ok (Some (version, r))) ->
    gzip_decompress (content r) = Some tar_file ->
    fs w !! front_static_path cfg = Some Dir ->
    (forall archive d, tar_open tar_file = Ok archive ->
       exists e, (tar_extractall archive (front_static_path cfg) d).2 = Raise e) ->
    exists (w' : World) (e' : exn) (d : gmap string node),
      get_web_admin cfg (String c rest) w = (w', Raise e')
      /\ (forall k : string,
            String.prefix (front_static_path cfg +:+ "/") k = true -> d !! k = None)
      /\ (forall (k : string) (v : node),
            Disk.under (front_static_path cfg) k = false ->
            fs w !! k = Some v -> d !! k = Some v)
      /\ (fs w' = d
          \/ exists archive,
               tar_open tar_file = Ok archive
               /\ fs w' = (tar_extractall archive (front_static_path cfg) d).1).
Proof.
  intros H cfg c rest w w1 version r tar_file Hf Hz Hd Htar.
  rewrite get_web_admin_eq, Hf, get_web_admin_install_eq.
  destruct (get_web_admin_fetch_quiet cfg _ _ _ Hf) as (t & -> & _).
  unfold gzip_read. rewrite Hz.
  unfold get_web_admin_unpack, shutil_rmtree, os_makedirs, tarfile_open,
    tarfile_extractall, on_disk_partial. run.
  cbn [logged fs environ trace].
  destruct (Disk.rmtree _ (fs w)) as [d1|e1] eqn:Hd1.
  2:{ unfold Disk.rmtree in Hd1. by rewrite Hd in Hd1. }
  assert (forall k v, Disk.under (front_static_path cfg) k = false ->
                      fs w !! k = Some v -> d1 !! k = Some v) as Hkept1.
  { intros k v Hk Hv. unfold Disk.rmtree in Hd1. rewrite Hd in Hd1.
    injection Hd1 as <-. by apply map_lookup_filter_Some. }
  run. destruct (Disk.makedirs _ d1) as [d2|e2] eqn:Hd2; run.
  - assert (forall k, String.prefix (front_static_path cfg +:+ "/") k = true ->
                      d2 !! k = None) as Hgone.
    { intros k Hk. rewrite (makedirs_from_adds _ _ _ _ k Hd2).
      - by eapply rmtree_below.
      - by apply prefix_longer. }
    assert (forall k v, Disk.under (front_static_path cfg) k = false ->
                        fs w !! k = Some v -> d2 !! k = Some v) as Hkept2.
    { intros k v Hk Hv. eapply makedirs_from_keeps; [exact Hd2|]. by apply Hkept1. }
    destruct (tar_open tar_file) as [archive|e0] eqn:Ho; run.
    + destruct (Htar archive d2 eq_refl) as [e He]. rewrite He.
      eexists _, _, d2. split; [done|]. split; [done|]. split; [done|].
      right. by exists archive.
    + eexists _, _, d2. split; [done|]. split; [done|]. split; [done|]. by left.
  - eexists _, _, d1. split; [done|]. split; [|split; [done|by left]].
    intros k Hk. by eapply rmtree_below.
Qed.

Lemma get_web_admin_failed_extraction_witness :
  exists (w' : World) (e' : exn) (d : gmap string node),
    @get_web_admin (registry registry_document unpack_half) sample_cfg
      "update" installed_world = (w', Raise e')
    /\ (forall k : string,
          String.prefix (front_static_path sample_cfg +:+ "/") k = true -> d !! k = None)
    /\ (forall (k : string) (v : node),
          Disk.under (front_static_path sample_cfg) k = false ->
          fs installed_world !! k = Some v -> d !! k = Some v)
    /\ (fs w' = d
        \/ exists archive,
             @tar_open (registry registry_document unpack_half) "tgz" = Ok archive
             /\ fs w' = (@tar_extractall (registry registry_document unpack_half) archive
                           (front_static_path sample_cfg) d).1).
Proof.
  apply (get_web_admin_failed_extraction
           (registry registry_document unpack_half) sample_cfg
           "u" "pdate" installed_world
           (logged installed_world
              [EPrint Info "Updateing BGmi frontend";
               EGet FRONTEND_NPM_URL 60;
               EGet (PACKAGE_JSON_URL sample_cfg) 60;
               EGet tarball_url 60])
           registry_document (mkResponse 200 "tgz") "tgz").
  - vm_compute. reflexivity.
  - reflexivity.
  - vm_compute. reflexivity.
  - intros archive d _. exists TarError. reflexivity.
Defined.

(** The run of the witness: the pages of the old frontend are gone, and
    the directory that the extraction made before it failed is there. *)
Example get_web_admin_failed_extraction_run :
  let run := @get_web_admin (registry registry_document unpack_half)
               sample_cfg "update" installed_world in
  run.2 = Raise TarError
  /\ fs installed_world !! "bgmi/front_static/index.html" = Some (File "old")
  /\ fs run.1 !! "bgmi/front_static/index.html" = None
  /\ fs run.1 !! "bgmi/front_static/package.json" = None
  /\ fs run.1 !! "bgmi/front_static/package" = Some Dir.
Proof. repeat split; vm_compute; reflexivity. Qed.

(** X14: the calls of [get_web_admin].  Whatever the run, every request
    carries the timeout of 60 seconds; on the disk the function removes,
    creates and extracts into the frontend directory only, moves only
    entries of its [package/dist] to paths that begin with it, and writes
    only its [package.json]; it reads no clock and starts no pool; the
    environment is left as it was. *)
Theorem get_web_admin_footprint :
  forall (H : Externals) (cfg : Config) (method : string) (w w' : World) (r : result unit),
    get_web_admin cfg method w = (w', r) ->
    environ w' = environ w
    /\ exists t : list event,
         trace w' = trace w ++ t /\ forallb (get_web_admin_call cfg) t = true.
Proof.
  intros H cfg method w w' r.
  destruct (get_web_admin_call_ok cfg) as (Hget & Hmove & Heq).
  apply (get_web_admin_calls cfg (get_web_admin_call cfg)); cbn [get_web_admin_call]; auto.
Qed.

Lemma get_web_admin_footprint_witness :
  environ (@get_web_admin (registry registry_document unpack_page) sample_cfg "update"
             installed_world).1 = environ installed_world
  /\ exists t : list event,
       trace (@get_web_admin (registry registry_document unpack_page) sample_cfg "update"
                installed_world).1 = trace installed_world ++ t
       /\ forallb (get_web_admin_call sample_cfg) t = true.
Proof.
  apply (get_web_admin_footprint (registry registry_document unpack_page) sample_cfg
           "update" installed_world _
           (@get_web_admin (registry registry_document unpack_page) sample_cfg "update"
              installed_world).2).
  apply surjective_pairing.
Defined.

(** X15: the calls of [check_update], with or without [mark] and whatever
    the network answers.  Beside the calls of [get_web_admin] it reads the
    clock and writes two files: the marker and the file [latest] of the
    directory of BGmi.  Every request carries the timeout of 60 seconds;
    no pool is started, no traceback printed, and the environment is left
    as it was. *)
Theorem check_update_footprint :
  forall (H : Externals) (cfg : Config) (mark : bool) (w w' : World) (r : result unit),
    check_update cfg mark w = (w', r) ->
    environ w' = environ w
    /\ exists t : list event,
         trace w' = trace w ++ t /\ forallb (check_update_call cfg) t = true.
Proof.
  intros H cfg mark w w' r.
  destruct (get_web_admin_call_ok cfg) as (Hget & Hmove & Heq).
  apply (check_update_calls cfg (check_update_call cfg));
    cbn [check_update_call get_web_admin_call]; auto;
    try (intros; by rewrite Heq, ?orb_true_r).
Qed.

Lemma check_update_footprint_witness :
  environ (@check_update (announcing "4.4.2" "2.2.1") sample_cfg true sample_world).1
  = environ sample_world
  /\ exists t : list event,
       trace (@check_update (announcing "4.4.2" "2.2.1") sample_cfg true sample_world).1
       = trace sample_world ++ t
       /\ forallb (check_update_call sample_cfg) t = true.
Proof.
  apply (check_update_footprint (announcing "4.4.2" "2.2.1") sample_cfg true sample_world _
           (@check_update (announcing "4.4.2" "2.2.1") sample_cfg true sample_world).2).
  apply surjective_pairing.
Defined.

(** The run of the witness: no marker, a newer release on the index, no
    frontend installed. *)
Example check_update_first_run :
  trace (@check_update (announcing "4.4.2" "2.2.1") sample_cfg true sample_world).1
  = [EOpen "bgmi/version"; ETime; EWrite "bgmi/version" "1700000001";
     EPrint Info "Checking update ...";
     EGet "https://pypi.org/pypi/bgmi/json" 60;
     EOpen "bgmi/latest"; EWrite "bgmi/latest" "4.4.2";
     EPrint Warning
       ("Please update bgmi to the latest version 4.4.2." +:+ newline
        +:+ "Then execute `bgmi upgrade` to migrate database");
     EGet "https://registry.npmjs.com/bgmi-frontend/2.2.1" 60;
     EPrint Info "Use 'bgmi install' to install BGmi frontend / download delegate";
     ETime].
Proof. vm_compute. reflexivity. Qed.

(** ** More on [check_update] *)

Section UpdateMore.

Context `{Externals}.
Variable cfg : Config.

Lemma never_returns_raise {A} e : never_returns (@raise A e).
Proof. by intros w w' a. Qed.

Lemma never_returns_bind {A B} (m : M A) (k : A -> M B) :
  (forall a, never_returns (k a)) -> never_returns (bind m k).
Proof.
  intros Hk w w' b. unfold bind. destruct (m w) as [w1 [a|e]]; [apply Hk|done].
Qed.

(** [update] by the outcome of the body of its [try]. *)
Lemma update_handler (body : M unit) w w' r :
  try_except body
    [ (is_Exception,
       fun e => print_warning ("Error occurs when checking update, " +:+ exn_str e)) ] w
  = (w', r) ->
  body w = (w', r) /\ (r = Ok tt \/ r = Raise SystemExit)
  \/ exists w1 e, body w = (w1, Raise e) /\ is_Exception e = true
                  /\ w' = logged w1 [update_warning e] /\ r = Ok tt.
Proof.
  unfold try_except. destruct (body w) as [w1 [[]|e]] eqn:E.
  - intros [= <- <-]. left. split; [done|]. by left.
  - cbn [select_handler]. destruct (is_Exception e) eqn:He.
    + intros [= <- <-]. right. by exists w1, e.
    + intros [= <- <-]. left. split; [done|]. right. by destruct e.
Qed.

End UpdateMore.

(** X16: the nested [update] handles every [Exception] itself (failed
    requests, documents without the expected keys, versions that are no
    numbers, files that cannot be written, and whatever [get_web_admin]
    raises): while the interpreter grants it a frame, the only exception
    that leaves it is [SystemExit]. *)
Theorem update_raises_only_exit :
  forall (H : Externals) (cfg : Config) (depth : nat) (mark : bool)
         (w w' : World) (e : exn),
    update cfg (S depth) mark w = (w', Raise e) -> e = SystemExit.
Proof.
  intros H cfg depth mark w w' e. cbn [update].
  intros [[_ [[=]|[= ->]]]|(w1 & e1 & _ & _ & _ & [=])]%update_handler. done.
Qed.

Lemma update_raises_only_exit_witness :
  (@update (announcing "4.4.1" "2.2.1") sample_cfg 3 false sample_world).2
  = Raise SystemExit
  /\ SystemExit = SystemExit.
Proof.
  split; [vm_compute; reflexivity|].
  apply (update_raises_only_exit (announcing "4.4.1" "2.2.1") sample_cfg 2 false sample_world
           (@update (announcing "4.4.1" "2.2.1") sample_cfg 3 false sample_world).1).
  vm_compute. reflexivity.
Defined.

(** X17: without [mark] the nested [update] never returns from a check
    that went through: after a complete check it calls itself again and
    then leaves by [SystemExit] (lines 259-261).  So when it returns, it
    has caught an exception, and the warning of that exception is the last
    line printed. *)
Theorem update_unmarked_returns_after_failure :
  forall (H : Externals) (cfg : Config) (depth : nat) (w w' : World),
    update cfg depth false w = (w', Ok tt) ->
    exists (e : exn) (t : list event),
      is_Exception e = true /\ trace w' = trace w ++ t ++ [update_warning e].
Proof.
  intros H cfg [|depth] w w'; [done|]. cbn [update negb].
  intros [[Hb _]|(w1 & e & Hb & He & -> & _)]%update_handler.
  - exfalso. revert Hb. repeat (apply never_returns_bind; intros ?).
    apply never_returns_raise.
  - exists e. revert Hb.
    match goal with |- ?body w = _ -> _ =>
      assert (calls_only (fun _ => true) body) as Hbody end.
    { unfold getitem, print_info, print_warning, print_success, as_str.
      repeat first [ apply get_web_admin_calls; done | apply update_calls; done
                   | apply calls_only_open_read | calls_step ]; auto. }
    intros Hb. destruct (Hbody _ _ _ Hb) as (_ & t & Et & _).
    exists t. cbn [logged trace]. by rewrite Et, <- app_assoc.
Qed.

Lemma update_unmarked_returns_after_failure_witness :
  exists (e : exn) (t : list event),
    is_Exception e = true
    /\ trace (@update offline sample_cfg 3 false sample_world).1
       = trace sample_world ++ t ++ [@update_warning offline e].
Proof.
  apply (update_unmarked_returns_after_failure offline sample_cfg 3 sample_world).
  vm_compute. reflexivity.
Defined.

(** X18: a first run checks once.  Without a marker, [check_update] writes
    the marker and runs [update]; when [update] returns, the marker it
    wrote is still there and the clock has not gone seven days past the
    time written, the reading of the marker that follows finds it fresh:
    the clock is read once more and [update] does not run a second
    time. *)
Theorem check_update_first_run_checks_once :
  forall (H : Externals) (cfg : Config) (mark : bool) (w w1 : World),
    fs w !! version_file cfg = None ->
    Disk.parent (fs w) (version_file cfg) = Ok tt ->
    update cfg recursion_limit mark (renewed cfg w) = (w1, Ok tt) ->
    fs w1 !! version_file cfg = fs (renewed cfg w) !! version_file cfg ->
    (clock (trace w1) - seven_days
     <= inject_Z (int_of_float (clock (trace w ++ [EOpen (version_file cfg)]))))%Q ->
    check_update cfg mark w = (logged w1 [ETime], Ok tt).
Proof.
  intros H cfg mark w w1 Hm Hp Hu Hkept Hfresh.
  rewrite (check_update_missing cfg mark w Hm Hp), (bind_ok _ _ _ _ _ Hu).
  eapply check_marker_fresh; [|apply int_of_Z|done].
  rewrite Hkept. unfold renewed, stamp. cbn [fs]. apply lookup_insert_eq.
Qed.

Lemma check_update_first_run_checks_once_witness :
  @check_update offline_ticking sample_cfg true sample_world
  = (logged (@update offline_ticking sample_cfg (@recursion_limit offline_ticking) true
               (@renewed offline_ticking sample_cfg sample_world)).1 [ETime], Ok tt).
Proof.
  apply (check_update_first_run_checks_once offline_ticking sample_cfg true sample_world).
  - reflexivity.
  - reflexivity.
  - vm_compute. reflexivity.
  - vm_compute. reflexivity.
  - vm_compute. discriminate.
Defined.

(** X19: what [check_update] does not handle around the marker.  A marker
    path that is a directory makes the reading raise [IsADirectoryError]; a
    marker that is missing and cannot be created (its directory is missing,
    or is a file) makes the opening raise.  Both leave [check_update], only
    [ValueError] being handled there; [update] has not run and nothing has
    been written. *)
Theorem check_update_marker_errors :
  forall (H : Externals) (cfg : Config) (mark : bool) (w : World),
    (fs w !! version_file cfg = Some Dir ->
     check_update cfg mark w = (w, Raise IsADirectoryError))
    /\ (forall e : exn,
          fs w !! version_file cfg = None ->
          Disk.parent (fs w) (version_file cfg) = Raise e ->
          check_update cfg mark w = (logged w [EOpen (version_file cfg)], Raise e)).
Proof.
  intros H cfg mark w. split.
  - intros Hd. by rewrite (check_update_present cfg mark w Dir Hd), check_marker_eq, Hd.
  - intros e Hm Hp.
    unfold check_update, check_update_with, os_path_exists, Disk.exists_, open_w.
    fold (version_file cfg). run. rewrite Hm. cbn [negb]. run.
    unfold Disk.create. cbn [logged fs]. rewrite Hm, Hp.
    pose proof (version_file_basename cfg) as Hb.
    by destruct (OsPath.basename (version_file cfg)).
Qed.

Example check_update_without_directory :
  @check_update offline sample_cfg true empty_world
  = (logged empty_world [EOpen "bgmi/version"], Raise FileNotFoundError).
Proof. vm_compute. reflexivity. Qed.

(** ** More on [episode_filter_regex] *)

Section FilterMore.

Context `{Externals}.
Variable cfg : Config.

Lemma filter_sublist {A} (f : A -> bool) (l : list A) : sublist (List.filter f l) l.
Proof.
  induction l as [|x l IH]; cbn [List.filter]; [constructor|].
  destruct (f x); by constructor.
Qed.

Lemma keyword_filter_sublist data : sublist (keyword_filter cfg data) data.
Proof.
  unfold keyword_filter. destruct (enable_global_filters cfg); [|done].
  apply filter_sublist.
Qed.

Lemma keyword_filter_In data x :
  In x (keyword_filter cfg data)
  <-> In x data
      /\ (enable_global_filters cfg = true ->
          contains_any_words x (exclude_keywords cfg) = false).
Proof.
  unfold keyword_filter, exclude_keywords. destruct (enable_global_filters cfg).
  - rewrite filter_In, negb_true_iff. split; intros [Hx Hc]; split; auto.
  - split; [by intros Hx|by intros [Hx _]].
Qed.

(** The list that reaches the global filters. *)
Lemma episode_filter_regex_inv data regex w w' l :
  episode_filter_regex cfg data regex w = (w', Ok l) ->
  exists kept, sublist kept data /\ l = keyword_filter cfg kept /\ fs w' = fs w
               /\ environ w' = environ w.
Proof.
  unfold episode_filter_regex.
  destruct regex as [[|c regex]|]; run;
    try (intros [= <- <-]; by exists data).
  destruct (re_compile (String c regex)) as [p|]; run.
  - intros [= <- <-]. eexists. split; [apply filter_sublist|done].
  - unfold os_getenv. run. cbn [is_re_error]. cbv beta.
    destruct (str_truthy (environ w !! "DEBUG")); run; [done|].
    intros [= <- <-]. by exists data.
Qed.

End FilterMore.

(** X20: whenever [episode_filter_regex] returns, with or without a regular
    expression and also when the expression does not compile, the result
    is a selection of the episodes given, in their order, and, the global
    filters being enabled, holds no episode that contains one of the global
    keywords (stripped and in lower case); the disk and the environment are
    as before. *)
Theorem episode_filter_regex_selects :
  forall (H : Externals) (cfg : Config) (data : list Episode) (regex : option string)
         (w w' : World) (l : list Episode),
    episode_filter_regex cfg data regex w = (w', Ok l) ->
    sublist l data
    /\ (enable_global_filters cfg = true ->
        forall x, In x l -> contains_any_words x (exclude_keywords cfg) = false)
    /\ fs w' = fs w /\ environ w' = environ w.
Proof.
  intros H cfg data regex w w' l
    (kept & Hk & -> & Hfs & Henv)%episode_filter_regex_inv.
  split; [|split; [|done]].
  - etransitivity; [apply keyword_filter_sublist|done].
  - intros He x Hx%keyword_filter_In. by apply Hx.
Qed.

Lemma episode_filter_regex_selects_witness :
  sublist ["[Sub] Show - 01 [720p]"; "[Sub] Show - 02 [1080p]"] sample_titles
  /\ (enable_global_filters filtering_cfg = true ->
      forall x, In x ["[Sub] Show - 01 [720p]"; "[Sub] Show - 02 [1080p]"] ->
                @contains_any_words library x (@exclude_keywords library filtering_cfg) = false)
  /\ fs sample_world = fs sample_world
  /\ environ sample_world = environ sample_world.
Proof.
  apply (episode_filter_regex_selects library filtering_cfg sample_titles (Some "Show")
           sample_world sample_world).
  vm_compute. reflexivity.
Defined.

(** X21: with a regular expression that compiles, [episode_filter_regex]
    calls nothing and returns the episodes given whose title has a match
    of the expression and which, the global filters being enabled, contain
    none of the global keywords. *)
Theorem episode_filter_regex_members :
  forall (H : Externals) (cfg : Config) (data : list Episode) (c : ascii) (rest : string)
         (p : pattern) (w : World),
    re_compile (String c rest) = Some p ->
    exists l : list Episode,
      episode_filter_regex cfg data (Some (String c rest)) w = (w, Ok l)
      /\ forall x : Episode,
           In x l
           <-> In x data
               /\ findall p (title x) <> []
               /\ (enable_global_filters cfg = true ->
                   contains_any_words x (exclude_keywords cfg) = false).
Proof.
  intros H cfg data c rest p w Hre. eexists. split.
  - unfold episode_filter_regex. rewrite Hre. by run.
  - intros x. rewrite keyword_filter_In, filter_In.
    assert (nonempty (findall p (title x)) = true <-> findall p (title x) <> []) as ->
      by (by destruct (findall p (title x))).
    tauto.
Qed.

Lemma episode_filter_regex_members_witness :
  exists l : list string,
    @episode_filter_regex library filtering_cfg sample_titles (Some "Show") sample_world
    = (sample_world, Ok l)
    /\ forall x : string,
         In x l
         <-> In x sample_titles
             /\ @findall library "Show" (@title library x) <> []
             /\ (enable_global_filters filtering_cfg = true ->
                 @contains_any_words library x (@exclude_keywords library filtering_cfg) = false).
Proof.
  apply (episode_filter_regex_members library filtering_cfg sample_titles "S" "how" "Show"
           sample_world).
  reflexivity.
Defined.

Example episode_filter_regex_run :
  @episode_filter_regex library filtering_cfg sample_titles (Some "Show") sample_world
  = (sample_world, Ok ["[Sub] Show - 01 [720p]"; "[Sub] Show - 02 [1080p]"]).
Proof. vm_compute. reflexivity. Qed.

(** The keywords of the sample: stripped of white space of any script, then
    put in lower case. *)
Example exclude_keywords_sample :
  @exclude_keywords library filtering_cfg = ["leopard-raws"; "hevc"; "big5"].
Proof. vm_compute. reflexivity. Qed.

(** ** [test_connection] *)

Section TestConnectionFacts.

Variable head_request : list (string * Z) -> string -> Z -> result Response.
Variable data_source : string.

Local Abbreviation asks sites :=
  (map (fun website : Website => (website_url website, 10))
     (List.filter (fun website => String.eqb data_source (website_id website)) sites)).

(** The requests of the loop: those of the sites of the data source, in the
    order of the table, up to the first that fails. *)
Lemma test_connection_loop_made sites made :
  exists asked rest,
    (test_connection_loop head_request data_source sites made).1 = made ++ asked
    /\ asks sites = asked ++ rest
    /\ ((test_connection_loop head_request data_source sites made).2 = Ok tt -> rest = []).
Proof.
  revert made. induction sites as [|website sites IH]; intros made;
    cbn [test_connection_loop List.filter].
  - exists [], []. by rewrite app_nil_r.
  - destruct (String.eqb data_source (website_id website)); [|apply IH].
    cbn [map]. destruct (head_request made (website_url website) 10) as [r|e].
    + destruct (IH (made ++ [(website_url website, 10)])) as (asked & rest & E1 & E2 & E3).
      exists ((website_url website, 10) :: asked), rest.
      rewrite E1, E2, <- app_assoc. done.
    + exists [(website_url website, 10)], (asks sites). done.
Qed.

(** Where the loop raises, the request made last has raised. *)
Lemma test_connection_loop_raises sites made e :
  (test_connection_loop head_request data_source sites made).2 = Raise e ->
  exists asked url,
    (test_connection_loop head_request data_source sites made).1
      = (made ++ asked) ++ [(url, 10)]
    /\ head_request (made ++ asked) url 10 = Raise e.
Proof.
  revert made. induction sites as [|website sites IH]; intros made;
    cbn [test_connection_loop]; [done|].
  destruct (String.eqb data_source (website_id website)); [|apply IH].
  destruct (head_request made (website_url website) 10) as [r|e0] eqn:E.
  - intros (asked & url & E1 & E2)%IH.
    exists ((website_url website, 10) :: asked), url.
    rewrite E1. rewrite <- !app_assoc in *. done.
  - cbn [fst snd]. intros [= ->]. exists [], (website_url website).
    by rewrite app_nil_r.
Qed.

(** The answers count only as answers. *)
Lemma test_connection_loop_status (r0 : Response) sites made :
  test_connection_loop
    (fun made url timeout =>
       match head_request made url timeout with
       | Ok _ => Ok r0
       | Raise e => Raise e
       end) data_source sites made
  = test_connection_loop head_request data_source sites made.
Proof.
  revert made. induction sites as [|website sites IH]; intros made;
    cbn [test_connection_loop]; [done|].
  destruct (String.eqb data_source (website_id website)); [|apply IH].
  destruct (head_request made (website_url website) 10); [apply IH|done].
Qed.

End TestConnectionFacts.

(** X22: the requests of [test_connection].  They go to the sites of the
    table whose [id] is the data source, in the order of the table, each
    with the timeout of 10 seconds, and stop at the first that raises; when
    the verdict is [True], every such site has been asked; when there is no
    such site, nothing is asked and the verdict is [True]. *)
Theorem test_connection_requests :
  forall (head_request : list (string * Z) -> string -> Z -> result Response)
         (SUPPORT_WEBSITE : list Website) (data_source : string),
    (exists rest : list (string * Z),
       sites_to_ask SUPPORT_WEBSITE data_source
       = (test_connection head_request SUPPORT_WEBSITE data_source).1 ++ rest
       /\ ((test_connection head_request SUPPORT_WEBSITE data_source).2 = Ok true ->
           rest = []))
    /\ (sites_to_ask SUPPORT_WEBSITE data_source = [] ->
        test_connection head_request SUPPORT_WEBSITE data_source = ([], Ok true)).
Proof.
  intros head_request sites data_source. unfold test_connection, sites_to_ask.
  destruct (test_connection_loop_made head_request data_source sites [])
    as (asked & rest & E1 & E2 & E3).
  pose proof (test_connection_loop_raises head_request data_source sites []) as Hr.
  destruct (test_connection_loop head_request data_source sites []) as [made [[]|e]].
  - cbn [fst snd app] in *. subst made. split.
    + exists rest. split; [done|]. intros _. by apply E3.
    + rewrite E2. by intros [-> _]%app_eq_nil.
  - cbn [fst snd app] in *. subst made. split.
    + exists rest. split; [by destruct (is_RequestException e)|].
      by destruct (is_RequestException e).
    + rewrite E2. intros [-> _]%app_eq_nil.
      destruct (Hr e eq_refl) as (asked & url & E & _). by destruct asked.
Qed.

(** X23: the status of an answer plays no part in [test_connection]: with
    every answer replaced by one and the same response, whatever its
    status, the requests and the verdict are the same.  A site that
    answers with a server error counts as connected. *)
Theorem test_connection_ignores_status :
  forall (head_request : list (string * Z) -> string -> Z -> result Response)
         (SUPPORT_WEBSITE : list Website) (data_source : string) (r0 : Response),
    test_connection
      (fun made url timeout =>
         match head_request made url timeout with
         | Ok _ => Ok r0
         | Raise e => Raise e
         end) SUPPORT_WEBSITE data_source
    = test_connection head_request SUPPORT_WEBSITE data_source.
Proof.
  intros. unfold test_connection. by rewrite test_connection_loop_status.
Qed.

Example test_connection_server_error :
  test_connection sample_head sample_sites "bangumi_moe"
  = ([("https://bangumi.moe", 10)], Ok true).
Proof. reflexivity. Qed.

(** X24: the verdict [False] and the exceptions of [test_connection].  The
    verdict is [False] only when the request made last raised an exception
    of the class [RequestException]; the function raises only what the
    request made last raised, and that is of no such class.  In both cases
    the sites after that one have not been asked. *)
Theorem test_connection_failure :
  forall (head_request : list (string * Z) -> string -> Z -> result Response)
         (SUPPORT_WEBSITE : list Website) (data_source : string),
    match (test_connection head_request SUPPORT_WEBSITE data_source).2 with
    | Ok true => True
    | Ok false =>
        exists before url e,
          (test_connection head_request SUPPORT_WEBSITE data_source).1
            = before ++ [(url, 10)]
          /\ head_request before url 10 = Raise e
          /\ is_RequestException e = true
    | Raise e =>
        exists before url,
          (test_connection head_request SUPPORT_WEBSITE data_source).1
            = before ++ [(url, 10)]
          /\ head_request before url 10 = Raise e
          /\ is_RequestException e = false
    end.
Proof.
  intros head_request sites data_source. unfold test_connection.
  pose proof (test_connection_loop_raises head_request data_source sites []) as Hr.
  destruct (test_connection_loop head_request data_source sites []) as [made [[]|e]];
    [done|].
  destruct (Hr e eq_refl) as (asked & url & E & He). cbn [fst snd app] in *.
  destruct (is_RequestException e) eqn:Hc; cbn [fst snd].
  - by exists asked, url, e.
  - by exists asked, url.
Qed.

Example test_connection_unreachable :
  test_connection sample_head sample_sites "mikan_project"
  = ([("https://mikanani.me", 10)], Ok false)
  /\ test_connection (fun _ _ _ => Raise ValueError) sample_sites "mikan_project"
     = ([("https://mikanani.me", 10)], Raise ValueError)
  /\ test_connection sample_head sample_sites "dmhy" = ([], Ok true).
Proof. repeat split; reflexivity. Qed.

(** ** The console helpers *)

Section ConsoleFacts.

Import Console.

Variable c : Colours.

Lemma append_nil_r (s : string) : s +:+ "" = s.
Proof. induction s as [|x s IH]; [done|]. by rewrite append_cons, IH. Qed.

(** What [colorize] makes of one string. *)
Lemma wrap_coloured (colour : string) (s : string) :
  wrap colour match colour with String _ _ => COLOR_END c | EmptyString => "" end (VStr s)
  = Ok (VStr (coloured c colour s)).
Proof.
  unfold wrap, coloured. cbn [add]. destruct colour as [|x colour].
  - by rewrite append_nil_r.
  - by rewrite append_assoc.
Qed.

Lemma color_map_lookup :
  color_map c !! "print_info" = Some ""
  /\ color_map c !! "print_success" = Some (GREEN c)
  /\ color_map c !! "print_warning" = Some (YELLOW c)
  /\ color_map c !! "print_error" = Some (RED c).
Proof. by vm_compute. Qed.

Lemma indicator_map_lookup :
  indicator_map !! "print_info" = Some "[*] "
  /\ indicator_map !! "print_success" = Some "[+] "
  /\ indicator_map !! "print_warning" = Some "[-] "
  /\ indicator_map !! "print_error" = Some "[x] ".
Proof. by vm_compute. Qed.

Lemma indicator_default :
  truth (default (VBool true) ((∅ : gmap string value) !! "indicator")) = true.
Proof. by rewrite lookup_empty. Qed.

(** A helper called with a message and no keyword [indicator]: its
    function gets one argument, the message with indicator and colour. *)
Lemma decorated_message (func_name ind colour : string) (f : function)
    (message : string) (more : list value) (kwargs : gmap string value)
    (out : list output) :
  indicator_map !! func_name = Some ind ->
  color_map c !! func_name = Some colour ->
  truth (default (VBool true) (kwargs !! "indicator")) = true ->
  _indicator func_name (colorize c func_name f) (VStr message :: more) kwargs out
  = match f [VStr (coloured c colour (ind +:+ message))] kwargs out with
    | (out', Ok _) => (out' ++ [Flushed], Ok tt)
    | (out', Raise e) => (out', Raise e)
    end.
Proof.
  intros Hi Hc Hk. unfold _indicator, colorize. rewrite Hk, Hi, Hc.
  cbn [default add wrap_all]. by rewrite wrap_coloured.
Qed.

(** With the keyword [indicator] false the arguments reach [colorize] as
    they were given. *)
Lemma decorated_plain (func_name colour : string) (f : function)
    (args : list value) (kwargs : gmap string value) (out : list output) :
  color_map c !! func_name = Some colour ->
  truth (default (VBool true) (kwargs !! "indicator")) = false ->
  _indicator func_name (colorize c func_name f) args kwargs out
  = match wrap_all colour match colour with String _ _ => COLOR_END c | _ => "" end args with
    | Ok args' =>
        match f args' kwargs out with
        | (out', Ok _) => (out' ++ [Flushed], Ok tt)
        | (out', Raise e) => (out', Raise e)
        end
    | Raise e => (out, Raise e)
    end.
Proof.
  intros Hc Hk. unfold _indicator, colorize. rewrite Hk, Hc. cbn [default].
  by destruct (wrap_all _ _ args).
Qed.

(** The functions under the decorators, called with the message alone. *)
Lemma print_info_body_message (s : string) (out : list output) :
  print_info_body [VStr s] ∅ out = (out ++ [Written (s +:+ newline)], Ok tt).
Proof. by vm_compute. Qed.

Lemma print_line_body_message (s : string) (out : list output) :
  print_line_body [VStr s] ∅ out = (out ++ [Written (s +:+ newline)], Ok tt).
Proof. by vm_compute. Qed.

Lemma print_error_body_message (s : string) (out : list output) :
  print_error_body [VStr s] ∅ out = (out ++ [Written (s +:+ newline)], Raise SystemExit).
Proof. by vm_compute. Qed.

Lemma print_error_body_exit (s : string) (v : value) (out : list output) :
  print_error_body [VStr s] {[ "exit_" := v ]} out
  = (out ++ [Written (s +:+ newline)], if truth v then Raise SystemExit else Ok tt).
Proof. by vm_compute. Qed.

Lemma print_line_body_plain (s : string) (out : list output) :
  print_line_body [VStr s] {[ "indicator" := VBool false ]} out
  = (out ++ [Written (s +:+ newline)], Ok tt).
Proof. by vm_compute. Qed.

Lemma print_line_body_keywords (s : string) (out : list output) :
  print_line_body [] {[ "message" := VStr s; "indicator" := VBool false ]} out
  = (out ++ [Written (s +:+ newline)], Ok tt).
Proof. by vm_compute. Qed.

End ConsoleFacts.

(** X25: what the four helpers write for a message, called without
    keywords.  The indicator is put before the message, then the colour
    code before and the end code after the whole (no end code when the
    colour is empty, and never a colour for [print_info]), then the end of
    line.  Positional arguments after the message are dropped: they do not
    reach the function, so that [print_error(message, False)] exits like
    [print_error(message)].  The three other helpers flush and return. *)
Theorem console_helpers_write :
  forall (c : Console.Colours) (message : string) (more : list Console.value)
         (out : list Console.output),
    Console.print_info c (Console.VStr message :: more) ∅ out
    = (out ++ [Console.Written ("[*] " +:+ message +:+ newline); Console.Flushed], Ok tt)
    /\ Console.print_success c (Console.VStr message :: more) ∅ out
       = (out ++ [Console.Written
                    (Console.coloured c (Console.GREEN c) ("[+] " +:+ message) +:+ newline);
                  Console.Flushed], Ok tt)
    /\ Console.print_warning c (Console.VStr message :: more) ∅ out
       = (out ++ [Console.Written
                    (Console.coloured c (Console.YELLOW c) ("[-] " +:+ message) +:+ newline);
                  Console.Flushed], Ok tt)
    /\ Console.print_error c (Console.VStr message :: more) ∅ out
       = (out ++ [Console.Written
                    (Console.coloured c (Console.RED c) ("[x] " +:+ message) +:+ newline)],
          Raise SystemExit).
Proof.
  intros c message more out.
  destruct (color_map_lookup c) as (Ci & Cs & Cw & Ce).
  destruct indicator_map_lookup as (Ii & Is & Iw & Ie).
  split; [|split; [|split]].
  - unfold Console.print_info.
    rewrite (decorated_message c _ _ _ _ message more ∅ out Ii Ci indicator_default).
    rewrite print_info_body_message. cbn [Console.coloured]. by rewrite <- app_assoc.
  - unfold Console.print_success.
    rewrite (decorated_message c _ _ _ _ message more ∅ out Is Cs indicator_default).
    rewrite print_line_body_message. by rewrite <- app_assoc.
  - unfold Console.print_warning.
    rewrite (decorated_message c _ _ _ _ message more ∅ out Iw Cw indicator_default).
    rewrite print_line_body_message. by rewrite <- app_assoc.
  - unfold Console.print_error.
    rewrite (decorated_message c _ _ _ _ message more ∅ out Ie Ce indicator_default).
    by rewrite print_error_body_message.
Qed.

Example print_error_positional_flag :
  Console.print_error Console.ansi [Console.VStr "no bangumi"; Console.VBool false] ∅ []
  = ([Console.Written (Console.escape "[1;31m" +:+ "[x] no bangumi"
                       +:+ Console.escape "[0m" +:+ newline)],
     Raise SystemExit).
Proof. vm_compute. reflexivity. Qed.

(** X26: [print_error] can be kept from exiting by the keyword [exit_]
    only.  With [exit_] given by keyword the helper writes the line and
    then exits when the value is true, and flushes and returns when it is
    false. *)
Theorem print_error_exit_keyword :
  forall (c : Console.Colours) (message : string) (v : Console.value)
         (out : list Console.output),
    Console.print_error c [Console.VStr message] {[ "exit_" := v ]} out
    = if Console.truth v
      then (out ++ [Console.Written
                      (Console.coloured c (Console.RED c) ("[x] " +:+ message) +:+ newline)],
            Raise SystemExit)
      else (out ++ [Console.Written
                      (Console.coloured c (Console.RED c) ("[x] " +:+ message) +:+ newline);
                    Console.Flushed], Ok tt).
Proof.
  intros c message v out.
  destruct (color_map_lookup c) as (_ & _ & _ & Ce).
  destruct indicator_map_lookup as (_ & _ & _ & Ie).
  unfold Console.print_error.
  rewrite (decorated_message c _ _ _ _ message [] {[ "exit_" := v ]} out Ie Ce)
    by by rewrite lookup_singleton_ne.
  rewrite print_error_body_exit. destruct (Console.truth v); [done|].
  by rewrite <- app_assoc.
Qed.

(** X27: the helpers with the keyword [indicator] false, and with the
    message given by keyword.  Without the indicator the message is
    coloured as it is.  Then every positional argument reaches [colorize],
    which adds the colour to each: a flag after the message raises
    [TypeError] before anything is written.  A message given by keyword is
    not found by [_indicator], which raises [IndexError]; with the
    indicator switched off it is written, without colour. *)
Theorem console_helpers_keywords :
  forall (c : Console.Colours) (message : string) (flag : bool)
         (out : list Console.output),
    Console.print_success c [Console.VStr message] {[ "indicator" := Console.VBool false ]} out
    = (out ++ [Console.Written
                 (Console.coloured c (Console.GREEN c) message +:+ newline);
               Console.Flushed], Ok tt)
    /\ Console.print_error c [Console.VStr message; Console.VBool flag]
         {[ "indicator" := Console.VBool false ]} out
       = (out, Raise TypeError)
    /\ Console.print_success c [] {[ "message" := Console.VStr message ]} out
       = (out, Raise IndexError)
    /\ Console.print_success c []
         {[ "message" := Console.VStr message; "indicator" := Console.VBool false ]} out
       = (out ++ [Console.Written (message +:+ newline); Console.Flushed], Ok tt).
Proof.
  intros c message flag out.
  destruct (color_map_lookup c) as (_ & Cs & _ & Ce).
  split; [|split; [|split]].
  - unfold Console.print_success.
    rewrite (decorated_plain c _ _ _ _ _ _ Cs) by by rewrite lookup_singleton_eq.
    cbn [Console.wrap_all]. rewrite wrap_coloured, print_line_body_plain.
    by rewrite <- app_assoc.
  - unfold Console.print_error.
    rewrite (decorated_plain c _ _ _ _ _ _ Ce) by by rewrite lookup_singleton_eq.
    cbn [Console.wrap_all]. by rewrite wrap_coloured.
  - unfold Console.print_success, Console._indicator.
    by rewrite lookup_singleton_ne.
  - unfold Console.print_success.
    rewrite (decorated_plain c _ _ _ _ _ _ Cs)
      by by rewrite lookup_insert_ne, lookup_singleton_eq.
    cbn [Console.wrap_all]. rewrite print_line_body_keywords.
    by rewrite <- app_assoc.
Qed.

Example print_warning_ansi :
  Console.print_warning Console.ansi [Console.VStr "failed to download web admin"] ∅ []
  = ([Console.Written (Console.escape "[1;33m" +:+ "[-] failed to download web admin"
                       +:+ Console.escape "[0m" +:+ newline);
      Console.Flushed], Ok tt).
Proof. vm_compute. reflexivity. Qed.

(** ** [check_update]: the marker file and the checks *)

Section MarkerChecks.

Context `{Externals}.
Variable cfg : Config.

Lemma no_checks (t : list event) :
  forallb (fun e => negb (is_check_line e)) t = true -> checks t = 0%nat.
Proof.
  unfold checks. induction t as [|e t IH]; [done|]. cbn [forallb List.filter].
  intros [He Ht]%andb_prop. destruct (is_check_line e); [done|]. by apply IH.
Qed.

(** With [mark], one call of [update] is one check: the line of the check
    comes first, the package index is asked, and the line is not printed
    again. *)
Lemma update_marked_checks_once depth w w' r :
  update cfg (S depth) true w = (w', r) ->
  exists t, trace w' = trace w ++ EPrint Info "Checking update ..."
                          :: EGet "https://pypi.org/pypi/bgmi/json" 60 :: t
            /\ checks t = 0%nat.
Proof.
  intros Hu.
  apply (update_marked_calls cfg (fun e => negb (is_check_line e))) in Hu
    as (_ & t & Et & Ft); try done.
  - exists t. split; [done|]. by apply no_checks.
  - by intros [] message.
Qed.

(** [int(x)] for a float: the integer towards zero. *)
Lemma int_of_float_truncates (x : Q) :
  ((0 <= x -> inject_Z (int_of_float x) <= x < inject_Z (int_of_float x) + 1)
   /\ (x < 0 -> inject_Z (int_of_float x) - 1 < x <= inject_Z (int_of_float x)))%Q.
Proof.
  unfold int_of_float. split.
  - intros Hx. apply Qle_bool_iff in Hx. rewrite Hx. split; [apply Qfloor_le|].
    rewrite <- (inject_Z_plus _ 1). apply Qlt_floor.
  - intros Hx. destruct (Qle_bool 0 x) eqn:E.
    + apply Qle_bool_iff in E. by apply Qle_not_lt in E.
    + split; [|apply Qle_ceiling].
      change (inject_Z (Qceiling x) - 1)%Q with (inject_Z (Qceiling x) + inject_Z (-1))%Q.
      rewrite <- inject_Z_plus. apply Qceiling_lt.
Qed.

End MarkerChecks.




(** What [int] makes of a marker: white space of C around the digits and
    decimal digits of any script are read; the separators 28 to 31, which
    [str.strip] would drop, are not, and bytes that are no UTF-8 are not. *)
Example marker_texts :
  PyStr.int (" 1699395199" +:+ newline) = Some 1699395199
  /\ PyStr.int "１６９９" = Some 1699
  /\ PyStr.int "　42　" = Some 42
  /\ PyStr.int (String "028" "42") = None
  /\ PyStr.int (String "255" "42") = None
  /\ PyStr.int "4 2" = None.
Proof. repeat split; vm_compute; reflexivity. Qed.

(** The four cases on a disk, without network and with a clock at
    1700000000 that ticks at every call. *)
Example check_update_no_marker :
  let run := @check_update offline_ticking sample_cfg true sample_world in
  fs run.1 !! "bgmi/version" = Some (File "1700000001")
  /\ trace run.1
     = [EOpen "bgmi/version"; ETime; EWrite "bgmi/version" "1700000001";
        EPrint Info "Checking update ...";
        EGet "https://pypi.org/pypi/bgmi/json" 60;
        EPrint Warning "Error occurs when checking update, ";
        ETime]
  /\ run.2 = Ok tt.
Proof. repeat split; vm_compute; reflexivity. Qed.

Example check_update_old_marker :
  let run := @check_update offline_ticking sample_cfg true (marker_world "1699395199") in
  fs run.1 !! "bgmi/version" = Some (File "1700000002")
  /\ trace run.1
     = [ETime; EOpen "bgmi/version"; ETime; EWrite "bgmi/version" "1700000002";
        EPrint Info "Checking update ...";
        EGet "https://pypi.org/pypi/bgmi/json" 60;
        EPrint Warning "Error occurs when checking update, "]
  /\ run.2 = Ok tt.
Proof. repeat split; vm_compute; reflexivity. Qed.

(** Exactly seven days old is not old enough. *)
Example check_update_week_old_marker :
  @check_update offline_ticking sample_cfg true (marker_world "1699395200")
  = (logged (marker_world "1699395200") [ETime], Ok tt).
Proof. vm_compute. reflexivity. Qed.

Example check_update_malformed_marker :
  @check_update offline_ticking sample_cfg true (marker_world "yesterday")
  = (marker_world "yesterday", Ok tt).
Proof. vm_compute. reflexivity. Qed.

(** The nested [update()] with and without [mark], on a network that
    answers: with [mark] the package index is asked once; without it the
    function calls itself (line 260) until the interpreter refuses another
    frame, and then leaves by [SystemExit]. *)
Example update_marked_and_unmarked :
  (let run := @update (announcing "4.4.1" "2.2.1") sample_cfg 3 true sample_world in
   requests_to "https://pypi.org/pypi/bgmi/json" (trace run.1) = 1%nat /\ run.2 = Ok tt)
  /\ (let run := @update (announcing "4.4.1" "2.2.1") sample_cfg 3 false sample_world in
      requests_to "https://pypi.org/pypi/bgmi/json" (trace run.1) = 3%nat
      /\ run.2 = Raise SystemExit).
Proof. repeat split; vm_compute; reflexivity. Qed.
